(** * A shallow embedding of the Gmail agent (agent.py)

    The agent is a thin orchestration layer: it classifies a chat turn with a
    completion service, dispatches to a handler that talks to a tool gateway,
    formats the gateway's JSON answer and refines the text.  The embedding
    keeps that shape:

    - Python values that travel through the agent (JSON payloads, parameter
      bags, result dictionaries) are a datatype [pyval];
    - Python's [str] is a list of code points, so that [len] and slicing
      count what Python counts;
    - a raised exception is a value of [result]; [try ... except Exception]
      is [rcatch] in pure code and [try_except] in code with effects;
    - the remote services are oracles that see the history of calls, and each
      call is recorded in a trace, so that "no call is made" is a statement
      about the trace. *)

From Stdlib Require Import String Ascii Bool Arith NArith ZArith QArith Lia.
From Stdlib Require Import Decimal List.
Import ListNotations.

Set Implicit Arguments.

Local Open Scope nat_scope.
Local Open Scope list_scope.

(** ** Strings *)

Module PyStr.

(** A code point. *)
Definition char := N.

(** A Python [str]. *)
Definition pystr := list char.

(** An ASCII literal of the source. *)
Definition lit (s : string) : pystr :=
  map N_of_ascii (list_ascii_of_string s).

(** Characters that cannot be written inside a literal here. *)
Definition nl : pystr := [10%N].
Definition dq : pystr := [34%N].

Fixpoint eqb (a b : pystr) : bool :=
  match a, b with
  | [], [] => true
  | x :: a', y :: b' => N.eqb x y && eqb a' b'
  | _, _ => false
  end.

(** [sep.join(parts)] for parts that are all [str]. *)
Fixpoint join (sep : pystr) (parts : list pystr) : pystr :=
  match parts with
  | [] => []
  | [p] => p
  | p :: rest => p ++ sep ++ join sep rest
  end.

(** [s.replace(c, by)] for a one-character pattern [c]. *)
Definition replace_char (c : char) (by_ : pystr) (s : pystr) : pystr :=
  flat_map (fun x => if N.eqb x c then by_ else [x]) s.

Fixpoint is_prefix (p s : pystr) : bool :=
  match p, s with
  | [], _ => true
  | x :: p', y :: s' => N.eqb x y && is_prefix p' s'
  | _ :: _, [] => false
  end.

(** [p in s] for two strings. *)
Fixpoint is_infix (p s : pystr) : bool :=
  is_prefix p s ||
  match s with
  | [] => false
  | _ :: s' => is_infix p s'
  end.

Definition digit (d : nat) : char := N.of_nat (48 + d).

Fixpoint of_uint (u : Decimal.uint) : pystr :=
  match u with
  | Nil => []
  | D0 u => digit 0 :: of_uint u
  | D1 u => digit 1 :: of_uint u
  | D2 u => digit 2 :: of_uint u
  | D3 u => digit 3 :: of_uint u
  | D4 u => digit 4 :: of_uint u
  | D5 u => digit 5 :: of_uint u
  | D6 u => digit 6 :: of_uint u
  | D7 u => digit 7 :: of_uint u
  | D8 u => digit 8 :: of_uint u
  | D9 u => digit 9 :: of_uint u
  end.

(** [str(n)] for a natural number. *)
Definition of_nat (n : nat) : pystr := of_uint (Nat.to_uint n).

(** [str(z)] for an integer. *)
Definition of_Z (z : Z) : pystr :=
  match Z.to_int z with
  | Decimal.Pos u => of_uint u
  | Decimal.Neg u => lit "-" ++ of_uint u
  end.

End PyStr.

Import PyStr.

(** ** Exceptions *)

(** An instance of a subclass of [Exception]: its class and [str(e)]. *)
Record exn : Type := Exn { exn_class : string; exn_msg : pystr }.

Inductive result (A : Type) : Type :=
| Ok (a : A)
| Exc (e : exn).
Arguments Ok {A} a.
Arguments Exc {A} e.

Definition rbind {A B} (r : result A) (k : A -> result B) : result B :=
  match r with
  | Ok a => k a
  | Exc e => Exc e
  end.

Notation "'let*' x ':=' c 'in' k" := (rbind c (fun x => k))
  (at level 10, x name, c at level 100, k at level 200).

(** [try: body / except Exception as e: handler] without effects. *)
Definition rcatch {A} (body : result A) (handler : exn -> result A) : result A :=
  match body with
  | Ok a => Ok a
  | Exc e => handler e
  end.

(** ** Python values *)

(** The values that travel through the agent are what [json.loads] and the
    gateway produce.  A float is a rational: every finite double is one. *)
#[local] Set Warnings "-register-all".
Inductive pyval : Type :=
| VNone
| VBool (b : bool)
| VInt (z : Z)
| VFloat (q : Q)
| VStr (s : pystr)
| VList (l : list pyval)
| VDict (d : list (pystr * pyval)).

#[local] Set Warnings "register-all".

(** A dictionary keeps insertion order and holds each key once. *)
Definition dict := list (pystr * pyval).

Module Py.

Definition type_name (v : pyval) : pystr :=
  match v with
  | VNone => lit "NoneType"
  | VBool _ => lit "bool"
  | VInt _ => lit "int"
  | VFloat _ => lit "float"
  | VStr _ => lit "str"
  | VList _ => lit "list"
  | VDict _ => lit "dict"
  end.

Definition AttributeError (v : pyval) (attr : string) : exn :=
  Exn "AttributeError"
      (lit "'" ++ type_name v ++ lit "' object has no attribute '" ++ lit attr ++ lit "'").

Definition TypeError (msg : pystr) : exn := Exn "TypeError" msg.

(** [bool(v)] *)
Definition truthy (v : pyval) : bool :=
  match v with
  | VNone => false
  | VBool b => b
  | VInt z => negb (Z.eqb z 0)
  | VFloat q => negb (Qeq_bool q 0)
  | VStr s => match s with [] => false | _ => true end
  | VList l => match l with [] => false | _ => true end
  | VDict d => match d with [] => false | _ => true end
  end.

(** [a or b] *)
Definition or_ (a b : pyval) : pyval := if truthy a then a else b.

Fixpoint lookup (d : dict) (k : pystr) : option pyval :=
  match d with
  | [] => None
  | (k', v) :: d' => if PyStr.eqb k' k then Some v else lookup d' k
  end.

(** [d[k] = v] on a dictionary: an existing key keeps its place. *)
Fixpoint store (d : dict) (k : pystr) (v : pyval) : dict :=
  match d with
  | [] => [(k, v)]
  | (k', v') :: d' =>
      if PyStr.eqb k' k then (k', v) :: d' else (k', v') :: store d' k v
  end.

(** [v.get(k, default)]: only dictionaries have [get]. *)
Definition get (v : pyval) (k : string) (default : pyval) : result pyval :=
  match v with
  | VDict d => match lookup d (lit k) with
               | Some x => Ok x
               | None => Ok default
               end
  | _ => Exc (AttributeError v "get")
  end.

(** The numeric value of [bool], [int] and [float], which compare by
    value in Python. *)
Definition number (v : pyval) : option Q :=
  match v with
  | VBool b => Some (inject_Z (if b then 1 else 0))
  | VInt z => Some (inject_Z z)
  | VFloat q => Some q
  | _ => None
  end.

(** [a == b] *)
Fixpoint eq (a b : pyval) {struct a} : bool :=
  let fix eq_list (l1 l2 : list pyval) {struct l1} : bool :=
    match l1, l2 with
    | [], [] => true
    | x :: l1', y :: l2' => eq x y && eq_list l1' l2'
    | _, _ => false
    end in
  let fix sub_dict (d1 : dict) (d2 : dict) {struct d1} : bool :=
    match d1 with
    | [] => true
    | (k, x) :: d1' =>
        match lookup d2 k with
        | Some y => eq x y && sub_dict d1' d2
        | None => false
        end
    end in
  match a, b with
  | VNone, VNone => true
  | VStr s, VStr t => PyStr.eqb s t
  | VList l1, VList l2 => eq_list l1 l2
  | VDict d1, VDict d2 => Nat.eqb (length d1) (length d2) && sub_dict d1 d2
  | (VBool _ | VInt _ | VFloat _), _ =>
      match number a, number b with
      | Some x, Some y => Qeq_bool x y
      | _, _ => false
      end
  | _, _ => false
  end.

(** [v == "literal"] *)
Definition eq_lit (v : pyval) (s : string) : bool :=
  match v with
  | VStr t => PyStr.eqb t (lit s)
  | _ => false
  end.

(** [len(v)] *)
Definition len (v : pyval) : result nat :=
  match v with
  | VStr s => Ok (length s)
  | VList l => Ok (length l)
  | VDict d => Ok (length d)
  | _ => Exc (TypeError (lit "object of type '" ++ type_name v ++ lit "' has no len()"))
  end.

(** The items a [for] loop over [v] visits. *)
Definition iter (v : pyval) : result (list pyval) :=
  match v with
  | VList l => Ok l
  | VStr s => Ok (map (fun c => VStr [c]) s)
  | VDict d => Ok (map (fun kv => VStr (fst kv)) d)
  | _ => Exc (TypeError (lit "'" ++ type_name v ++ lit "' object is not iterable"))
  end.

Definition not_subscriptable (v : pyval) : exn :=
  TypeError (lit "'" ++ type_name v ++ lit "' object is not subscriptable").

(** [v[0]] *)
Definition index0 (v : pyval) : result pyval :=
  match v with
  | VList (x :: _) => Ok x
  | VList [] => Exc (Exn "IndexError" (lit "list index out of range"))
  | VStr (c :: _) => Ok (VStr [c])
  | VStr [] => Exc (Exn "IndexError" (lit "string index out of range"))
  | VDict d => Exc (Exn "KeyError" (lit "0"))
  | _ => Exc (not_subscriptable v)
  end.

(** [v["k"]] for a string key. *)
Definition getitem (v : pyval) (k : string) : result pyval :=
  match v with
  | VDict d => match lookup d (lit k) with
               | Some x => Ok x
               | None => Exc (Exn "KeyError" (lit "'" ++ lit k ++ lit "'"))
               end
  | VStr _ => Exc (TypeError (lit "string indices must be integers, not 'str'"))
  | VList _ => Exc (TypeError (lit "list indices must be integers or slices, not str"))
  | _ => Exc (not_subscriptable v)
  end.

(** [v[:n]].  A dictionary rejects a slice as a key (the class of the
    exception depends on the interpreter's version, the failure does not). *)
Definition slice_to (v : pyval) (n : nat) : result pyval :=
  match v with
  | VStr s => Ok (VStr (firstn n s))
  | VList l => Ok (VList (firstn n l))
  | VDict _ => Exc (Exn "KeyError" (lit "slice(None, " ++ PyStr.of_nat n ++ lit ", None)"))
  | _ => Exc (not_subscriptable v)
  end.

(** [a + b] where [a] is a string or a list (the only left operands the
    agent adds to). *)
Definition add (a b : pyval) : result pyval :=
  match a, b with
  | VStr s, VStr t => Ok (VStr (s ++ t))
  | VStr _, _ =>
      Exc (TypeError (lit "can only concatenate str (not " ++ dq ++ type_name b ++ dq ++ lit ") to str"))
  | VList l, VList m => Ok (VList (l ++ m))
  | VList _, _ =>
      Exc (TypeError (lit "can only concatenate list (not " ++ dq ++ type_name b ++ dq ++ lit ") to list"))
  | _, _ =>
      Exc (TypeError (lit "unsupported operand type(s) for +: '" ++ type_name a
                      ++ lit "' and '" ++ type_name b ++ lit "'"))
  end.

(** ["k" in v] *)
Definition contains (k : string) (v : pyval) : result bool :=
  match v with
  | VDict d => Ok (match lookup d (lit k) with Some _ => true | None => false end)
  | VStr s => Ok (PyStr.is_infix (lit k) s)
  | VList l => Ok (existsb (fun x => eq (VStr (lit k)) x) l)
  | _ => Exc (TypeError (lit "argument of type '" ++ type_name v ++ lit "' is not iterable"))
  end.

(** [v[k] = x] for a string key. *)
Definition setitem (v : pyval) (k : string) (x : pyval) : result pyval :=
  match v with
  | VDict d => Ok (VDict (store d (lit k) x))
  | _ => Exc (TypeError (lit "'" ++ type_name v
                         ++ lit "' object does not support item assignment"))
  end.

(** [sep.join(items)]: every item must be a [str]. *)
Fixpoint join_items (i : nat) (items : list pyval) : result (list pystr) :=
  match items with
  | [] => Ok []
  | VStr s :: rest => let* r := join_items (S i) rest in Ok (s :: r)
  | v :: _ =>
      Exc (TypeError (lit "sequence item " ++ PyStr.of_nat i ++ lit ": expected str instance, "
                      ++ type_name v ++ lit " found"))
  end.

Definition join (sep : pystr) (items : list pyval) : result pystr :=
  let* parts := join_items 0 items in Ok (PyStr.join sep parts).

(** [v.replace(c, by)]: only strings have [replace]. *)
Definition replace (v : pyval) (c : char) (by_ : pystr) : result pystr :=
  match v with
  | VStr s => Ok (PyStr.replace_char c by_ s)
  | _ => Exc (AttributeError v "replace")
  end.

End Py.

(** ** The interpreter's library *)

(** Library functions the agent calls and does not define: [datetime],
    [base64], [bytes.decode], [re], [str.strip], [json] and the [repr] that
    an f-string applies to a value that is not a string or an integer. *)
Record Runtime : Type := {
  datetime : Type;
  fromisoformat : pystr -> result datetime;
  strftime : datetime -> pystr -> pystr;
  b64decode : pystr -> result (list Byte.byte);
  decode_utf8_ignore : list Byte.byte -> pystr;
  re_sub : pystr -> pystr -> pystr -> pystr;
  re_sub_ignorecase : pystr -> pystr -> pystr -> pystr;
  strip : pystr -> pystr;
  json_loads : pyval -> result pyval;
  repr : pyval -> pystr
}.

(** ** The remote services *)

(** What [composio.connected_accounts.initiate] returns. *)
Record ConnectionRequest : Type := {
  redirect_url : pyval;
  request_id : N
}.

(** The arguments of [openai_client.chat.completions.create]. *)
Record Request : Type := {
  model : pystr;
  req_tools : option pyval;
  messages : list (pystr * pyval);
  json_object : bool
}.

(** A completion: [choices] holds [choices[i].message.content]. *)
Record Response : Type := {
  choices : list pyval;
  response_id : N
}.

(** One call to a remote service. *)
Inductive event : Type :=
| EvInitiate (user_id auth_config : pyval)
| EvWaitForConnection (request : ConnectionRequest) (timeout : Z)
| EvToolsGet (user_id : pyval) (toolkits : list pystr)
| EvCompletion (request : Request)
| EvToolCalls (response : Response) (user_id : pyval).

Definition is_completion (ev : event) : bool :=
  match ev with EvCompletion _ => true | _ => false end.

Definition is_gateway (ev : event) : bool :=
  match ev with EvToolCalls _ _ => true | _ => false end.

Definition is_initiate (ev : event) : bool :=
  match ev with EvInitiate _ _ => true | _ => false end.

(** The services answer as they like: each oracle sees the calls made so
    far, so the same request may succeed once and fail the next time. *)
Record Services : Type := {
  connected_accounts_initiate : list event -> pyval -> pyval -> result ConnectionRequest;
  wait_for_connection : list event -> ConnectionRequest -> Z -> result pyval;
  tools_get : list event -> pyval -> list pystr -> result pyval;
  completions_create : list event -> Request -> result Response;
  handle_tool_calls : list event -> Response -> pyval -> result pyval
}.

(** ** The session *)

(** The fields of a [GmailAgent] object.  [composio] and [openai_client]
    are the two module-level clients, that is the [Services]. *)
Record GmailAgent : Type := {
  user_email : pyval;
  auth_config_id : pyval;
  tools : pyval;
  connected_account : pyval;
  connection_request : option ConnectionRequest;
  gmail_tools : list pystr
}.

Definition the_gmail_tools : list pystr :=
  map lit
    [ "GMAIL_CREATE_EMAIL_DRAFT"; "GMAIL_DELETE_DRAFT"; "GMAIL_DELETE_MESSAGE";
      "GMAIL_FETCH_EMAILS"; "GMAIL_FETCH_MESSAGE_BY_MESSAGE_ID"; "GMAIL_GET_ATTACHMENT";
      "GMAIL_LIST_DRAFTS"; "GMAIL_MOVE_TO_TRASH"; "GMAIL_PATCH_LABEL";
      "GMAIL_REPLY_TO_THREAD"; "GMAIL_SEARCH_PEOPLE"; "GMAIL_SEND_DRAFT";
      "GMAIL_SEND_EMAIL"; "GMAIL_ADD_LABEL_TO_EMAIL"; "GMAIL_CREATE_LABEL";
      "GMAIL_FETCH_MESSAGE_BY_THREAD_ID"; "GMAIL_GET_CONTACTS"; "GMAIL_GET_PEOPLE";
      "GMAIL_GET_PROFILE"; "GMAIL_LIST_LABELS"; "GMAIL_LIST_THREADS";
      "GMAIL_MODIFY_THREAD_LABELS"; "GMAIL_REMOVE_LABEL"; "GMAIL_REPLY_TO_EMAIL";
      "GMAIL_MARK_AS_READ"; "GMAIL_MARK_AS_UNREAD"; "GMAIL_SEARCH_EMAILS";
      "GMAIL_CREATE_DRAFT" ]%string.

(** [GmailAgent.__init__] *)
Definition __init__ (user_email auth_config_id : pyval) : GmailAgent :=
  {| user_email := user_email;
     auth_config_id := auth_config_id;
     tools := VNone;
     connected_account := VNone;
     connection_request := None;
     gmail_tools := the_gmail_tools |}.

(** [GmailAgent.is_authenticated] *)
Definition is_authenticated (self : GmailAgent) : bool :=
  negb (match connected_account self with VNone => true | _ => false end)
  && negb (match tools self with VNone => true | _ => false end).

(** ** Process start *)

Module Startup.

(** Calling the class runs [__init__(self, user_email, auth_config_id)]
    on a new object, and Python binds the arguments of the call to the
    three parameters before the body runs.  The order of the checks is the
    interpreter's: the positional arguments fill the parameters from the
    left, then the keywords are bound in the order of the call, then the
    number of positional arguments is checked, and the missing parameters
    are reported last.  The messages are those of CPython 3.10 to 3.12. *)
Definition missing (names : pystr) (several : bool) : exn :=
  Py.TypeError (lit "GmailAgent.__init__() missing "
                ++ (if several then lit "2 required positional arguments: "
                    else lit "1 required positional argument: ")
                ++ names).

Definition multiple_values (name : string) : exn :=
  Py.TypeError (lit "GmailAgent.__init__() got multiple values for argument '"
                ++ lit name ++ lit "'").

Definition unexpected_keyword (name : pystr) : exn :=
  Py.TypeError (lit "GmailAgent.__init__() got an unexpected keyword argument '"
                ++ name ++ lit "'").

Definition too_many_positional (given : nat) : exn :=
  Py.TypeError (lit "GmailAgent.__init__() takes 3 positional arguments but "
                ++ PyStr.of_nat given ++ lit " were given").

(** The two parameters after [self], filled or not. *)
Record Slots : Type := {
  slot_user_email : option pyval;
  slot_auth_config_id : option pyval
}.

(** Binding the keywords, in the order of the call: [self] is always
    filled already, a known name must not be filled yet, and any other
    name is refused. *)
Fixpoint bind_keywords (kwargs : dict) (slots : Slots) : result Slots :=
  match kwargs with
  | [] => Ok slots
  | (k, v) :: rest =>
      if PyStr.eqb k (lit "self") then Exc (multiple_values "self")
      else if PyStr.eqb k (lit "user_email") then
        match slot_user_email slots with
        | Some _ => Exc (multiple_values "user_email")
        | None =>
            bind_keywords rest {| slot_user_email := Some v;
                                  slot_auth_config_id := slot_auth_config_id slots |}
        end
      else if PyStr.eqb k (lit "auth_config_id") then
        match slot_auth_config_id slots with
        | Some _ => Exc (multiple_values "auth_config_id")
        | None =>
            bind_keywords rest {| slot_user_email := slot_user_email slots;
                                  slot_auth_config_id := Some v |}
        end
      else Exc (unexpected_keyword k)
  end.

Definition call_GmailAgent (args : list pyval) (kwargs : dict) : result GmailAgent :=
  let* slots := bind_keywords kwargs {| slot_user_email := nth_error args 0;
                                        slot_auth_config_id := nth_error args 1 |} in
  if 2 <? length args then Exc (too_many_positional (S (length args)))
  else
    match slot_user_email slots, slot_auth_config_id slots with
    | Some u, Some a => Ok (__init__ u a)
    | None, Some _ => Exc (missing (lit "'user_email'") false)
    | Some _, None => Exc (missing (lit "'auth_config_id'") false)
    | None, None => Exc (missing (lit "'user_email' and 'auth_config_id'") true)
    end.

(** What the module's top level needs from the process: the environment
    and the constructors of the clients, which may refuse to start. *)
Record Process : Type := {
  getenv : string -> pyval;
  new_OpenAI : pyval -> result unit;
  new_Composio : pyval -> result unit;
  new_Agent : result unit;
  new_Protocol : result unit
}.

(** The statement that creates the session:
    [gmail_agent = GmailAgent(auth_config_id=os.getenv("GMAIL_AUTH_CONFIG_ID"))]. *)
Definition gmail_agent (p : Process) : result GmailAgent :=
  call_GmailAgent [] [(lit "auth_config_id", getenv p "GMAIL_AUTH_CONFIG_ID")].

(** The module's top level up to and including that statement. *)
Definition module_top_level (p : Process) : result GmailAgent :=
  let* _ := new_OpenAI p (getenv p "OPENAI_API_KEY") in
  if negb (Py.truthy (getenv p "OPENAI_API_KEY")) then
    Exc (Exn "ValueError" (lit "OPENAI_API_KEY environment variable is required."))
  else
    let* _ := new_Composio p (getenv p "COMPOSIO_API_KEY") in
    let* _ := new_Agent p in
    let* _ := new_Protocol p in
    gmail_agent p.

End Startup.

(** ** Text fragments of the reports *)

Module Glyph.
Definition cross : pystr := [0x274C%N].
Definition check : pystr := [0x2705%N].
Definition mailbox_empty : pystr := [0x1F4ED%N].
Definition email : pystr := [0x1F4E7%N].
Definition envelope : pystr := [0x1F4E8%N].
Definition clipboard : pystr := [0x1F4CB%N].
Definition bust : pystr := [0x1F464%N].
Definition calendar : pystr := [0x1F4C5%N].
Definition memo : pystr := [0x1F4DD%N].
Definition page : pystr := [0x1F4C4%N].
Definition label : pystr := [0x1F3F7%N; 0xFE0F%N].
Definition bullet : pystr := [0x2022%N].
Definition busts : pystr := [0x1F465%N].
Definition badge : pystr := [0x1F4DB%N].
Definition mailbox_full : pystr := [0x1F4EC%N].
Definition thread : pystr := [0x1F9F5%N].
Definition clock : pystr := [0x1F570%N; 0xFE0F%N].
Definition hourglass : pystr := [0x23F3%N].
Definition apostrophe : pystr := [0x2019%N].
End Glyph.

(** [s * n] *)
Definition times (s : pystr) (n : nat) : pystr := concat (repeat s n).

(** The marker appended to a text that was cut. *)
Definition ellipsis : pystr := lit "...".

(** ** The result formatter *)

Section Formatter.

Variable rt : Runtime.

(** What an f-string prints for a value. *)
Definition fstr (v : pyval) : pystr :=
  match v with
  | VStr s => s
  | VNone => lit "None"
  | VBool true => lit "True"
  | VBool false => lit "False"
  | VInt z => PyStr.of_Z z
  | _ => repr rt v
  end.

(** The timestamp shown for a message (agent.py 537-544, and again at
    568-575 and 643-650): the bare [except] keeps the raw value. *)
Definition formatted_date_of (date : pyval) : pyval :=
  if Py.truthy date then
    match (let* iso := Py.replace date 90%N (lit "+00:00") in
           let* dt := fromisoformat rt iso in
           Ok (strftime rt dt (lit "%Y-%m-%d %H:%M"))) with
    | Ok s => VStr s
    | Exc _ => date
    end
  else VStr (lit "Unknown Date").

(** [if len(text) > budget: text = text[:budget] + "..."] (agent.py
    550-551, 581-582 and 655-656). *)
Definition cut_to (budget : nat) (text : pyval) : result pyval :=
  let* n := Py.len text in
  if budget <? n then
    let* head := Py.slice_to text budget in
    Py.add head (VStr ellipsis)
  else Ok text.

(** [for i, x in enumerate(items, start)]: the lines each round appends. *)
Fixpoint for_enumerate (body : nat -> pyval -> result (list pystr))
         (i : nat) (items : list pyval) : result (list pystr) :=
  match items with
  | [] => Ok []
  | x :: rest =>
      let* here := body i x in
      let* after := for_enumerate body (S i) rest in
      Ok (here ++ after)
  end.

(** One round of the loop of [_format_emails]. *)
Definition _format_emails_item (i : nat) (msg : pyval) : result (list pystr) :=
  let* subject := Py.get msg "subject" (VStr (lit "No Subject")) in
  let* sender := Py.get msg "sender" (VStr (lit "Unknown Sender")) in
  let* date := Py.get msg "messageTimestamp" (VStr []) in
  let* preview_field := Py.get msg "preview" (VDict []) in
  let* preview := Py.get preview_field "body" (VStr []) in
  let formatted_date := formatted_date_of date in
  let* preview_lines :=
    if Py.truthy preview then
      let* preview := cut_to 200 preview in
      Ok [Glyph.memo ++ lit " Preview: " ++ fstr preview]
    else Ok [] in
  Ok ([ nl ++ Glyph.envelope ++ lit " Email #" ++ PyStr.of_nat i;
        Glyph.clipboard ++ lit " Subject: " ++ fstr subject;
        Glyph.bust ++ lit " From: " ++ fstr sender;
        Glyph.calendar ++ lit " Date: " ++ fstr formatted_date ]
      ++ preview_lines
      ++ [ times (lit "-") 40 ]).

(** [_format_emails] *)
Definition _format_emails (messages : pyval) : result (list pystr) :=
  if negb (Py.truthy messages) then
    Ok [ Glyph.mailbox_empty ++ lit " No emails found matching your criteria." ]
  else
    let* n := Py.len messages in
    let* items := Py.iter messages in
    let* body := for_enumerate _format_emails_item 1 items in
    Ok ([ Glyph.email ++ lit " Found " ++ PyStr.of_nat n ++ lit " email(s):";
          times (lit "=") 60 ] ++ body).

(** [_clean_email_text] *)
Definition _clean_email_text (text : pystr) : pystr :=
  match text with
  | [] => []
  | _ =>
      let text := re_sub rt (lit "\n\s*\n") (nl ++ nl) text in
      let text := re_sub rt (lit " +") (lit " ") text in
      strip rt text
  end.

(** [while len(body_data) % 4: body_data += '=']; three rounds always
    suffice, see [pad4_spec]. *)
Fixpoint pad_loop (rounds : nat) (body_data : pystr) : pystr :=
  match rounds with
  | 0 => body_data
  | S rounds' =>
      if (length body_data mod 4 =? 0) then body_data
      else pad_loop rounds' (body_data ++ lit "=")
  end.

Definition pad4 (body_data : pystr) : pystr := pad_loop 3 body_data.

(** [body_data.replace('-', '+').replace('_', '/')] *)
Definition to_standard_alphabet (body_data : pyval) : result pystr :=
  let* s := Py.replace body_data 45%N (lit "+") in
  Ok (PyStr.replace_char 95%N (lit "/") s).

(** The decode step (agent.py 598-601, 606-609 and 614-617). *)
Definition decode_body (body_data : pyval) : result pystr :=
  let* s := to_standard_alphabet body_data in
  let* bytes := b64decode rt (pad4 s) in
  Ok (decode_utf8_ignore rt bytes).

(** The loop over [parts] of [_extract_email_content]: [Some text] when a
    round returns [text], [None] when the loop ends without returning. *)
Fixpoint extract_from_parts (parts : list pyval) : result (option pystr) :=
  match parts with
  | [] => Ok None
  | part :: rest =>
      let* mime := Py.get part "mimeType" VNone in
      if Py.eq_lit mime "text/plain" then
        let* body := Py.get part "body" (VDict []) in
        let* body_data := Py.get body "data" (VStr []) in
        if Py.truthy body_data then
          let* decoded := decode_body body_data in
          Ok (Some (_clean_email_text decoded))
        else extract_from_parts rest
      else
        let* mime := Py.get part "mimeType" VNone in
        if Py.eq_lit mime "text/html" then
          let* body := Py.get part "body" (VDict []) in
          let* body_data := Py.get body "data" (VStr []) in
          if Py.truthy body_data then
            let* decoded := decode_body body_data in
            let clean_text := re_sub rt (lit "<[^<]+?>") [] decoded in
            Ok (Some (_clean_email_text clean_text))
          else extract_from_parts rest
        else extract_from_parts rest
  end.

(** The body of the [try] of [_extract_email_content]. *)
Definition extract_email_content_try (msg : pyval) : result pystr :=
  let* payload := Py.get msg "payload" (VDict []) in
  let* parts := Py.get payload "parts" (VList []) in
  let* parts := Py.iter parts in
  let* found := extract_from_parts parts in
  match found with
  | Some text => Ok text
  | None =>
      let* body := Py.get payload "body" (VDict []) in
      let* data := Py.get body "data" VNone in
      if Py.truthy data then
        let* body_data := Py.getitem body "data" in
        let* decoded := decode_body body_data in
        Ok (_clean_email_text decoded)
      else Ok []
  end.

(** [_extract_email_content] *)
Definition _extract_email_content (msg : pyval) : result pystr :=
  rcatch (extract_email_content_try msg) (fun _ => Ok []).

(** One round of the loop of [_format_emails_with_full_content]. *)
Definition _format_emails_with_full_content_item (i : nat) (msg : pyval)
  : result (list pystr) :=
  let* subject := Py.get msg "subject" (VStr (lit "No Subject")) in
  let* sender := Py.get msg "sender" (VStr (lit "Unknown Sender")) in
  let* date := Py.get msg "messageTimestamp" (VStr []) in
  let* content := _extract_email_content msg in
  let content := VStr content in
  let formatted_date := formatted_date_of date in
  let* content_lines :=
    if Py.truthy content then
      let* content := cut_to 1000 content in
      Ok [Glyph.memo ++ lit " Full Content: " ++ fstr content]
    else Ok [Glyph.memo ++ lit " No content available"] in
  Ok ([ nl ++ Glyph.envelope ++ lit " Email #" ++ PyStr.of_nat i;
        Glyph.clipboard ++ lit " Subject: " ++ fstr subject;
        Glyph.bust ++ lit " From: " ++ fstr sender;
        Glyph.calendar ++ lit " Date: " ++ fstr formatted_date ]
      ++ content_lines
      ++ [ times (lit "-") 40 ]).

(** [_format_emails_with_full_content] *)
Definition _format_emails_with_full_content (messages : pyval) : result pystr :=
  if negb (Py.truthy messages) then
    Ok (Glyph.mailbox_empty ++ lit " No emails found matching your criteria.")
  else
    let* n := Py.len messages in
    let* items := Py.iter messages in
    let* body := for_enumerate _format_emails_with_full_content_item 1 items in
    Ok (PyStr.join nl
          ([ Glyph.email ++ lit " Found " ++ PyStr.of_nat n ++ lit " email(s):";
             times (lit "=") 60 ] ++ body)).

(** One round of the loop of [_format_drafts]. *)
Definition _format_drafts_item (i : nat) (draft : pyval) : result (list pystr) :=
  let* message := Py.get draft "message" (VDict []) in
  let* subject := Py.get message "subject" (VStr (lit "No Subject")) in
  let* date := Py.get message "messageTimestamp" (VStr []) in
  let* preview_field := Py.get message "preview" (VDict []) in
  let* preview := Py.get preview_field "body" (VStr []) in
  let formatted_date := formatted_date_of date in
  let* preview_lines :=
    if Py.truthy preview then
      let* preview := cut_to 150 preview in
      Ok [Glyph.page ++ lit " Content: " ++ fstr preview]
    else Ok [] in
  Ok ([ nl ++ Glyph.memo ++ lit " Draft #" ++ PyStr.of_nat i;
        Glyph.clipboard ++ lit " Subject: " ++ fstr subject;
        Glyph.calendar ++ lit " Created: " ++ fstr formatted_date ]
      ++ preview_lines
      ++ [ times (lit "-") 30 ]).

(** [_format_drafts] *)
Definition _format_drafts (drafts : pyval) : result (list pystr) :=
  if negb (Py.truthy drafts) then
    Ok [ Glyph.memo ++ lit " No drafts found." ]
  else
    let* n := Py.len drafts in
    let* items := Py.iter drafts in
    let* body := for_enumerate _format_drafts_item 1 items in
    Ok ([ Glyph.memo ++ lit " Found " ++ PyStr.of_nat n ++ lit " draft(s):";
          times (lit "=") 50 ] ++ body).

(** [[label for label in labels if (label.get("type") == "system") is want]] *)
Fixpoint select_labels (want_system : bool) (labels : list pyval)
  : result (list pyval) :=
  match labels with
  | [] => Ok []
  | label :: rest =>
      let* type := Py.get label "type" VNone in
      let* chosen := select_labels want_system rest in
      Ok (if Bool.eqb (Py.eq_lit type "system") want_system
          then label :: chosen else chosen)
  end.

(** [for x in items]: the lines each round appends. *)
Fixpoint for_each (body : pyval -> result (list pystr)) (items : list pyval)
  : result (list pystr) :=
  match items with
  | [] => Ok []
  | x :: rest =>
      let* here := body x in
      let* after := for_each body rest in
      Ok (here ++ after)
  end.

Definition label_line (label : pyval) : result (list pystr) :=
  let* name := Py.get label "name" (VStr (lit "Unknown")) in
  Ok [ lit "  " ++ Glyph.bullet ++ lit " " ++ fstr name ].

(** [_format_labels] *)
Definition _format_labels (labels : pyval) : result (list pystr) :=
  if negb (Py.truthy labels) then
    Ok [ Glyph.label ++ lit " No labels found." ]
  else
    let* n := Py.len labels in
    let* items := Py.iter labels in
    let* system_labels := select_labels true items in
    let* user_labels := select_labels false items in
    let* system_lines :=
      match system_labels with
      | [] => Ok []
      | _ => let* lines := for_each label_line system_labels in
             Ok ((nl ++ Glyph.clipboard ++ lit " System Labels:") :: lines)
      end in
    let* user_lines :=
      match user_labels with
      | [] => Ok []
      | _ => let* lines := for_each label_line user_labels in
             Ok ((nl ++ Glyph.bust ++ lit " Your Labels:") :: lines)
      end in
    Ok ([ Glyph.label ++ lit " Found " ++ PyStr.of_nat n ++ lit " label(s):";
          times (lit "=") 40 ] ++ system_lines ++ user_lines).

(** [xs[0].get(field, default) if xs else default] *)
Definition first_field (xs : pyval) (field : string) (default : pystr)
  : result pyval :=
  if Py.truthy xs then
    let* first := Py.index0 xs in
    Py.get first field (VStr default)
  else Ok (VStr default).

(** One round of the loop of [_format_contacts]. *)
Definition _format_contacts_item (i : nat) (person : pyval) : result (list pystr) :=
  let* names := Py.get person "names" (VList []) in
  let* emails := Py.get person "emailAddresses" (VList []) in
  let* name := first_field names "displayName" (lit "Unknown") in
  let* email := first_field emails "value" (lit "No email") in
  Ok [ nl ++ Glyph.bust ++ lit " Contact #" ++ PyStr.of_nat i;
       Glyph.badge ++ lit " Name: " ++ fstr name;
       Glyph.email ++ lit " Email: " ++ fstr email;
       times (lit "-") 30 ].

(** The body of the [try] of [_format_contacts]. *)
Definition format_contacts_try (response_data : pyval) : result pystr :=
  let* absent :=
    if negb (Py.truthy response_data) then Ok true
    else let* present := Py.contains "connections" response_data in
         Ok (negb present) in
  if absent then Ok (Glyph.busts ++ lit " No contacts found.")
  else
    let* connections := Py.get response_data "connections" (VList []) in
    let* n := Py.len connections in
    let* items := Py.iter connections in
    let* body := for_enumerate _format_contacts_item 1 items in
    Ok (PyStr.join nl
          ([ Glyph.busts ++ lit " Found " ++ PyStr.of_nat n ++ lit " contact(s):";
             times (lit "=") 40 ] ++ body)).

(** [_format_contacts] *)
Definition _format_contacts (response_data : pyval) : result pystr :=
  rcatch (format_contacts_try response_data)
         (fun e => Ok (lit "Error formatting contacts: " ++ exn_msg e)).

(** The body of the [try] of [_format_profile]. *)
Definition format_profile_try (profile_data : pyval) : result pystr :=
  if negb (Py.truthy profile_data) then
    Ok (Glyph.bust ++ lit " No profile data found.")
  else
    let* email_address := Py.get profile_data "emailAddress" (VStr (lit "Unknown")) in
    let* messages_total := Py.get profile_data "messagesTotal" (VInt 0) in
    let* threads_total := Py.get profile_data "threadsTotal" (VInt 0) in
    let* history_id := Py.get profile_data "historyId" (VStr (lit "N/A")) in
    Ok (PyStr.join nl
          [ Glyph.bust ++ lit " Gmail Profile Information:";
            times (lit "=") 40;
            Glyph.email ++ lit " Email Address: " ++ fstr email_address;
            Glyph.mailbox_full ++ lit " Total Messages: " ++ fstr messages_total;
            Glyph.thread ++ lit " Total Threads: " ++ fstr threads_total;
            Glyph.clock ++ lit " History ID: " ++ fstr history_id ]).

(** [_format_profile] *)
Definition _format_profile (profile_data : pyval) : result pystr :=
  rcatch (format_profile_try profile_data)
         (fun e => Ok (lit "Error formatting profile: " ++ exn_msg e)).

(** [formatted_output.extend(text)] with a [str]: one element per
    character. *)
Definition characters (text : pystr) : list pystr := map (fun c => [c]) text.

Definition operation_completed : pystr :=
  Glyph.check ++ lit " Operation completed successfully".

(** One round of the loop of [_format_result]: what it adds to
    [formatted_output]. *)
Definition _format_result_item (item : pyval) : result (list pystr) :=
  let* successful := Py.get item "successful" (VBool false) in
  if negb (Py.truthy successful) then
    let* error := Py.get item "error" (VStr (lit "Unknown error")) in
    Ok [ Glyph.cross ++ lit " Error: " ++ fstr error ]
  else
    let* data := Py.get item "data" (VDict []) in
    let* has_messages := Py.contains "messages" data in
    if has_messages then
      let* messages := Py.getitem data "messages" in _format_emails messages
    else
    let* has_drafts := Py.contains "drafts" data in
    if has_drafts then
      let* drafts := Py.getitem data "drafts" in _format_drafts drafts
    else
    let* has_labels := Py.contains "labels" data in
    if has_labels then
      let* labels := Py.getitem data "labels" in _format_labels labels
    else
    let* has_response_data := Py.contains "response_data" data in
    if has_response_data then
      let* response_data := Py.getitem data "response_data" in
      let* text := _format_contacts response_data in
      Ok (characters text)
    else
    let* has_profile := Py.contains "emailAddress" data in
    if has_profile then
      let* text := _format_profile data in Ok [ text ]
    else Ok [ operation_completed ].

Definition is_list (v : pyval) : bool :=
  match v with VList _ => true | _ => false end.

(** The body of the [try] of [_format_result]. *)
Definition format_result_try (result_ : pyval) (query : pystr) : result pystr :=
  if negb (Py.truthy result_) || negb (is_list result_) then
    Ok (lit "No data returned from the operation.")
  else
    let* items := Py.iter result_ in
    let* formatted_output := for_each _format_result_item items in
    match formatted_output with
    | [] => Ok operation_completed
    | _ => Ok (PyStr.join nl formatted_output)
    end.

(** [_format_result] *)
Definition _format_result (result_ : pyval) (query : pystr) : result pystr :=
  rcatch (format_result_try result_ query)
         (fun e => Ok (lit "Error formatting result: " ++ exn_msg e)).

End Formatter.

(** ** Chat turns *)

(** A content segment of a chat turn: only text segments are read. *)
Inductive content_item : Type :=
| TextContent (text : pystr)
| OtherContent.

(** An inbound [ChatMessage]. *)
Record ChatMessage : Type := {
  msg_id : N;
  content : list content_item
}.

(** What the agent sends back: a [ChatAcknowledgement] and a [ChatMessage]
    with one text segment. *)
Inductive outgoing : Type :=
| Acknowledge (acknowledged_msg_id : N)
| Reply (text : pyval).

(** ** State and effects *)

(** The mutable session and the calls made so far. *)
Record World : Type := {
  agent : GmailAgent;
  history : list event
}.

(** A method of the agent: it may change the session, call a service and
    raise.  What it did before raising stays done. *)
Definition M (A : Type) : Type := World -> result A * World.

Definition ret {A} (a : A) : M A := fun w => (Ok a, w).

Definition bind {A B} (c : M A) (k : A -> M B) : M B :=
  fun w => match c w with
           | (Ok a, w') => k a w'
           | (Exc e, w') => (Exc e, w')
           end.

Definition lift {A} (r : result A) : M A := fun w => (r, w).

(** [try: body / except Exception as e: handler e] *)
Definition try_except {A} (body : M A) (handler : exn -> M A) : M A :=
  fun w => match body w with
           | (Ok a, w') => (Ok a, w')
           | (Exc e, w') => handler e w'
           end.

Definition get_self : M GmailAgent := fun w => (Ok (agent w), w).

Definition set_self (a : GmailAgent) : M unit :=
  fun w => (Ok tt, {| agent := a; history := history w |}).

(** A call to a service: the oracle sees the history, the call joins it. *)
Definition call {A} (ev : event) (oracle : list event -> result A) : M A :=
  fun w => (oracle (history w), {| agent := agent w; history := history w ++ [ev] |}).

Declare Scope agent_scope.
Delimit Scope agent_scope with agent.
Notation "x <- c ;; k" := (bind c (fun x => k))
  (at level 61, c at next level, right associativity) : agent_scope.
Notation "c ;; k" := (bind c (fun _ => k))
  (at level 61, right associativity) : agent_scope.
Local Open Scope agent_scope.

(** ** Prompts *)

Definition compose_system_prompt : pystr :=
  lit "You are a professional email writing assistant. Compose clear, professional emails based on user input.
            Guidelines:
            - Use a professional but friendly tone
            - Include proper greeting and closing
            - Make the email clear and concise
            - Adapt formality based on recipient and context
            - If no subject is provided, create an appropriate one
            - Expand minimal content professionally
            Return JSON: {" ++ dq ++ lit "subject" ++ dq ++ lit ": " ++ dq ++ lit "Subject line" ++ dq ++ lit ", " ++ dq ++ lit "body" ++ dq ++ lit ": " ++ dq ++ lit "Email body" ++ dq ++ lit "}".
Definition refine_system_prompt : pystr :=
  lit "You are a response refiner. Take the raw output from a Gmail operation and format it into a user-friendly response:
            - Use bullet points, headers, and emojis for readability.
            - Summarize long content, keeping key details.
            - Maintain a professional, concise tone.
            - Example: For profile, list email, message count, thread count; for labels, confirm creation.
            Return the refined response as a string.".
Definition intent_system_prompt : pystr :=
  lit "You are an intent analyzer for Gmail operations. Analyze the user query to determine the intent from the following actions:
            - AUTH: For queries like 'authenticate gmail', 'connect gmail', 'login to gmail'
            - LIST: List emails, drafts, labels, threads (e.g., 'show emails', 'list drafts')
            - SEARCH: Search emails or people, including spam (e.g., 'find emails from john', 'fetch spam mail')
            - SEND: Send an email (e.g., 'send email to john@example.com')
            - REPLY: Reply to an email/thread (e.g., 'reply to latest email')
            - MARK_READ: Mark emails as read (e.g., 'mark email as read')
            - MARK_UNREAD: Mark emails as unread (e.g., 'mark email as unread')
            - DELETE: Delete emails or drafts, including spam (e.g., 'delete spam emails')
            - MOVE_TO_TRASH: Move emails to trash (e.g., 'move emails from john to trash')
            - READ: Read emails with full content (e.g., 'read emails from john@example.com')
            - GET_PROFILE: Get Gmail profile info (e.g., 'get my profile', 'show profile')
            - CREATE_DRAFT: Create a draft email
            - SEND_DRAFT: Send an existing draft
            - CREATE_LABEL: Create a new label (e.g., 'create a label called fetch.ai')
            - ADD_LABEL: Add labels to emails
            - REMOVE_LABEL: Remove labels from emails
            - MODIFY_THREAD_LABELS: Modify thread labels
            - PATCH_LABEL: Update label properties
            - GET_CONTACTS: Get contact list (e.g., 'list my contacts')
            - SEARCH_PEOPLE: Search for people
            - GET_ATTACHMENT: Download email attachments
            - LIST_THREADS: List email threads
            For SEND, extract recipient, subject, content, context. For CREATE_LABEL, extract label_name. For SEARCH/DELETE/READ/MOVE_TO_TRASH, include 'is_spam: true' for spam-related queries or 'sender' for email-specific queries. For others, extract relevant parameters (e.g., query, email_id, label_id).
            Boost confidence (0.8-1.0) for clear matches. If ambiguous, pick best fit but note clarification needed.
            Return JSON: {" ++ dq ++ lit "intent" ++ dq ++ lit ": " ++ dq ++ lit "ACTION_NAME" ++ dq ++ lit ", " ++ dq ++ lit "parameters" ++ dq ++ lit ": {...}, " ++ dq ++ lit "confidence" ++ dq ++ lit ": float}".

Definition gpt_4o_mini : pystr := lit "gpt-4o-mini".

Definition action_completed : pystr := lit "Action completed successfully".

Definition not_authenticated_error : pystr :=
  lit "Gmail not authenticated. Send 'Authenticate Gmail' to start auth.".

(** [{"intent": "UNKNOWN", "parameters": {}, "confidence": 0.0}] *)
Definition unknown_intent : pyval :=
  VDict [ (lit "intent", VStr (lit "UNKNOWN"));
          (lit "parameters", VDict []);
          (lit "confidence", VFloat 0) ].

(** [{"success": False, "error": message}] *)
Definition failure (message : pystr) : pyval :=
  VDict [ (lit "success", VBool false); (lit "error", VStr message) ].

(** [response.choices[0].message.content] *)
Definition first_content (response : Response) : result pyval :=
  match choices response with
  | content :: _ => Ok content
  | [] => Exc (Exn "IndexError" (lit "list index out of range"))
  end.

(** ** The agent's methods *)

Section Agent.

Variable rt : Runtime.
Variable svc : Services.

(** [self.openai_client.chat.completions.create(...)] *)
Definition create (request : Request) : M Response :=
  call (EvCompletion request) (fun h => completions_create svc h request).

(** [self.composio.provider.handle_tool_calls(response=response,
    user_id=self.user_email)] *)
Definition run_tool_calls (response : Response) : M pyval :=
  self <- get_self ;;
  call (EvToolCalls response (user_email self))
       (fun h => handle_tool_calls svc h response (user_email self)).

(** The completion request every handler sends: the model, the session's
    tools, a system instruction and the user's prompt. *)
Definition tool_request (self : GmailAgent) (system prompt : pystr) : Request :=
  {| model := gpt_4o_mini;
     req_tools := Some (tools self);
     messages := [ (lit "system", VStr system); (lit "user", VStr prompt) ];
     json_object := false |}.

Definition ask (system prompt : pystr) : M Response :=
  self <- get_self ;;
  create (tool_request self system prompt).

(** [initiate_auth] *)
Definition initiate_auth : M pystr :=
  try_except
    (self <- get_self ;;
     request <- call (EvInitiate (user_email self) (auth_config_id self))
                     (fun h => connected_accounts_initiate svc h
                                 (user_email self) (auth_config_id self)) ;;
     self <- get_self ;;
     set_self {| user_email := user_email self;
                 auth_config_id := auth_config_id self;
                 tools := tools self;
                 connected_account := connected_account self;
                 connection_request := Some request;
                 gmail_tools := gmail_tools self |} ;;
     ret (lit "Please visit this URL to authenticate Gmail: "
          ++ fstr rt (redirect_url request) ++ nl
          ++ lit "After completing, send 'Auth complete' or your next query."))
    (fun e => ret (lit "Error initiating auth: " ++ exn_msg e)).

(** [complete_auth]: both [except] clauses return [False]. *)
Definition complete_auth : M bool :=
  self <- get_self ;;
  match connection_request self with
  | None => ret false
  | Some request =>
      try_except
        (account <- call (EvWaitForConnection request 5)
                         (fun h => wait_for_connection svc h request 5) ;;
         self <- get_self ;;
         set_self {| user_email := user_email self;
                     auth_config_id := auth_config_id self;
                     tools := tools self;
                     connected_account := account;
                     connection_request := connection_request self;
                     gmail_tools := gmail_tools self |} ;;
         self <- get_self ;;
         toolset <- call (EvToolsGet (user_email self) [lit "GMAIL"])
                         (fun h => tools_get svc h (user_email self) [lit "GMAIL"]) ;;
         self <- get_self ;;
         set_self {| user_email := user_email self;
                     auth_config_id := auth_config_id self;
                     tools := toolset;
                     connected_account := connected_account self;
                     connection_request := connection_request self;
                     gmail_tools := gmail_tools self |} ;;
         ret true)
        (fun _ => ret false)
  end.

(** The request of [refine_response_with_gpt]. *)
Definition refine_request (raw_response : pyval) : Request :=
  {| model := gpt_4o_mini;
     req_tools := None;
     messages := [ (lit "system", VStr refine_system_prompt);
                   (lit "user", raw_response) ];
     json_object := false |}.

(** [refine_response_with_gpt] *)
Definition refine_response_with_gpt (raw_response : pyval) : M pyval :=
  try_except
    (response <- create (refine_request raw_response) ;;
     lift (first_content response))
    (fun _ => ret raw_response).

(** The request of [analyze_user_intent]. *)
Definition intent_request (message : pystr) : Request :=
  {| model := gpt_4o_mini;
     req_tools := None;
     messages := [ (lit "system", VStr intent_system_prompt);
                   (lit "user", VStr message) ];
     json_object := true |}.

(** The body of the [try] of [analyze_user_intent]. *)
Definition analyze_user_intent_try (message : pystr) : M pyval :=
  response <- create (intent_request message) ;;
  content <- lift (first_content response) ;;
  lift (json_loads rt content).

(** [analyze_user_intent] *)
Definition analyze_user_intent (message : pystr) : M pyval :=
  try_except (analyze_user_intent_try message) (fun _ => ret unknown_intent).

(** The request of [compose_email_with_ai]. *)
Definition compose_request (recipient subject content context : pyval) : Request :=
  let user_prompt :=
    lit "Compose an email for:" ++ nl
    ++ lit "            - Recipient: " ++ fstr rt recipient ++ nl
    ++ lit "            - Subject: "
    ++ fstr rt (Py.or_ subject (VStr (lit "Please create an appropriate subject"))) ++ nl
    ++ lit "            - Content/Context: " ++ fstr rt (Py.or_ content context) ++ nl
    ++ lit "            - Additional context: "
    ++ fstr rt (if negb (Py.eq context content) then context else VStr []) in
  {| model := gpt_4o_mini;
     req_tools := None;
     messages := [ (lit "system", VStr compose_system_prompt);
                   (lit "user", VStr user_prompt) ];
     json_object := true |}.

(** [compose_email_with_ai] *)
Definition compose_email_with_ai (recipient subject content context : pyval)
  : M pyval :=
  try_except
    (response <- create (compose_request recipient subject content context) ;;
     body <- lift (first_content response) ;;
     lift (json_loads rt body))
    (fun _ =>
       ret (VDict
              [ (lit "subject", Py.or_ subject (VStr (lit "Message")));
                (lit "body",
                 Py.or_ content
                   (VStr (lit "Hello," ++ nl ++ nl
                          ++ lit "I hope this email finds you well." ++ nl ++ nl
                          ++ lit "Best regards"))) ])).

(** What every handler returns when its [try] raises. *)
Definition on_exception (e : exn) : M pyval := ret (failure (exn_msg e)).

(** The steps every handler ends with: format the gateway's answer,
    refine it, and build the result. *)
Definition success (query : pystr) (intent : string) (raw refined : pyval)
  : pyval :=
  VDict [ (lit "success", VBool true);
          (lit "query", VStr query);
          (lit "intent", VStr (lit intent));
          (lit "result", raw);
          (lit "formatted_result", refined) ].

(** [_handle_send_email] *)
Definition _handle_send_email (parameters : pyval) : M pyval :=
  try_except
    (recipient <- lift (Py.get parameters "recipient" (VStr [])) ;;
     if negb (Py.truthy recipient) then
       ret (VDict [ (lit "error", VStr (lit "No recipient specified")) ])
     else
       subject <- lift (Py.get parameters "subject" (VStr [])) ;;
       content <- lift (Py.get parameters "content" (VStr [])) ;;
       context <- lift (Py.get parameters "context" (VStr [])) ;;
       composed_email <- compose_email_with_ai recipient subject content context ;;
       composed_subject <- lift (Py.getitem composed_email "subject") ;;
       composed_body <- lift (Py.getitem composed_email "body") ;;
       let prompt :=
         lit "Send an email to " ++ fstr rt recipient ++ lit " with:" ++ nl
         ++ lit "            Subject: " ++ fstr rt composed_subject ++ nl
         ++ lit "            Body: " ++ fstr rt composed_body in
       response <- ask (lit "Use GMAIL_SEND_EMAIL to send emails.") prompt ;;
       raw <- run_tool_calls response ;;
       let query := lit "Send email to " ++ fstr rt recipient in
       formatted_result <- lift (_format_result rt raw query) ;;
       refined_result <- refine_response_with_gpt (VStr formatted_result) ;;
       ret (VDict [ (lit "success", VBool true);
                    (lit "query", VStr query);
                    (lit "intent", VStr (lit "SEND"));
                    (lit "result", raw);
                    (lit "composed_email", composed_email);
                    (lit "formatted_result", refined_result) ]))
    on_exception.

(** The search expression of the search, trash and read handlers:
    [" ".join(query_parts) if query_parts else "recent emails"]. *)
Definition search_expression (parameters : pyval) (with_spam : bool)
  : result pystr :=
  let* sender := Py.get parameters "sender" VNone in
  let* subject := Py.get parameters "subject" VNone in
  let* query := Py.get parameters "query" VNone in
  let* is_spam :=
    if with_spam then Py.get parameters "is_spam" VNone else Ok VNone in
  let query_parts :=
    (if Py.truthy sender then [VStr (lit "from:" ++ fstr rt sender)] else [])
    ++ (if Py.truthy subject then [VStr (lit "subject:" ++ fstr rt subject)] else [])
    ++ (if Py.truthy query then [query] else [])
    ++ (if Py.truthy is_spam then [VStr (lit "is:spam")] else []) in
  match query_parts with
  | [] => Ok (lit "recent emails")
  | _ => Py.join (lit " ") query_parts
  end.

(** [_handle_search_emails] *)
Definition _handle_search_emails (parameters : pyval) : M pyval :=
  try_except
    (query <- lift (search_expression parameters true) ;;
     let prompt := lit "Search Gmail for emails matching: " ++ query
                   ++ lit ". Include full details and body content." in
     response <- ask (lit "Use GMAIL_FETCH_EMAILS to search and retrieve emails with full content.")
                     prompt ;;
     raw <- run_tool_calls response ;;
     formatted_result <- lift (_format_result rt raw (lit "Search for: " ++ query)) ;;
     refined_result <- refine_response_with_gpt (VStr formatted_result) ;;
     ret (success (lit "Search for: " ++ query) "SEARCH" raw refined_result))
    on_exception.

(** [_handle_delete_emails] *)
Definition _handle_delete_emails (parameters : pyval) : M pyval :=
  try_except
    (email_id <- lift (Py.get parameters "email_id" (VStr [])) ;;
     query <- lift (Py.get parameters "query" (VStr [])) ;;
     is_spam <- lift (Py.get parameters "is_spam" VNone) ;;
     query <- lift (if Py.truthy is_spam then
                      if Py.truthy query then Py.add (VStr (lit "is:spam ")) query
                      else Ok (VStr (lit "is:spam"))
                    else Ok query) ;;
     let criteria := fstr rt (Py.or_ query email_id) in
     let prompt := lit "Delete emails matching the criteria: " ++ criteria
                   ++ lit ". First search for matching emails, then delete them using GMAIL_DELETE_MESSAGE." in
     response <- ask (lit "For DELETE operations, use GMAIL_FETCH_EMAILS to find emails, then GMAIL_DELETE_MESSAGE for each one.")
                     prompt ;;
     raw <- run_tool_calls response ;;
     formatted_result <- lift (_format_result rt raw (lit "Delete emails: " ++ criteria)) ;;
     refined_result <- refine_response_with_gpt (VStr formatted_result) ;;
     ret (success (lit "Delete emails: " ++ criteria) "DELETE" raw refined_result))
    on_exception.

(** [_handle_move_to_trash] *)
Definition _handle_move_to_trash (parameters : pyval) : M pyval :=
  try_except
    (query <- lift (search_expression parameters false) ;;
     let prompt := lit "Move emails matching '" ++ query
                   ++ lit "' to trash using GMAIL_MOVE_TO_TRASH." in
     response <- ask (lit "Use GMAIL_FETCH_EMAILS to find emails, then GMAIL_MOVE_TO_TRASH for each matching email.")
                     prompt ;;
     raw <- run_tool_calls response ;;
     formatted_result <- lift (_format_result rt raw (lit "Move to trash: " ++ query)) ;;
     refined_result <- refine_response_with_gpt (VStr formatted_result) ;;
     ret (success (lit "Move to trash: " ++ query) "MOVE_TO_TRASH" raw refined_result))
    on_exception.

(** [result[0].get("data", {}) if result else {}] *)
Definition first_data (raw : pyval) : result pyval :=
  if Py.truthy raw then
    let* first := Py.index0 raw in Py.get first "data" (VDict [])
  else Ok (VDict []).

(** [_handle_get_contacts] *)
Definition _handle_get_contacts (parameters : pyval) : M pyval :=
  try_except
    (let prompt := lit "Fetch the list of contacts using GMAIL_GET_CONTACTS. Include names and email addresses." in
     response <- ask (lit "Use GMAIL_GET_CONTACTS to retrieve contacts with emailAddresses and names.")
                     prompt ;;
     raw <- run_tool_calls response ;;
     data <- lift (first_data raw) ;;
     formatted_result <- lift (_format_contacts rt data) ;;
     refined_result <- refine_response_with_gpt (VStr formatted_result) ;;
     ret (success (lit "List contacts") "GET_CONTACTS" raw refined_result))
    on_exception.

(** The two marking handlers differ in three words. *)
Definition mark_handler (state tool intent : string) (parameters : pyval)
  : M pyval :=
  try_except
    (email_id <- lift (Py.get parameters "email_id" (VStr [])) ;;
     query <- lift (Py.get parameters "query" (VStr [])) ;;
     let criteria := fstr rt (Py.or_ query email_id) in
     let prompt := lit "Mark emails matching '" ++ criteria ++ lit "' as " ++ lit state
                   ++ lit " using " ++ lit tool ++ lit "." in
     response <- ask (lit "Use GMAIL_FETCH_EMAILS to find emails, then " ++ lit tool
                      ++ lit " for each one.") prompt ;;
     raw <- run_tool_calls response ;;
     let query := lit "Mark as " ++ lit state ++ lit ": " ++ criteria in
     formatted_result <- lift (_format_result rt raw query) ;;
     refined_result <- refine_response_with_gpt (VStr formatted_result) ;;
     ret (success query intent raw refined_result))
    on_exception.

(** [_handle_mark_as_read] *)
Definition _handle_mark_as_read : pyval -> M pyval :=
  mark_handler "read" "GMAIL_MARK_AS_READ" "MARK_READ".

(** [_handle_mark_as_unread] *)
Definition _handle_mark_as_unread : pyval -> M pyval :=
  mark_handler "unread" "GMAIL_MARK_AS_UNREAD" "MARK_UNREAD".

(** [_handle_read_email] *)
Definition _handle_read_email (parameters : pyval) : M pyval :=
  try_except
    (query <- lift (search_expression parameters false) ;;
     let prompt := lit "Fetch emails matching '" ++ query
                   ++ lit "' using GMAIL_FETCH_EMAILS and include full body content." in
     response <- ask (lit "Use GMAIL_FETCH_EMAILS to retrieve emails with full body content.")
                     prompt ;;
     raw <- run_tool_calls response ;;
     messages <- lift (if Py.truthy raw then
                         let* data := first_data raw in
                         Py.get data "messages" (VList [])
                       else Ok (VList [])) ;;
     formatted_result <- lift (_format_emails_with_full_content rt messages) ;;
     refined_result <- refine_response_with_gpt (VStr formatted_result) ;;
     ret (success (lit "Read emails: " ++ query) "READ" raw refined_result))
    on_exception.

(** [_handle_create_label] *)
Definition _handle_create_label (parameters : pyval) : M pyval :=
  try_except
    (label_name <- lift (Py.get parameters "label_name" (VStr [])) ;;
     if negb (Py.truthy label_name) then
       ret (VDict [ (lit "error", VStr (lit "No label name specified")) ])
     else
       let prompt := lit "Create a Gmail label named '" ++ fstr rt label_name
                     ++ lit "' using GMAIL_CREATE_LABEL." in
       response <- ask (lit "Use GMAIL_CREATE_LABEL to create a new label.") prompt ;;
       raw <- run_tool_calls response ;;
       let query := lit "Create label: " ++ fstr rt label_name in
       formatted_result <- lift (_format_result rt raw query) ;;
       refined_result <- refine_response_with_gpt (VStr formatted_result) ;;
       ret (success query "CREATE_LABEL" raw refined_result))
    on_exception.

(** [_handle_get_profile] *)
Definition _handle_get_profile (parameters : pyval) : M pyval :=
  try_except
    (let prompt := lit "Fetch Gmail profile information using GMAIL_GET_PROFILE." in
     response <- ask (lit "Use GMAIL_GET_PROFILE to retrieve profile details like email address and message counts.")
                     prompt ;;
     raw <- run_tool_calls response ;;
     data <- lift (first_data raw) ;;
     formatted_result <- lift (_format_profile rt data) ;;
     refined_result <- refine_response_with_gpt (VStr formatted_result) ;;
     ret (success (lit "Get profile") "GET_PROFILE" raw refined_result))
    on_exception.

(** The [else] branch of the dispatch in [process_query]: the model
    chooses among all the tools. *)
Definition generic_handler (cleaned_query : pystr) (intent parameters : pyval)
  : M pyval :=
  self <- get_self ;;
  let system_prompt :=
    lit "You are a Gmail assistant for " ++ fstr rt (user_email self)
    ++ lit " with access to all Gmail tools: "
    ++ PyStr.join (lit ", ") (gmail_tools self) ++ lit "." ++ nl
    ++ lit "                Use the most appropriate tool for the user's request. Provide clear, actionable responses." in
  response <- ask system_prompt cleaned_query ;;
  raw_result <- run_tool_calls response ;;
  formatted_result <- lift (_format_result rt raw_result cleaned_query) ;;
  content <- lift (first_content response) ;;
  ret (VDict [ (lit "success", VBool true);
               (lit "query", VStr cleaned_query);
               (lit "intent", intent);
               (lit "parameters", parameters);
               (lit "result", raw_result);
               (lit "formatted_result", VStr formatted_result);
               (lit "model_response", Py.or_ content (VStr action_completed)) ]).

(** The [if]/[elif] chain of [process_query]. *)
Definition dispatch (cleaned_query : pystr) (intent parameters : pyval) : M pyval :=
  if Py.eq_lit intent "SEND" then _handle_send_email parameters
  else if Py.eq_lit intent "SEARCH" then _handle_search_emails parameters
  else if Py.eq_lit intent "DELETE" then _handle_delete_emails parameters
  else if Py.eq_lit intent "MOVE_TO_TRASH" then _handle_move_to_trash parameters
  else if Py.eq_lit intent "GET_CONTACTS" then _handle_get_contacts parameters
  else if Py.eq_lit intent "MARK_READ" then _handle_mark_as_read parameters
  else if Py.eq_lit intent "MARK_UNREAD" then _handle_mark_as_unread parameters
  else if Py.eq_lit intent "READ" then _handle_read_email parameters
  else if Py.eq_lit intent "CREATE_LABEL" then _handle_create_label parameters
  else if Py.eq_lit intent "GET_PROFILE" then _handle_get_profile parameters
  else generic_handler cleaned_query intent parameters.

(** [re.sub(r'^@composio\s+agent\s+', '', user_query,
    flags=re.IGNORECASE).strip()] *)
Definition clean_query (user_query : pystr) : pystr :=
  strip rt (re_sub_ignorecase rt (lit "^@composio\s+agent\s+") [] user_query).

(** [process_query].  The only [print] that can raise is the last one,
    which slices the refined text. *)
Definition process_query (user_query : pystr) : M pyval :=
  let cleaned_query := clean_query user_query in
  intent_analysis <- analyze_user_intent cleaned_query ;;
  intent <- lift (Py.get intent_analysis "intent" (VStr (lit "UNKNOWN"))) ;;
  parameters <- lift (Py.get intent_analysis "parameters" (VDict [])) ;;
  confidence <- lift (Py.get intent_analysis "confidence" (VFloat 0)) ;;
  if Py.eq_lit intent "AUTH" then
    auth_url <- initiate_auth ;;
    ret (VDict [ (lit "success", VBool true);
                 (lit "intent", VStr (lit "AUTH"));
                 (lit "formatted_result", VStr auth_url) ])
  else
    self <- get_self ;;
    if negb (is_authenticated self) then
      ret (failure not_authenticated_error)
    else
      try_except
        (result_ <- dispatch cleaned_query intent parameters ;;
         formatted <- lift (Py.get result_ "formatted_result" (VStr action_completed)) ;;
         refined_result <- refine_response_with_gpt formatted ;;
         result_ <- lift (Py.setitem result_ "formatted_result" refined_result) ;;
         _ <- lift (Py.slice_to refined_result 100) ;;
         ret result_)
        (fun e =>
           let error_msg := Glyph.cross ++ lit " Error processing query: " ++ exn_msg e in
           ret (VDict [ (lit "success", VBool false);
                        (lit "error", VStr error_msg);
                        (lit "query", VStr cleaned_query) ])).

(** *** The transport adapter *)

(** The text the adapter sends for a result of [process_query]
    (agent.py 847-850). *)
Definition response_of (result_ : pyval) : result pyval :=
  let* ok := Py.get result_ "success" VNone in
  if Py.truthy ok then
    Py.get result_ "formatted_result" (VStr action_completed)
  else
    let* error := Py.get result_ "error" (VStr (lit "Unknown error")) in
    Ok (VStr (Glyph.cross ++ lit " Error: " ++ fstr rt error)).

Definition auth_completed : pystr :=
  Glyph.check ++ lit " Gmail authentication completed successfully! Try commands like 'Create a label called fetch.ai' or 'Get my profile'.".

Definition auth_pending : pystr :=
  Glyph.hourglass ++ lit " Authentication not yet completed. Please complete the auth flow in your browser and try again.".

(** The [else] branch of [handle_message]: the query is processed, and a
    last [except] turns what is still raised into a reply. *)
Definition process_and_answer (text : pystr) : M pyval :=
  try_except
    (result_ <- process_query text ;;
     lift (response_of result_))
    (fun e => ret (VStr (Glyph.cross ++ lit " Sorry, couldn" ++ Glyph.apostrophe
                         ++ lit "t process that: " ++ exn_msg e))).

(** [handle_message]: the acknowledgement and the reply it sends.  The
    timestamps and the fresh identifier of the reply are left out. *)
Definition handle_message (msg : ChatMessage) : M (list outgoing) :=
  let text := concat (flat_map (fun item => match item with
                                            | TextContent t => [t]
                                            | OtherContent => []
                                            end) (content msg)) in
  self <- get_self ;;
  response <-
    (match connection_request self with
     | Some _ =>
         if negb (is_authenticated self) then
           completed <- complete_auth ;;
           ret (VStr (if completed then auth_completed else auth_pending))
         else process_and_answer text
     | None => process_and_answer text
     end) ;;
  _ <- lift (Py.slice_to response 100) ;;
  ret [ Acknowledge (msg_id msg); Reply response ].

End Agent.

(** * The vocabulary of the properties *)

(** The world after one more call. *)
Definition after_call (w : World) (ev : event) : World :=
  {| agent := agent w; history := history w ++ [ev] |}.

(** The calls a method makes when run in [w]. *)
Definition calls_during {A} (method : M A) (w : World) : list event :=
  skipn (length (history w)) (history (snd (method w))).

(** [{"success": True, "intent": "AUTH", "formatted_result": text}] *)
Definition auth_reply (text : pystr) : pyval :=
  VDict [ (lit "success", VBool true);
          (lit "intent", VStr (lit "AUTH"));
          (lit "formatted_result", VStr text) ].

(** How the completion call of the classifier can fail: the service
    raises, the response holds no choice, or its text does not parse. *)
Inductive classification_fails (rt : Runtime) (svc : Services)
          (message : pystr) (w : World) : Prop :=
| classify_service_error (e : exn) :
    completions_create svc (history w) (intent_request message) = Exc e ->
    classification_fails rt svc message w
| classify_no_choice (response : Response) (e : exn) :
    completions_create svc (history w) (intent_request message) = Ok response ->
    first_content response = Exc e ->
    classification_fails rt svc message w
| classify_malformed_json (response : Response) (content : pyval) (e : exn) :
    completions_create svc (history w) (intent_request message) = Ok response ->
    first_content response = Ok content ->
    json_loads rt content = Exc e ->
    classification_fails rt svc message w.

(** How the completion call of the refiner can fail. *)
Inductive refinement_fails (svc : Services) (raw_response : pyval) (w : World)
  : Prop :=
| refine_service_error (e : exn) :
    completions_create svc (history w) (refine_request raw_response) = Exc e ->
    refinement_fails svc raw_response w
| refine_no_choice (response : Response) (e : exn) :
    completions_create svc (history w) (refine_request raw_response) = Ok response ->
    first_content response = Exc e ->
    refinement_fails svc raw_response w.

(** The classifier, run on the cleaned text of [user_query] in [w], names
    [intent]. *)
Definition classified_as (rt : Runtime) (svc : Services)
           (user_query : pystr) (w : World) (intent : pyval) : Prop :=
  exists analysis,
    fst (analyze_user_intent rt svc (clean_query rt user_query) w) = Ok analysis
    /\ Py.get analysis "intent" (VStr (lit "UNKNOWN")) = Ok intent.

(** The one call every query starts with. *)
Definition classification_call (rt : Runtime) (user_query : pystr) : event :=
  EvCompletion (intent_request (clean_query rt user_query)).

(** The session after [initiate_auth] stored a connection request. *)
Definition with_connection_request (self : GmailAgent) (request : ConnectionRequest)
  : GmailAgent :=
  {| user_email := user_email self;
     auth_config_id := auth_config_id self;
     tools := tools self;
     connected_account := connected_account self;
     connection_request := Some request;
     gmail_tools := gmail_tools self |}.

Definition initiate_call (self : GmailAgent) : event :=
  EvInitiate (user_email self) (auth_config_id self).

(** The claim C1 as the specification words it: the query is rejected and
    the run makes no call to the completion service or to the gateway. *)
Definition rejected_without_any_call (rt : Runtime) (svc : Services)
           (user_query : pystr) (w : World) : Prop :=
  fst (process_query rt svc user_query w) = Ok (failure not_authenticated_error)
  /\ forall ev, In ev (calls_during (process_query rt svc user_query) w) ->
                is_completion ev = false /\ is_gateway ev = false.

(** The truncation law of the specification: a text longer than its budget
    is shown as its first [budget] characters followed by the ellipsis, a
    text within its budget is shown as it is. *)
Definition truncation_law (budget : nat) (text shown : pystr) : Prop :=
  (length text <= budget -> shown = text)
  /\ (budget < length text -> shown = firstn budget text ++ ellipsis).


(** The claim C7 as the specification words it: the report is produced
    and holds every line of every item that formats without failure. *)
Definition items_degrade_separately (rt : Runtime) (items : list pyval)
           (query : pystr) : Prop :=
  exists report,
    _format_result rt (VList items) query = Ok report
    /\ forall item lines,
         In item items -> _format_result_item rt item = Ok lines ->
         forall line, In line lines -> PyStr.is_infix line report = true.

(** ** Concrete runs *)

(** A runtime and services that answer like the real ones on the few
    inputs used in the examples below, and raise on every other input. *)
Module Sample.

Definition hi_base64 : pystr := lit "aGk=".

(** The same three data characters with two characters outside the
    alphabet among them, padded to eight: the decoder, which is lenient
    unless asked to validate, discards what is not in the alphabet and
    stops at the padding. *)
Definition noisy_base64 : pystr := lit "a!G@k===".
Definition profile_json : pystr :=
  lit "{" ++ dq ++ lit "intent" ++ dq ++ lit ": " ++ dq ++ lit "GET_PROFILE" ++ dq ++ lit "}".
Definition auth_json : pystr :=
  lit "{" ++ dq ++ lit "intent" ++ dq ++ lit ": " ++ dq ++ lit "AUTH" ++ dq ++ lit "}".

Definition send_json : pystr :=
  lit "{" ++ dq ++ lit "intent" ++ dq ++ lit ": " ++ dq ++ lit "SEND" ++ dq ++ lit "}".

Definition value_error (msg : string) : exn := Exn "ValueError" (lit msg).

Definition rt : Runtime :=
  {| datetime := unit;
     fromisoformat := fun _ => Exc (value_error "Invalid isoformat string");
     strftime := fun _ _ => [];
     b64decode := fun s =>
       if PyStr.eqb s hi_base64 then Ok [Byte.x68; Byte.x69]
       else if PyStr.eqb s noisy_base64 then Ok [Byte.x68; Byte.x69]
       else Exc (Exn "binascii.Error" (lit "Invalid base64-encoded string"));
     decode_utf8_ignore := map (fun b => N.of_nat (Byte.to_nat b));
     re_sub := fun _ _ s => s;
     re_sub_ignorecase := fun _ _ s => s;
     strip := fun s => s;
     json_loads := fun v =>
       if Py.eq v (VStr profile_json) then
         Ok (VDict [ (lit "intent", VStr (lit "GET_PROFILE")) ])
       else if Py.eq v (VStr auth_json) then
         Ok (VDict [ (lit "intent", VStr (lit "AUTH")) ])
       else if Py.eq v (VStr send_json) then
         Ok (VDict [ (lit "intent", VStr (lit "SEND")) ])
       else Exc (Exn "JSONDecodeError" (lit "Expecting value"));
     repr := fun _ => lit "<value>" |}.

Definition unreachable : exn := Exn "ConnectionError" (lit "Connection error.").

(** Services that are all down. *)
Definition down : Services :=
  {| connected_accounts_initiate := fun _ _ _ => Exc unreachable;
     wait_for_connection := fun _ _ _ => Exc unreachable;
     tools_get := fun _ _ _ => Exc unreachable;
     completions_create := fun _ _ => Exc unreachable;
     handle_tool_calls := fun _ _ _ => Exc unreachable |}.

(** Services where the completion service answers every request with
    [content] and the rest is down. *)
Definition answering (content : pystr) : Services :=
  {| connected_accounts_initiate := fun _ _ _ => Exc unreachable;
     wait_for_connection := fun _ _ _ => Exc unreachable;
     tools_get := fun _ _ _ => Exc unreachable;
     completions_create := fun _ _ =>
       Ok {| choices := [VStr content]; response_id := 1 |};
     handle_tool_calls := fun _ _ _ => Exc unreachable |}.

(** Services where the completion service answers without any choice. *)
Definition silent : Services :=
  {| connected_accounts_initiate := fun _ _ _ => Exc unreachable;
     wait_for_connection := fun _ _ _ => Exc unreachable;
     tools_get := fun _ _ _ => Exc unreachable;
     completions_create := fun _ _ => Ok {| choices := []; response_id := 1 |};
     handle_tool_calls := fun _ _ _ => Exc unreachable |}.

(** Services where the handshake goes through and the rest is down. *)
Definition pending_request : ConnectionRequest :=
  {| redirect_url := VStr (lit "https://example.com/auth"); request_id := 1 |}.

Definition handshaking : Services :=
  {| connected_accounts_initiate := fun _ _ _ => Ok pending_request;
     wait_for_connection := fun _ _ _ => Ok (VDict [ (lit "id", VStr (lit "ca_1")) ]);
     tools_get := fun _ _ _ => Ok (VList [ VStr (lit "GMAIL_SEND_EMAIL") ]);
     completions_create := fun _ _ => Exc unreachable;
     handle_tool_calls := fun _ _ _ => Exc unreachable |}.

(** Services where the connection is made but the tools cannot be loaded. *)
Definition half_handshaking : Services :=
  {| connected_accounts_initiate := fun _ _ _ => Ok pending_request;
     wait_for_connection := fun _ _ _ => Ok (VDict [ (lit "id", VStr (lit "ca_1")) ]);
     tools_get := fun _ _ _ => Exc unreachable;
     completions_create := fun _ _ => Exc unreachable;
     handle_tool_calls := fun _ _ _ => Exc unreachable |}.

(** A session right after [__init__], and one after a completed
    handshake. *)
Definition fresh : World :=
  {| agent := __init__ (VStr (lit "user@example.com")) (VStr (lit "ac_1"));
     history := [] |}.

Definition connected : World :=
  {| agent := {| user_email := VStr (lit "user@example.com");
                 auth_config_id := VStr (lit "ac_1");
                 tools := VList [];
                 connected_account := VDict [ (lit "id", VStr (lit "ca_1")) ];
                 connection_request :=
                   Some {| redirect_url := VStr (lit "https://example.com/auth");
                           request_id := 1 |};
                 gmail_tools := the_gmail_tools |};
     history := [] |}.

(** A session whose handshake was initiated and not completed. *)
Definition waiting : World :=
  {| agent := with_connection_request (agent fresh) pending_request;
     history := [] |}.

End Sample.

(** Gateway payloads. *)
Module Payload.

(** An item with one message, and an item whose message list holds a
    string where an object is expected. *)
Definition good : pyval :=
  VDict [ (lit "successful", VBool true);
          (lit "data",
           VDict [ (lit "messages", VList [ VDict [ (lit "subject", VStr (lit "Hello")) ] ]) ]) ].

Definition bad : pyval :=
  VDict [ (lit "successful", VBool true);
          (lit "data", VDict [ (lit "messages", VList [ VStr (lit "oops") ]) ]) ].

(** An item the gateway reports as failed. *)
Definition failed : pyval :=
  VDict [ (lit "successful", VBool false); (lit "error", VStr (lit "quota exceeded")) ].

End Payload.

(** ** Counting calls *)

(** The total cost of a list of calls, for a cost given per call. *)
Definition weight (cost : event -> nat) (evs : list event) : nat :=
  list_sum (map cost evs).

Definition gateway_cost (ev : event) : nat := if is_gateway ev then 1 else 0.

Definition completion_cost (ev : event) : nat := if is_completion ev then 1 else 0.

(** The calls of the handshake: initiation, polling, loading the tools. *)
Definition handshake_cost (ev : event) : nat :=
  match ev with
  | EvInitiate _ _ | EvWaitForConnection _ _ | EvToolsGet _ _ => 1
  | _ => 0
  end.

(** In every world the method only adds calls to the history, and what it
    adds costs at most [n]. *)
Definition costs_at_most (cost : event -> nat) (n : nat) {A} (method : M A) : Prop :=
  forall w, exists new,
    history (snd (method w)) = history w ++ new /\ weight cost new <= n.

(** ** What a method leaves alone *)

(** The method takes a session to one that [same] relates to it. *)
Definition preserves (same : GmailAgent -> GmailAgent -> Prop) {A} (method : M A)
  : Prop :=
  forall w, same (agent w) (agent (snd (method w))).

(** Whose mailbox the session is for. *)
Definition same_identity (a b : GmailAgent) : Prop :=
  user_email b = user_email a
  /\ auth_config_id b = auth_config_id a
  /\ gmail_tools b = gmail_tools a.

(** The identity and the two fields that make a session authenticated. *)
Definition same_credentials (a b : GmailAgent) : Prop :=
  same_identity a b
  /\ connected_account b = connected_account a
  /\ tools b = tools a.

(** ** The handshake *)

(** Polling the pending request [request] gives [account], and loading the
    tools after it gives [toolset]. *)
Definition handshake_completes (svc : Services) (w : World)
           (request : ConnectionRequest) (account toolset : pyval) : Prop :=
  connection_request (agent w) = Some request
  /\ wait_for_connection svc (history w) request 5 = Ok account
  /\ tools_get svc (history w ++ [EvWaitForConnection request 5])
       (user_email (agent w)) [lit "GMAIL"] = Ok toolset.

(** The two calls of [complete_auth]. *)
Definition poll_call (request : ConnectionRequest) : event :=
  EvWaitForConnection request 5.

Definition tools_call (self : GmailAgent) : event :=
  EvToolsGet (user_email self) [lit "GMAIL"].

(** The session after [complete_auth] stored the connection, and after it
    stored the tools as well. *)
Definition with_connected_account (self : GmailAgent) (account : pyval) : GmailAgent :=
  {| user_email := user_email self;
     auth_config_id := auth_config_id self;
     tools := tools self;
     connected_account := account;
     connection_request := connection_request self;
     gmail_tools := gmail_tools self |}.

Definition with_tools (self : GmailAgent) (toolset : pyval) : GmailAgent :=
  {| user_email := user_email self;
     auth_config_id := auth_config_id self;
     tools := toolset;
     connected_account := connected_account self;
     connection_request := connection_request self;
     gmail_tools := gmail_tools self |}.

(** ** Replies *)

(** The adapter can send the result: it has a reply text, and the log line
    that shows the first hundred characters of the reply can be built. *)
Definition answerable (rt : Runtime) (result_ : pyval) : Prop :=
  exists response shown,
    response_of rt result_ = Ok response /\ Py.slice_to response 100 = Ok shown.

(** The last part of [process_query], behind the two guards: the [try]
    around the dispatch and the second refinement (agent.py 147-196). *)
Definition dispatch_and_refine (rt : Runtime) (svc : Services)
           (cleaned_query : pystr) (intent parameters : pyval) : M pyval :=
  try_except
    (result_ <- dispatch rt svc cleaned_query intent parameters ;;
     formatted <- lift (Py.get result_ "formatted_result" (VStr action_completed)) ;;
     refined_result <- refine_response_with_gpt svc formatted ;;
     result_ <- lift (Py.setitem result_ "formatted_result" refined_result) ;;
     _ <- lift (Py.slice_to refined_result 100) ;;
     ret result_)
    (fun e =>
       let error_msg := Glyph.cross ++ lit " Error processing query: " ++ exn_msg e in
       ret (VDict [ (lit "success", VBool false);
                    (lit "error", VStr error_msg);
                    (lit "query", VStr cleaned_query) ])).

(** The text of a chat turn: its text segments, in order. *)
Definition text_of (msg : ChatMessage) : pystr :=
  concat (flat_map (fun item => match item with
                                | TextContent t => [t]
                                | OtherContent => []
                                end) (content msg)).

(** More concrete runs. *)
Module Case.

(** The sample runtime, with a classifier text that parses to a JSON array
    added. *)
Definition rt_array : Runtime :=
  {| datetime := datetime Sample.rt;
     fromisoformat := fromisoformat Sample.rt;
     strftime := strftime Sample.rt;
     b64decode := b64decode Sample.rt;
     decode_utf8_ignore := decode_utf8_ignore Sample.rt;
     re_sub := re_sub Sample.rt;
     re_sub_ignorecase := re_sub_ignorecase Sample.rt;
     strip := strip Sample.rt;
     json_loads := fun v =>
       if Py.eq v (VStr (lit "[]")) then Ok (VList []) else json_loads Sample.rt v;
     repr := repr Sample.rt |}.

(** A chat turn with two text segments around one that is not text. *)
Definition turn : ChatMessage :=
  {| msg_id := 7;
     content := [ TextContent (lit "get my "); OtherContent; TextContent (lit "profile") ] |}.

End Case.

(** ** Reports *)

(** A list of lines that starts with a line that is not empty. *)
Definition headed (lines : list pystr) : Prop :=
  match lines with
  | line :: _ => line <> []
  | [] => False
  end.

(** An item that the gateway reports as failed. *)
Definition unsuccessful (item : pyval) : Prop :=
  exists d flag,
    item = VDict d
    /\ Py.get item "successful" (VBool false) = Ok flag
    /\ Py.truthy flag = false.

(** The line the report shows for a failed item. *)
Definition error_line (rt : Runtime) (item : pyval) : pystr :=
  match Py.get item "error" (VStr (lit "Unknown error")) with
  | Ok error => Glyph.cross ++ lit " Error: " ++ fstr rt error
  | Exc _ => []
  end.

(** A successful item whose data holds [response_data] and none of the
    keys tested before it. *)
Definition contacts_item (item response_data : pyval) : Prop :=
  exists d flag data,
    item = VDict d
    /\ Py.lookup d (lit "successful") = Some flag /\ Py.truthy flag = true
    /\ Py.lookup d (lit "data") = Some (VDict data)
    /\ Py.lookup data (lit "messages") = None
    /\ Py.lookup data (lit "drafts") = None
    /\ Py.lookup data (lit "labels") = None
    /\ Py.lookup data (lit "response_data") = Some response_data.

(** A label whose type is "system". *)
Definition is_system_label (label : pyval) : bool :=
  match Py.get label "type" VNone with
  | Ok type => Py.eq_lit type "system"
  | Exc _ => false
  end.

(** The line the report shows for a label. *)
Definition label_bullet (rt : Runtime) (label : pyval) : pystr :=
  match Py.get label "name" (VStr (lit "Unknown")) with
  | Ok name => lit "  " ++ Glyph.bullet ++ lit " " ++ fstr rt name
  | Exc _ => []
  end.

(** A group of labels under its heading; an empty group shows nothing. *)
Definition label_group (rt : Runtime) (heading : pystr) (labels : list pyval)
  : list pystr :=
  match labels with
  | [] => []
  | _ => heading :: map (label_bullet rt) labels
  end.

Definition is_object (v : pyval) : Prop := exists d, v = VDict d.

(** A message whose preview, when it has one, is an object whose body,
    when it has one, is a text. *)
Definition plain_message (msg : pyval) : Prop :=
  exists d,
    msg = VDict d
    /\ (Py.lookup d (lit "preview") = None
        \/ exists pd, Py.lookup d (lit "preview") = Some (VDict pd)
                      /\ (Py.lookup pd (lit "body") = None
                          \/ exists text, Py.lookup pd (lit "body") = Some (VStr text))).

(** A part that the extraction passes over: it is neither plain text nor
    HTML, or its body is absent or an object with no data. *)
Definition passed_over (part : pyval) : Prop :=
  exists p mime,
    part = VDict p
    /\ Py.get part "mimeType" VNone = Ok mime
    /\ ((Py.eq_lit mime "text/plain" = false /\ Py.eq_lit mime "text/html" = false)
        \/ exists body data,
             Py.get part "body" (VDict []) = Ok body
             /\ Py.get body "data" (VStr []) = Ok data
             /\ Py.truthy data = false).

(** A part of type [mime] whose data is [data]. *)
Definition part_with (part : pyval) (mime : string) (data : pyval) : Prop :=
  exists p b,
    part = VDict p
    /\ Py.lookup p (lit "mimeType") = Some (VStr (lit mime))
    /\ Py.lookup p (lit "body") = Some (VDict b)
    /\ Py.lookup b (lit "data") = Some data
    /\ Py.truthy data = true.

(** Messages with parts. *)
Module Mail.

Definition image_part : pyval :=
  VDict [ (lit "mimeType", VStr (lit "image/png"));
          (lit "body", VDict [ (lit "data", VStr (lit "A")) ]) ].

Definition text_part : pyval :=
  VDict [ (lit "mimeType", VStr (lit "text/plain"));
          (lit "body", VDict [ (lit "data", VStr Sample.hi_base64) ]) ].

Definition empty_part : pyval :=
  VDict [ (lit "mimeType", VStr (lit "text/plain")); (lit "body", VDict []) ].

(** An image, then a text, then something that is not a part; the body of
    the payload does not decode. *)
Definition multipart_payload : dict :=
  [ (lit "parts", VList [ image_part; text_part; VStr (lit "not a part") ]);
    (lit "body", VDict [ (lit "data", VStr (lit "A")) ]) ].

Definition multipart : dict := [ (lit "payload", VDict multipart_payload) ].

(** A part without data, and the text in the body of the payload. *)
Definition body_only_payload : dict :=
  [ (lit "parts", VList [ empty_part ]);
    (lit "body", VDict [ (lit "data", VStr Sample.hi_base64) ]) ].

Definition body_only : dict := [ (lit "payload", VDict body_only_payload) ].

End Mail.

(** ** Composing an email *)

(** How the completion call of the composer can fail. *)
Inductive composition_fails (rt : Runtime) (svc : Services) (request : Request)
          (w : World) : Prop :=
| compose_service_error (e : exn) :
    completions_create svc (history w) request = Exc e ->
    composition_fails rt svc request w
| compose_no_choice (response : Response) (e : exn) :
    completions_create svc (history w) request = Ok response ->
    first_content response = Exc e ->
    composition_fails rt svc request w
| compose_malformed_json (response : Response) (body : pyval) (e : exn) :
    completions_create svc (history w) request = Ok response ->
    first_content response = Ok body ->
    json_loads rt body = Exc e ->
    composition_fails rt svc request w.

(** The body the composer falls back to when there is no content. *)
Definition default_body : pystr :=
  lit "Hello," ++ nl ++ nl ++ lit "I hope this email finds you well." ++ nl ++ nl
  ++ lit "Best regards".

(** The email the composer falls back to. *)
Definition fallback_email (subject content : pyval) : pyval :=
  VDict [ (lit "subject", Py.or_ subject (VStr (lit "Message")));
          (lit "body", Py.or_ content (VStr default_body)) ].

(** The completion call of the composer answers with a text that parses
    to [composed]. *)
Definition composes (rt : Runtime) (svc : Services) (request : Request)
           (w : World) (composed : pyval) : Prop :=
  exists response body,
    completions_create svc (history w) request = Ok response
    /\ first_content response = Ok body
    /\ json_loads rt body = Ok composed.

(** [parameters.get(k, '')] on an object: the empty text by default. *)
Definition parameter (d : dict) (k : string) : pyval :=
  match Py.lookup d (lit k) with
  | Some x => x
  | None => VStr []
  end.

(** The composing request of the send handler for the parameters [d]. *)
Definition send_compose_request (rt : Runtime) (d : dict) : Request :=
  compose_request rt (parameter d "recipient") (parameter d "subject")
    (parameter d "content") (parameter d "context").

(** A run of SEND in which every service answers. *)
Module Script.

Definition classify_json : pystr := lit "classify".
Definition compose_json : pystr := lit "compose".

Definition rt : Runtime :=
  {| datetime := datetime Sample.rt;
     fromisoformat := fromisoformat Sample.rt;
     strftime := strftime Sample.rt;
     b64decode := b64decode Sample.rt;
     decode_utf8_ignore := decode_utf8_ignore Sample.rt;
     re_sub := re_sub Sample.rt;
     re_sub_ignorecase := re_sub_ignorecase Sample.rt;
     strip := strip Sample.rt;
     json_loads := fun v =>
       if Py.eq v (VStr classify_json) then
         Ok (VDict [ (lit "intent", VStr (lit "SEND"));
                     (lit "parameters",
                      VDict [ (lit "recipient", VStr (lit "john@example.com")) ]) ])
       else if Py.eq v (VStr compose_json) then
         Ok (VDict [ (lit "subject", VStr (lit "Hello"));
                     (lit "body", VStr (lit "See you soon.")) ])
       else json_loads Sample.rt v;
     repr := repr Sample.rt |}.

(** The first completion is the classification, the second the composed
    email; every later one answers "Done". *)
Definition svc : Services :=
  {| connected_accounts_initiate := fun _ _ _ => Exc Sample.unreachable;
     wait_for_connection := fun _ _ _ => Exc Sample.unreachable;
     tools_get := fun _ _ _ => Exc Sample.unreachable;
     completions_create := fun h _ =>
       Ok {| choices := [ VStr (match length h with
                                | 0 => classify_json
                                | 1 => compose_json
                                | _ => lit "Done"
                                end) ];
             response_id := N.of_nat (length h) |};
     handle_tool_calls := fun _ _ _ =>
       Ok (VList [ VDict [ (lit "successful", VBool true) ] ]) |}.

End Script.

(** ** What a method returns *)

(** Every value the method returns satisfies [post]. *)
Definition returns_only {A} (post : A -> Prop) (method : M A) : Prop :=
  forall w a, fst (method w) = Ok a -> post a.

(** A result that says how the operation went: the failure shape, or an
    object whose [success] is [True] and that names its intent and holds
    its formatted result. *)
Definition flagged (result_ : pyval) : Prop :=
  (exists message, result_ = failure message)
  \/ exists d intent refined,
       result_ = VDict d
       /\ Py.lookup d (lit "success") = Some (VBool true)
       /\ Py.lookup d (lit "intent") = Some (VStr intent)
       /\ Py.lookup d (lit "formatted_result") = Some refined.

(** The result of the early return for a missing parameter. *)
Definition error_only (result_ : pyval) : Prop :=
  exists text, result_ = VDict [ (lit "error", VStr text) ].

(** ** Conversations *)

(** The world after the chat turns [msgs], one after the other. *)
Definition after_turns (rt : Runtime) (svc : Services) (msgs : list ChatMessage)
           (w : World) : World :=
  fold_left (fun w msg => snd (handle_message rt svc msg w)) msgs w.

(** The calls made between two worlds. *)
Definition calls_between (w w' : World) : list event :=
  skipn (length (history w)) (history w').

(** ** Blocks of a report *)

(** [d.get(k, default)] on an object. *)
Definition field (d : dict) (k : string) (default : pyval) : pyval :=
  match Py.lookup d (lit k) with
  | Some x => x
  | None => default
  end.

(** The preview text of a message: its [preview.body] when that is a
    text, and the empty text when the preview or its body is absent. *)
Definition preview_text (d : dict) : pystr :=
  match Py.lookup d (lit "preview") with
  | Some (VDict pd) =>
      match Py.lookup pd (lit "body") with
      | Some (VStr text) => text
      | _ => []
      end
  | _ => []
  end.

(** The lines a report gives to [text] under a budget: for an empty text
    the lines [otherwise]; else one line, [label] followed by the text as
    the truncation law shows it. *)
Definition shown_line (budget : nat) (label : pystr) (otherwise : list pystr)
           (text : pystr) (lines : list pystr) : Prop :=
  match text with
  | [] => lines = otherwise
  | _ => exists shown, lines = [label ++ shown] /\ truncation_law budget text shown
  end.

(** The four lines every message block starts with: the number, the
    subject, the sender and the date of the message. *)
Definition message_head (rt : Runtime) (i : nat) (d : dict) : list pystr :=
  [ nl ++ Glyph.envelope ++ lit " Email #" ++ PyStr.of_nat i;
    Glyph.clipboard ++ lit " Subject: "
    ++ fstr rt (field d "subject" (VStr (lit "No Subject")));
    Glyph.bust ++ lit " From: "
    ++ fstr rt (field d "sender" (VStr (lit "Unknown Sender")));
    Glyph.calendar ++ lit " Date: "
    ++ fstr rt (formatted_date_of rt (field d "messageTimestamp" (VStr []))) ].

(** [block] is the block of message [msg], shown as number [i], in the
    report of [_format_emails]: the preview follows the law with budget
    200. *)
Definition email_block (rt : Runtime) (i : nat) (msg : pyval) (block : list pystr)
  : Prop :=
  exists d lines,
    msg = VDict d
    /\ shown_line 200 (Glyph.memo ++ lit " Preview: ") [] (preview_text d) lines
    /\ block = message_head rt i d ++ lines ++ [ times (lit "-") 40 ].

(** The same in the report of [_format_emails_with_full_content]: the
    extracted content follows the law with budget 1000, and an empty
    content is said to be unavailable. *)
Definition content_block (rt : Runtime) (i : nat) (msg : pyval) (block : list pystr)
  : Prop :=
  exists d text lines,
    msg = VDict d
    /\ _extract_email_content rt msg = Ok text
    /\ shown_line 1000 (Glyph.memo ++ lit " Full Content: ")
         [ Glyph.memo ++ lit " No content available" ] text lines
    /\ block = message_head rt i d ++ lines ++ [ times (lit "-") 40 ].

(** [block] is the block of draft [draft], shown as number [i], in the
    report of [_format_drafts]: the preview of the draft's message follows
    the law with budget 150. *)
Definition draft_block (rt : Runtime) (i : nat) (draft : pyval) (block : list pystr)
  : Prop :=
  exists d m lines,
    draft = VDict d
    /\ field d "message" (VDict []) = VDict m
    /\ shown_line 150 (Glyph.page ++ lit " Content: ") [] (preview_text m) lines
    /\ block = [ nl ++ Glyph.memo ++ lit " Draft #" ++ PyStr.of_nat i;
                 Glyph.clipboard ++ lit " Subject: "
                 ++ fstr rt (field m "subject" (VStr (lit "No Subject")));
                 Glyph.calendar ++ lit " Created: "
                 ++ fstr rt (formatted_date_of rt (field m "messageTimestamp" (VStr []))) ]
               ++ lines ++ [ times (lit "-") 30 ].

(** A draft whose message, when it has one, is a plain message. *)
Definition plain_draft (draft : pyval) : Prop :=
  exists d m,
    draft = VDict d
    /\ field d "message" (VDict []) = VDict m
    /\ plain_message (VDict m).

(** [blocks] holds one block per item, in the order of the items: the
    first is the block of the first item shown as number [i], the second
    that of the second item shown as [i + 1], and so on. *)
Fixpoint rounds_from (round : nat -> pyval -> list pystr -> Prop) (i : nat)
         (items : list pyval) (blocks : list (list pystr)) : Prop :=
  match items, blocks with
  | [], [] => True
  | x :: items', block :: blocks' =>
      round i x block /\ rounds_from round (S i) items' blocks'
  | _, _ => False
  end.

(** Messages and a draft for the examples. *)
Module Letter.

Definition bare : pyval := VDict [ (lit "subject", VStr (lit "Hi")) ].

Definition long : pyval :=
  VDict [ (lit "preview", VDict [ (lit "body", VStr (repeat 120%N 201)) ]) ].

Definition draft : pyval :=
  VDict [ (lit "message",
           VDict [ (lit "preview", VDict [ (lit "body", VStr (lit "hello")) ]) ]) ].

End Letter.

(** ** Message bodies *)






(** More messages for the examples. *)
Module Body.




(** Data that is a number. *)
Definition number : dict :=
  [ (lit "payload", VDict [ (lit "body", VDict [ (lit "data", VInt 7) ]) ]) ].

End Body.

(** A successful item whose data passes for a profile: it holds
    [emailAddress] and none of the keys tested before it. *)
Definition profile_item (item data : pyval) : Prop :=
  exists d flag,
    item = VDict d
    /\ Py.lookup d (lit "successful") = Some flag /\ Py.truthy flag = true
    /\ Py.lookup d (lit "data") = Some data
    /\ Py.contains "messages" data = Ok false
    /\ Py.contains "drafts" data = Ok false
    /\ Py.contains "labels" data = Ok false
    /\ Py.contains "response_data" data = Ok false
    /\ Py.contains "emailAddress" data = Ok true.

(** More gateway payloads. *)
Module Broken.

(** An item whose data is a list that holds the profile's key: the
    profile cannot be read from it. *)
Definition profile : pyval :=
  VDict [ (lit "successful", VBool true);
          (lit "data", VList [ VStr (lit "emailAddress") ]) ].

(** An item whose contacts data is a number. *)
Definition contacts : pyval :=
  VDict [ (lit "successful", VBool true);
          (lit "data", VDict [ (lit "response_data", VInt 5) ]) ].

End Broken.

(** * Properties *)

(** ** Strings *)

Lemma pystr_eqb_refl (s : pystr) : PyStr.eqb s s = true.
Proof.
  induction s as [|c s IH]; simpl; [reflexivity|].
  now rewrite N.eqb_refl, IH.
Qed.

Lemma pystr_eqb_eq (a b : pystr) : PyStr.eqb a b = true <-> a = b.
Proof.
  split; [|intros ->; apply pystr_eqb_refl].
  revert b; induction a as [|x a IH]; intros [|y b]; simpl; try discriminate; auto.
  intros H. apply andb_true_iff in H as [H1 H2].
  apply N.eqb_eq in H1. f_equal; auto.
Qed.

(** ** Process start *)

Lemma init_fields (u a : pyval) :
  user_email (__init__ u a) = u
  /\ auth_config_id (__init__ u a) = a
  /\ connection_request (__init__ u a) = None
  /\ connected_account (__init__ u a) = VNone
  /\ tools (__init__ u a) = VNone
  /\ is_authenticated (__init__ u a) = false.
Proof. repeat split. Qed.

(** The call the constructor expects. *)
Lemma call_with_both_arguments (u a : pyval) :
  Startup.call_GmailAgent [] [(lit "user_email", u); (lit "auth_config_id", a)]
  = Ok (__init__ u a)
  /\ Startup.call_GmailAgent [u; a] [] = Ok (__init__ u a).
Proof. split; reflexivity. Qed.

(** The keywords are bound before the positional arguments are counted,
    and in the order of the call. *)
Lemma call_binds_keywords_first (u a x v : pyval) :
  Startup.call_GmailAgent [u; a; x] [(lit "user_email", v)]
  = Exc (Startup.multiple_values "user_email")
  /\ Startup.call_GmailAgent [u; a; x] [] = Exc (Startup.too_many_positional 4)
  /\ Startup.call_GmailAgent [u] [(lit "colour", v); (lit "user_email", v)]
     = Exc (Startup.unexpected_keyword (lit "colour"))
  /\ Startup.call_GmailAgent [u] [(lit "user_email", v); (lit "colour", v)]
     = Exc (Startup.multiple_values "user_email")
  /\ Startup.call_GmailAgent [] [(lit "self", v)] = Exc (Startup.multiple_values "self").
Proof. repeat split. Qed.

Lemma call_without_user_email (a : pyval) :
  Startup.call_GmailAgent [] [(lit "auth_config_id", a)]
  = Exc (Startup.missing (lit "'user_email'") false).
Proof. reflexivity. Qed.

(** C2: the claim says that process start creates one session holding the
    account identifier and the auth-config reference.  The statement that
    creates it passes no account identifier, so the call raises a
    [TypeError] whatever the environment holds, and the module's top level
    never yields a session. *)
Theorem gmail_agent_is_never_created (p : Startup.Process) :
  Startup.gmail_agent p = Exc (Startup.missing (lit "'user_email'") false)
  /\ exn_class (Startup.missing (lit "'user_email'") false) = "TypeError"%string
  /\ forall session, Startup.module_top_level p <> Ok session.
Proof.
  split; [apply call_without_user_email|].
  split; [reflexivity|].
  intros session. unfold Startup.module_top_level.
  destruct (Startup.new_OpenAI p _); simpl; [|discriminate].
  destruct (negb _); [discriminate|].
  destruct (Startup.new_Composio p _); simpl; [|discriminate].
  destruct (Startup.new_Agent p); simpl; [|discriminate].
  destruct (Startup.new_Protocol p); simpl; [|discriminate].
  unfold Startup.gmail_agent. rewrite call_without_user_email. discriminate.
Qed.

(** ** Exceptions stop at [try_except] *)

Lemma try_except_ok {A} (body : M A) (handler : exn -> M A) w a w' :
  body w = (Ok a, w') -> try_except body handler w = (Ok a, w').
Proof. unfold try_except. now intros ->. Qed.

Lemma try_except_exc {A} (body : M A) (handler : exn -> M A) w e w' :
  body w = (Exc e, w') -> try_except body handler w = handler e w'.
Proof. unfold try_except. now intros ->. Qed.

(** A [try] whose handler returns a value never raises. *)
Lemma try_except_returns {A} (body : M A) (fallback : exn -> A) w :
  exists a w', try_except body (fun e => ret (fallback e)) w = (Ok a, w').
Proof.
  unfold try_except, ret. destruct (body w) as [[a|e] w']; eauto.
Qed.

Lemma bind_ok {A B} (c : M A) (k : A -> M B) w a w' :
  c w = (Ok a, w') -> bind c k w = k a w'.
Proof. unfold bind. now intros ->. Qed.

Lemma bind_exc {A B} (c : M A) (k : A -> M B) w e w' :
  c w = (Exc e, w') -> bind c k w = (Exc e, w').
Proof. unfold bind. now intros ->. Qed.

Lemma create_run (svc : Services) (request : Request) (w : World) :
  create svc request w
  = (completions_create svc (history w) request, after_call w (EvCompletion request)).
Proof. reflexivity. Qed.

(** ** The classifier and the refiner *)

Section Completions.

Variable rt : Runtime.
Variable svc : Services.

(** What the classifier does in every case. *)
Lemma analyze_user_intent_run (message : pystr) (w : World) :
  analyze_user_intent rt svc message w
  = (Ok match (let* response := completions_create svc (history w) (intent_request message) in
               let* content := first_content response in
               json_loads rt content) with
        | Ok analysis => analysis
        | Exc _ => unknown_intent
        end,
     after_call w (EvCompletion (intent_request message))).
Proof.
  unfold analyze_user_intent, analyze_user_intent_try, try_except, bind, lift.
  rewrite create_run.
  destruct (completions_create svc (history w) (intent_request message)) as [response|e];
    simpl; [|reflexivity].
  destruct (first_content response) as [content|e]; simpl; [|reflexivity].
  destruct (json_loads rt content); reflexivity.
Qed.

(** The classifier returns a value on every input and makes one call. *)
Lemma analyze_user_intent_returns (message : pystr) (w : World) :
  exists analysis,
    analyze_user_intent rt svc message w
    = (Ok analysis, after_call w (EvCompletion (intent_request message))).
Proof. rewrite analyze_user_intent_run. eauto. Qed.

Lemma refine_response_with_gpt_run (raw_response : pyval) (w : World) :
  refine_response_with_gpt svc raw_response w
  = (Ok match (let* response := completions_create svc (history w)
                                  (refine_request raw_response) in
               first_content response) with
        | Ok refined => refined
        | Exc _ => raw_response
        end,
     after_call w (EvCompletion (refine_request raw_response))).
Proof.
  unfold refine_response_with_gpt, try_except, bind, lift.
  rewrite create_run.
  destruct (completions_create svc (history w) (refine_request raw_response))
    as [response|e]; simpl; [|reflexivity].
  destruct (first_content response); reflexivity.
Qed.

End Completions.

(** C6: whatever the text, when the completion call of the intent
    classifier fails (the service raises, the response is empty, or its
    text is not valid JSON), [analyze_user_intent] returns
    [{"intent": "UNKNOWN", "parameters": {}, "confidence": 0.0}] as a
    value: nothing is raised to the caller. *)
Theorem analyze_user_intent_degrades_to_unknown
        (rt : Runtime) (svc : Services) (message : pystr) (w : World) :
  classification_fails rt svc message w ->
  analyze_user_intent rt svc message w
  = (Ok unknown_intent, after_call w (EvCompletion (intent_request message)))
  /\ unknown_intent
     = VDict [ (lit "intent", VStr (lit "UNKNOWN"));
               (lit "parameters", VDict []);
               (lit "confidence", VFloat 0) ].
Proof.
  intros Hfail. split; [|reflexivity].
  rewrite analyze_user_intent_run.
  destruct Hfail as [e H | response e H1 H2 | response content e H1 H2 H3].
  - now rewrite H.
  - rewrite H1; simpl. now rewrite H2.
  - rewrite H1; simpl. rewrite H2; simpl. now rewrite H3.
Qed.

(** The three kinds of failure, each on a concrete run. *)
Lemma analyze_user_intent_degrades_to_unknown_witness :
  (classification_fails Sample.rt Sample.down (lit "show emails") Sample.fresh
   /\ fst (analyze_user_intent Sample.rt Sample.down (lit "show emails") Sample.fresh)
      = Ok unknown_intent)
  /\ (classification_fails Sample.rt Sample.silent (lit "show emails") Sample.fresh
      /\ fst (analyze_user_intent Sample.rt Sample.silent (lit "show emails") Sample.fresh)
         = Ok unknown_intent)
  /\ (classification_fails Sample.rt (Sample.answering (lit "not json"))
        (lit "show emails") Sample.fresh
      /\ fst (analyze_user_intent Sample.rt (Sample.answering (lit "not json"))
                (lit "show emails") Sample.fresh)
         = Ok unknown_intent).
Proof.
  assert (H1 : classification_fails Sample.rt Sample.down (lit "show emails") Sample.fresh)
    by (eapply classify_service_error; reflexivity).
  assert (H2 : classification_fails Sample.rt Sample.silent (lit "show emails") Sample.fresh)
    by (eapply classify_no_choice; reflexivity).
  assert (H3 : classification_fails Sample.rt (Sample.answering (lit "not json"))
                 (lit "show emails") Sample.fresh)
    by (eapply classify_malformed_json; reflexivity).
  split; [|split]; (split; [assumption|]).
  - now rewrite (proj1 (analyze_user_intent_degrades_to_unknown H1)).
  - now rewrite (proj1 (analyze_user_intent_degrades_to_unknown H2)).
  - now rewrite (proj1 (analyze_user_intent_degrades_to_unknown H3)).
Defined.

(** C8: whatever the formatted text, when the completion call of the
    refiner fails, [refine_response_with_gpt] returns that text unchanged,
    as a value. *)
Theorem refine_response_with_gpt_falls_back
        (svc : Services) (raw_response : pyval) (w : World) :
  refinement_fails svc raw_response w ->
  refine_response_with_gpt svc raw_response w
  = (Ok raw_response, after_call w (EvCompletion (refine_request raw_response))).
Proof.
  intros Hfail. rewrite refine_response_with_gpt_run.
  destruct Hfail as [e H | response e H1 H2].
  - now rewrite H.
  - rewrite H1; simpl. now rewrite H2.
Qed.

(** The service is down, or answers without a choice. *)
Lemma refine_response_with_gpt_falls_back_witness :
  (refinement_fails Sample.down (VStr (lit "2 email(s) found")) Sample.connected
   /\ fst (refine_response_with_gpt Sample.down
             (VStr (lit "2 email(s) found")) Sample.connected)
      = Ok (VStr (lit "2 email(s) found")))
  /\ (refinement_fails Sample.silent (VStr (lit "2 email(s) found")) Sample.connected
      /\ fst (refine_response_with_gpt Sample.silent
                (VStr (lit "2 email(s) found")) Sample.connected)
         = Ok (VStr (lit "2 email(s) found"))).
Proof.
  assert (H1 : refinement_fails Sample.down (VStr (lit "2 email(s) found")) Sample.connected)
    by (eapply refine_service_error; reflexivity).
  assert (H2 : refinement_fails Sample.silent (VStr (lit "2 email(s) found"))
                 Sample.connected)
    by (eapply refine_no_choice; reflexivity).
  split; (split; [assumption|]).
  - now rewrite (refine_response_with_gpt_falls_back H1).
  - now rewrite (refine_response_with_gpt_falls_back H2).
Defined.

(** ** The dispatcher *)

Lemma get_only_on_dict (v : pyval) (k : string) (default x : pyval) :
  Py.get v k default = Ok x -> exists d, v = VDict d.
Proof. destruct v; simpl; try discriminate; eauto. Qed.

Lemma get_on_dict (d : dict) (k : string) (default : pyval) :
  exists x, Py.get (VDict d) k default = Ok x.
Proof. simpl. destruct (Py.lookup d (lit k)); eauto. Qed.

(** A session is unauthenticated when the connection or the tools are
    missing. *)
Lemma unauthenticated_iff (self : GmailAgent) :
  is_authenticated self = false
  <-> connected_account self = VNone \/ tools self = VNone.
Proof.
  unfold is_authenticated.
  destruct (connected_account self), (tools self); simpl;
    split; intros H; try reflexivity; try discriminate; auto;
    destruct H; discriminate.
Qed.

Section Dispatcher.

Variable rt : Runtime.
Variable svc : Services.

Lemma initiate_auth_run (w : World) :
  initiate_auth rt svc w
  = match connected_accounts_initiate svc (history w)
            (user_email (agent w)) (auth_config_id (agent w)) with
    | Ok request =>
        (Ok (lit "Please visit this URL to authenticate Gmail: "
             ++ fstr rt (redirect_url request) ++ nl
             ++ lit "After completing, send 'Auth complete' or your next query."),
         {| agent := with_connection_request (agent w) request;
            history := history w ++ [initiate_call (agent w)] |})
    | Exc e =>
        (Ok (lit "Error initiating auth: " ++ exn_msg e),
         after_call w (initiate_call (agent w)))
    end.
Proof.
  unfold initiate_auth, try_except, bind, get_self, call, set_self, ret. simpl.
  destruct (connected_accounts_initiate svc (history w) _ _); reflexivity.
Qed.

(** [process_query] up to the two guards, once the intent is known. *)
Lemma process_query_classified (user_query : pystr) (w : World) (intent : pyval) :
  classified_as rt svc user_query w intent ->
  process_query rt svc user_query w
  = let w1 := after_call w (classification_call rt user_query) in
    if Py.eq_lit intent "AUTH" then
      match initiate_auth rt svc w1 with
      | (Ok auth_url, w2) => (Ok (auth_reply auth_url), w2)
      | (Exc e, w2) => (Exc e, w2)
      end
    else if negb (is_authenticated (agent w)) then
      (Ok (failure not_authenticated_error), w1)
    else process_query rt svc user_query w.
Proof.
  intros (analysis & Hrun & Hintent).
  destruct (get_only_on_dict _ _ _ Hintent) as [d ->].
  destruct (get_on_dict d "parameters" (VDict [])) as [parameters Hp].
  destruct (get_on_dict d "confidence" (VFloat 0)) as [confidence Hc].
  destruct (analyze_user_intent_returns rt svc (clean_query rt user_query) w)
    as [analysis' Hrun'].
  rewrite Hrun' in Hrun. simpl in Hrun. injection Hrun as ->.
  cbv zeta.
  destruct (Py.eq_lit intent "AUTH") eqn:Hauth.
  - unfold process_query.
    erewrite bind_ok by exact Hrun'.
    unfold bind at 1, lift at 1. rewrite Hintent.
    unfold bind at 1, lift at 1. rewrite Hp.
    unfold bind at 1, lift at 1. rewrite Hc.
    rewrite Hauth. unfold bind, ret, classification_call.
    destruct (initiate_auth rt svc _) as [[auth_url|e] w2]; reflexivity.
  - destruct (negb (is_authenticated (agent w))) eqn:Hguard; [|reflexivity].
    unfold process_query.
    erewrite bind_ok by exact Hrun'.
    unfold bind at 1, lift at 1. rewrite Hintent.
    unfold bind at 1, lift at 1. rewrite Hp.
    unfold bind at 1, lift at 1. rewrite Hc.
    rewrite Hauth. unfold bind at 1, get_self at 1.
    unfold after_call at 1. cbn [agent]. rewrite Hguard. reflexivity.
Qed.

End Dispatcher.

Lemma skipn_history (h new : list event) : skipn (length h) (h ++ new) = new.
Proof.
  rewrite skipn_app, skipn_all, Nat.sub_diag. reflexivity.
Qed.

(** C1, as amended: when the session is not authenticated and the
    classified intent is not AUTH, [process_query] returns
    [{"success": False, "error": "Gmail not authenticated. ..."}], leaves the
    session as it was, and the only call it makes is the completion call
    that classified the query: no gateway call, no other completion call. *)
Theorem unauthenticated_query_is_rejected
        (rt : Runtime) (svc : Services) (user_query : pystr) (w : World)
        (intent : pyval) :
  is_authenticated (agent w) = false ->
  classified_as rt svc user_query w intent ->
  Py.eq_lit intent "AUTH" = false ->
  process_query rt svc user_query w
  = (Ok (failure not_authenticated_error),
     after_call w (classification_call rt user_query))
  /\ calls_during (process_query rt svc user_query) w
     = [classification_call rt user_query]
  /\ Py.get (failure not_authenticated_error) "success" VNone = Ok (VBool false)
  /\ PyStr.is_infix (lit "not authenticated") not_authenticated_error = true.
Proof.
  intros Hguard Hclass Hintent.
  assert (Hrun : process_query rt svc user_query w
                 = (Ok (failure not_authenticated_error),
                    after_call w (classification_call rt user_query))).
  { rewrite (process_query_classified Hclass), Hintent, Hguard. reflexivity. }
  split; [exact Hrun|]. split; [|split; reflexivity].
  unfold calls_during. rewrite Hrun. apply skipn_history.
Qed.

(** An unauthenticated session asked for the profile. *)
Lemma unauthenticated_query_is_rejected_witness :
  is_authenticated (agent Sample.fresh) = false
  /\ classified_as Sample.rt (Sample.answering Sample.profile_json)
       (lit "get my profile") Sample.fresh (VStr (lit "GET_PROFILE"))
  /\ calls_during (process_query Sample.rt (Sample.answering Sample.profile_json)
                     (lit "get my profile")) Sample.fresh
     = [classification_call Sample.rt (lit "get my profile")].
Proof.
  assert (Hclass : classified_as Sample.rt (Sample.answering Sample.profile_json)
                     (lit "get my profile") Sample.fresh (VStr (lit "GET_PROFILE"))).
  { exists (VDict [ (lit "intent", VStr (lit "GET_PROFILE")) ]). split; reflexivity. }
  split; [reflexivity|]. split; [exact Hclass|].
  exact (proj1 (proj2 (@unauthenticated_query_is_rejected
                         Sample.rt (Sample.answering Sample.profile_json)
                         (lit "get my profile") Sample.fresh
                         (VStr (lit "GET_PROFILE")) eq_refl Hclass eq_refl))).
Defined.

(** C1 as worded fails on that run: classifying the query is itself a call
    to the completion service. *)
Lemma unauthenticated_query_still_calls_the_classifier :
  is_authenticated (agent Sample.fresh) = false
  /\ classified_as Sample.rt (Sample.answering Sample.profile_json)
       (lit "get my profile") Sample.fresh (VStr (lit "GET_PROFILE"))
  /\ Py.eq_lit (VStr (lit "GET_PROFILE")) "AUTH" = false
  /\ ~ rejected_without_any_call Sample.rt (Sample.answering Sample.profile_json)
         (lit "get my profile") Sample.fresh.
Proof.
  split; [reflexivity|]. split.
  { exists (VDict [ (lit "intent", VStr (lit "GET_PROFILE")) ]). split; reflexivity. }
  split; [reflexivity|].
  intros [_ Hsilent].
  destruct (Hsilent (classification_call Sample.rt (lit "get my profile")))
    as [Hcompletion _].
  - vm_compute. left. reflexivity.
  - discriminate Hcompletion.
Qed.

(** C9: whatever the state of the session, a query classified as AUTH
    calls the handshake's initiation for the session's account and
    auth-config, and its result is the AUTH reply, not the
    "not authenticated" error. *)
Theorem auth_intent_always_initiates
        (rt : Runtime) (svc : Services) (user_query : pystr) (w : World)
        (intent : pyval) :
  classified_as rt svc user_query w intent ->
  Py.eq_lit intent "AUTH" = true ->
  exists text w',
    process_query rt svc user_query w = (Ok (auth_reply text), w')
    /\ calls_during (process_query rt svc user_query) w
       = [ classification_call rt user_query;
           EvInitiate (user_email (agent w)) (auth_config_id (agent w)) ]
    /\ auth_reply text <> failure not_authenticated_error.
Proof.
  intros Hclass Hintent.
  assert (Hrun : exists text w',
             process_query rt svc user_query w = (Ok (auth_reply text), w')
             /\ history w' = history w ++ [ classification_call rt user_query;
                                            initiate_call (agent w) ]).
  { rewrite (process_query_classified Hclass), Hintent. cbv zeta.
    rewrite initiate_auth_run. unfold after_call; cbn [agent history].
    destruct (connected_accounts_initiate svc _ _ _) as [request|e];
      do 2 eexists; (split; [reflexivity|]); cbn [history];
      rewrite <- app_assoc; reflexivity. }
  destruct Hrun as (text & w' & Hrun & Hhistory).
  exists text, w'. split; [exact Hrun|]. split; [|discriminate].
  unfold calls_during. rewrite Hrun. cbn [snd]. rewrite Hhistory.
  apply skipn_history.
Qed.

(** The same AUTH query on a fresh session and on a connected one. *)
Lemma auth_intent_always_initiates_witness :
  (exists text w',
      process_query Sample.rt (Sample.answering Sample.auth_json)
        (lit "authenticate gmail") Sample.fresh = (Ok (auth_reply text), w'))
  /\ (exists text w',
         process_query Sample.rt (Sample.answering Sample.auth_json)
           (lit "authenticate gmail") Sample.connected = (Ok (auth_reply text), w')).
Proof.
  assert (Hclass : forall w, classified_as Sample.rt (Sample.answering Sample.auth_json)
                               (lit "authenticate gmail") w (VStr (lit "AUTH"))).
  { intros w. exists (VDict [ (lit "intent", VStr (lit "AUTH")) ]). split; reflexivity. }
  split.
  - destruct (auth_intent_always_initiates (Hclass Sample.fresh) eq_refl)
      as (text & w' & Hrun & _).
    exists text, w'. exact Hrun.
  - destruct (auth_intent_always_initiates (Hclass Sample.connected) eq_refl)
      as (text & w' & Hrun & _).
    exists text, w'. exact Hrun.
Defined.

(** C10: a query classified as AUTH always gets a result with
    [success = True] and no [error]; when initiating the handshake raises,
    the message "Error initiating auth: ..." is the [formatted_result] of
    that result, and the transport adapter sends it as it is, without the
    error marker. *)
Theorem auth_failure_is_reported_as_success
        (rt : Runtime) (svc : Services) (user_query : pystr) (w : World)
        (intent : pyval) :
  classified_as rt svc user_query w intent ->
  Py.eq_lit intent "AUTH" = true ->
  exists text,
    fst (process_query rt svc user_query w) = Ok (auth_reply text)
    /\ Py.get (auth_reply text) "success" VNone = Ok (VBool true)
    /\ Py.get (auth_reply text) "error" VNone = Ok VNone
    /\ response_of rt (auth_reply text) = Ok (VStr text)
    /\ forall e,
         connected_accounts_initiate svc
           (history w ++ [classification_call rt user_query])
           (user_email (agent w)) (auth_config_id (agent w)) = Exc e ->
         text = lit "Error initiating auth: " ++ exn_msg e.
Proof.
  intros Hclass Hintent.
  rewrite (process_query_classified Hclass), Hintent. cbv zeta.
  rewrite initiate_auth_run. unfold after_call; cbn [agent history].
  destruct (connected_accounts_initiate svc _ _ _) as [request|e0];
    eexists; (split; [reflexivity|]); (split; [reflexivity|]);
    (split; [reflexivity|]); (split; [reflexivity|]); intros e He.
  - discriminate He.
  - now injection He as ->.
Qed.

(** The handshake cannot be initiated: the reply is still a success. *)
Lemma auth_failure_is_reported_as_success_witness :
  exists text,
    fst (process_query Sample.rt (Sample.answering Sample.auth_json)
           (lit "authenticate gmail") Sample.fresh) = Ok (auth_reply text)
    /\ text = lit "Error initiating auth: Connection error.".
Proof.
  assert (Hclass : classified_as Sample.rt (Sample.answering Sample.auth_json)
                     (lit "authenticate gmail") Sample.fresh (VStr (lit "AUTH"))).
  { exists (VDict [ (lit "intent", VStr (lit "AUTH")) ]). split; reflexivity. }
  destruct (auth_failure_is_reported_as_success Hclass eq_refl)
    as (text & Hrun & _ & _ & _ & Hfail).
  exists text. split; [exact Hrun|].
  exact (Hfail Sample.unreachable eq_refl).
Defined.

(** ** The handlers *)

Section Handlers.

Variable rt : Runtime.
Variable svc : Services.

(** Every handler is one [try] whose [except Exception] returns a value:
    no handler raises, whatever the parameters and the services do. *)
Lemma handlers_never_raise (parameters : pyval) (w : World) :
  Forall (fun handler : pyval -> M pyval =>
            exists result_ w', handler parameters w = (Ok result_, w'))
         [ _handle_send_email rt svc; _handle_search_emails rt svc;
           _handle_delete_emails rt svc; _handle_move_to_trash rt svc;
           _handle_get_contacts rt svc; _handle_mark_as_read rt svc;
           _handle_mark_as_unread rt svc; _handle_read_email rt svc;
           _handle_create_label rt svc; _handle_get_profile rt svc ].
Proof.
  repeat constructor;
    unfold _handle_mark_as_read, _handle_mark_as_unread;
    apply (try_except_returns _ (fun e => failure (exn_msg e))).
Qed.

(** A parameter bag that is not an object: building the instruction
    raises, and the handler returns the failure shape. *)
Lemma create_label_bad_parameters (s : pystr) (w : World) :
  _handle_create_label rt svc (VStr s) w
  = (Ok (failure (exn_msg (Py.AttributeError (VStr s) "get"))), w).
Proof. reflexivity. Qed.

(** The completion service raises. *)
Lemma create_label_completion_error (d : dict) (name : pyval) (e : exn) (w : World) :
  Py.lookup d (lit "label_name") = Some name ->
  Py.truthy name = true ->
  (forall request, completions_create svc (history w) request = Exc e) ->
  fst (_handle_create_label rt svc (VDict d) w) = Ok (failure (exn_msg e)).
Proof.
  intros Hname Htruthy Hdown.
  unfold _handle_create_label, ask, create.
  unfold try_except, bind, lift, call, get_self.
  cbn [Py.get]. rewrite Hname, Htruthy. cbn [negb agent history].
  rewrite Hdown. reflexivity.
Qed.

(** The gateway raises. *)
Lemma create_label_gateway_error (d : dict) (name : pyval) (e : exn) (w : World)
      (response : Response) :
  Py.lookup d (lit "label_name") = Some name ->
  Py.truthy name = true ->
  (forall request, completions_create svc (history w) request = Ok response) ->
  (forall h user, handle_tool_calls svc h response user = Exc e) ->
  fst (_handle_create_label rt svc (VDict d) w) = Ok (failure (exn_msg e)).
Proof.
  intros Hname Htruthy Hup Hdown.
  unfold _handle_create_label, ask, run_tool_calls, create.
  unfold try_except, bind, lift, call, get_self.
  cbn [Py.get]. rewrite Hname, Htruthy. cbn [negb agent history].
  rewrite Hup. cbn [agent history]. rewrite Hdown. reflexivity.
Qed.

(** The adapter shows a result without [success] as an error. *)
Lemma response_of_error_only (text : pystr) :
  response_of rt (VDict [ (lit "error", VStr text) ])
  = Ok (VStr (Glyph.cross ++ lit " Error: " ++ text)).
Proof. reflexivity. Qed.

End Handlers.

(** C3: the claim says that a handler answers a missing required parameter
    with [{success: false, error: <message>}].  With an empty parameter bag
    the send handler and the create-label handler return a dictionary that
    holds [error] only: it has no [success] key and is not of that shape,
    while the [except] clause of the same handlers does build that shape. *)
Theorem missing_parameter_result_lacks_success
        (rt : Runtime) (svc : Services) (w : World) :
  _handle_send_email rt svc (VDict []) w
  = (Ok (VDict [ (lit "error", VStr (lit "No recipient specified")) ]), w)
  /\ _handle_create_label rt svc (VDict []) w
     = (Ok (VDict [ (lit "error", VStr (lit "No label name specified")) ]), w)
  /\ (forall text message, VDict [ (lit "error", VStr text) ] <> failure message)
  /\ (forall text, Py.lookup [ (lit "error", VStr text) ] (lit "success") = None).
Proof.
  repeat split; intros; discriminate.
Qed.

(** The same through [process_query], on a connected session asked to send
    an email to nobody: the result still has no [success], and a second
    completion call refines the default text into its [formatted_result]. *)
Example missing_recipient_through_process_query :
  fst (process_query Sample.rt (Sample.answering Sample.send_json)
         (lit "send an email") Sample.connected)
  = Ok (VDict [ (lit "error", VStr (lit "No recipient specified"));
                (lit "formatted_result", VStr Sample.send_json) ])
  /\ calls_during (process_query Sample.rt (Sample.answering Sample.send_json)
                     (lit "send an email")) Sample.connected
     = [ classification_call Sample.rt (lit "send an email");
         EvCompletion (refine_request (VStr action_completed)) ].
Proof. split; vm_compute; reflexivity. Qed.

(** ** The truncation step *)

Lemma cut_to_law (budget : nat) (text : pystr) :
  exists shown,
    cut_to budget (VStr text) = Ok (VStr shown) /\ truncation_law budget text shown.
Proof.
  unfold cut_to, truncation_law. cbn [Py.len rbind].
  destruct (Nat.ltb_spec budget (length text)) as [Hlong|Hshort].
  - exists (firstn budget text ++ ellipsis). split; [reflexivity|].
    split; [lia|reflexivity].
  - exists text. split; [reflexivity|]. split; [reflexivity|lia].
Qed.


Section Truncation.

Variable rt : Runtime.

(** The reports are the heading followed by the rounds of the loop. *)
Lemma format_emails_rounds (msg : pyval) (rest : list pyval) :
  _format_emails rt (VList (msg :: rest))
  = let* body := for_enumerate (_format_emails_item rt) 1 (msg :: rest) in
    Ok ([ Glyph.email ++ lit " Found " ++ PyStr.of_nat (length (msg :: rest))
          ++ lit " email(s):"; times (lit "=") 60 ] ++ body).
Proof. reflexivity. Qed.

Lemma format_drafts_rounds (draft : pyval) (rest : list pyval) :
  _format_drafts rt (VList (draft :: rest))
  = let* body := for_enumerate (_format_drafts_item rt) 1 (draft :: rest) in
    Ok ([ Glyph.memo ++ lit " Found " ++ PyStr.of_nat (length (draft :: rest))
          ++ lit " draft(s):"; times (lit "=") 50 ] ++ body).
Proof. reflexivity. Qed.

End Truncation.

(** ** Decoding message bodies *)





Section Extraction.

Variable rt : Runtime.


(** The extraction returns a text for every message. *)
Lemma extract_email_content_returns (msg : pyval) :
  exists text, _extract_email_content rt msg = Ok text.
Proof.
  unfold _extract_email_content, rcatch.
  destruct (extract_email_content_try rt msg); eauto.
Qed.

(** Whatever is raised inside the extraction yields the empty text. *)
Lemma extract_email_content_caught (msg : pyval) (e : exn) :
  extract_email_content_try rt msg = Exc e ->
  _extract_email_content rt msg = Ok [].
Proof. unfold _extract_email_content. now intros ->. Qed.

End Extraction.

(** ** The loop of the report *)

Section Report.

Variable rt : Runtime.

(** [_format_result] returns a text for every payload. *)
Lemma format_result_returns (payload : pyval) (query : pystr) :
  exists report, _format_result rt payload query = Ok report.
Proof.
  unfold _format_result, rcatch.
  destruct (format_result_try rt payload query); eauto.
Qed.

(** The loop stops at the first round that raises. *)
Lemma for_each_raises (body : pyval -> result (list pystr))
      (before : list pyval) (item : pyval) (after : list pyval) (e : exn) :
  Forall (fun x => exists lines, body x = Ok lines) before ->
  body item = Exc e ->
  for_each body (before ++ item :: after) = Exc e.
Proof.
  intros Hbefore Hitem.
  induction Hbefore as [|x before [lines Hx] _ IH]; simpl.
  - now rewrite Hitem.
  - rewrite Hx; simpl. now rewrite IH.
Qed.

(** When every round succeeds the loop gives the lines of all rounds. *)
Lemma for_each_succeeds (body : pyval -> result (list pystr)) (items : list pyval) :
  Forall (fun x => exists lines, body x = Ok lines) items ->
  exists all, for_each body items = Ok all
              /\ forall x lines, In x items -> body x = Ok lines -> incl lines all.
Proof.
  induction 1 as [|x items [lines Hx] _ (rest & Hrest & Hincl)]; simpl.
  - exists []. split; [reflexivity|]. intros ? ? [].
  - rewrite Hx, Hrest. simpl. exists (lines ++ rest). split; [reflexivity|].
    intros y lines' [<-|Hy] Hy'.
    + rewrite Hx in Hy'. injection Hy' as <-. now apply incl_appl.
    + apply incl_appr. eauto.
Qed.

(** An exception in any round replaces the whole report. *)
Lemma format_result_replaced (item : pyval) (rest : list pyval) (query : pystr)
      (e : exn) :
  for_each (_format_result_item rt) (item :: rest) = Exc e ->
  _format_result rt (VList (item :: rest)) query
  = Ok (lit "Error formatting result: " ++ exn_msg e).
Proof.
  intros Hloop. unfold _format_result, format_result_try.
  cbn [Py.truthy is_list negb orb Py.iter rbind]. now rewrite Hloop.
Qed.

End Report.

(** * Calls, sessions and reports *)

(** ** How many calls a method makes *)

Section Costs.

Variable cost : event -> nat.

Lemma weight_app (a b : list event) : weight cost (a ++ b) = weight cost a + weight cost b.
Proof. unfold weight. now rewrite map_app, list_sum_app. Qed.

Lemma cost_ret {A} (a : A) : costs_at_most cost 0 (ret a).
Proof. intros w. exists []. now rewrite app_nil_r. Qed.

Lemma cost_lift {A} (r : result A) : costs_at_most cost 0 (lift r).
Proof. intros w. exists []. now rewrite app_nil_r. Qed.

Lemma cost_get_self : costs_at_most cost 0 get_self.
Proof. intros w. exists []. now rewrite app_nil_r. Qed.

Lemma cost_set_self (a : GmailAgent) : costs_at_most cost 0 (set_self a).
Proof. intros w. exists []. now rewrite app_nil_r. Qed.

Lemma cost_call {A} (ev : event) (oracle : list event -> result A) :
  costs_at_most cost (cost ev) (call ev oracle).
Proof.
  intros w. exists [ev]. split; [reflexivity|].
  unfold weight. simpl. lia.
Qed.

Lemma cost_call_of {A} (n : nat) (ev : event) (oracle : list event -> result A) :
  cost ev = n -> costs_at_most cost n (call ev oracle).
Proof. intros <-. apply cost_call. Qed.

Lemma cost_bind {A B} (n m : nat) (c : M A) (k : A -> M B) :
  costs_at_most cost n c ->
  (forall a, costs_at_most cost m (k a)) ->
  costs_at_most cost (n + m) (bind c k).
Proof.
  intros Hc Hk w. unfold bind.
  destruct (Hc w) as (new & Hnew & Hn).
  destruct (c w) as [[a|e] w1]; cbn [snd] in *.
  - destruct (Hk a w1) as (new' & Hnew' & Hm).
    exists (new ++ new'). rewrite Hnew', Hnew, app_assoc, weight_app.
    split; [reflexivity|lia].
  - exists new. split; [assumption|lia].
Qed.

Lemma cost_try_except {A} (n m : nat) (body : M A) (handler : exn -> M A) :
  costs_at_most cost n body ->
  (forall e, costs_at_most cost m (handler e)) ->
  costs_at_most cost (n + m) (try_except body handler).
Proof.
  intros Hbody Hhandler w. unfold try_except.
  destruct (Hbody w) as (new & Hnew & Hn).
  destruct (body w) as [[a|e] w1]; cbn [snd] in *.
  - exists new. split; [assumption|lia].
  - destruct (Hhandler e w1) as (new' & Hnew' & Hm).
    exists (new ++ new'). rewrite Hnew', Hnew, app_assoc, weight_app.
    split; [reflexivity|lia].
Qed.

Lemma cost_if {A} (n m : nat) (b : bool) (c d : M A) :
  costs_at_most cost n c ->
  costs_at_most cost m d ->
  costs_at_most cost (Nat.max n m) (if b then c else d).
Proof.
  intros Hc Hd w. destruct b.
  - destruct (Hc w) as (new & Hnew & Hn). exists new. split; [assumption|lia].
  - destruct (Hd w) as (new & Hnew & Hm). exists new. split; [assumption|lia].
Qed.

Lemma cost_option {A B} (n m : nat) (o : option B) (c : M A) (f : B -> M A) :
  costs_at_most cost n c ->
  (forall b, costs_at_most cost m (f b)) ->
  costs_at_most cost (Nat.max n m) (match o with Some b => f b | None => c end).
Proof.
  intros Hc Hf w. destruct o as [b|].
  - destruct (Hf b w) as (new & Hnew & Hm). exists new. split; [assumption|lia].
  - destruct (Hc w) as (new & Hnew & Hn). exists new. split; [assumption|lia].
Qed.

Lemma cost_is_some {A B} (n m : nat) (o : option B) (c d : M A) :
  costs_at_most cost n c ->
  costs_at_most cost m d ->
  costs_at_most cost (Nat.max n m) (match o with Some _ => d | None => c end).
Proof. intros Hc Hd. now apply (@cost_option A B n m o c (fun _ => d)). Qed.

Lemma cost_weaken {A} (n m : nat) (c : M A) :
  costs_at_most cost n c -> n <= m -> costs_at_most cost m c.
Proof.
  intros Hc Hle w. destruct (Hc w) as (new & Hnew & Hn).
  exists new. split; [assumption|lia].
Qed.

(** What a bound says about the calls made during a run. *)
Lemma cost_of_calls_during {A} (n : nat) (c : M A) (w : World) :
  costs_at_most cost n c -> weight cost (calls_during c w) <= n.
Proof.
  intros Hc. destruct (Hc w) as (new & Hnew & Hn).
  unfold calls_during. now rewrite Hnew, skipn_history.
Qed.

End Costs.

(** The bound of a method follows its text: one rule per construct. *)
Ltac cost_step :=
  lazymatch goal with
  | |- costs_at_most _ _ (bind _ _) => eapply cost_bind; [|intro]
  | |- costs_at_most _ _ (try_except _ _) => eapply cost_try_except; [|intro]
  | |- costs_at_most _ _ (ret _) => apply cost_ret
  | |- costs_at_most _ _ (lift _) => apply cost_lift
  | |- costs_at_most _ _ get_self => apply cost_get_self
  | |- costs_at_most _ _ (set_self _) => apply cost_set_self
  | |- costs_at_most _ _ (call _ _) => apply cost_call_of; cbn; reflexivity
  | |- costs_at_most _ _ (match _ with _ => _ end) =>
      first [eapply cost_if | eapply cost_is_some | eapply cost_option; [|intro]]
  end.

Ltac cost_of_text := cbv zeta; repeat (cost_step; cbv zeta).

Create HintDb agent_methods.
#[local] Hint Unfold process_query dispatch generic_handler
  _handle_send_email _handle_search_emails _handle_delete_emails
  _handle_move_to_trash _handle_get_contacts _handle_mark_as_read
  _handle_mark_as_unread mark_handler _handle_read_email _handle_create_label
  _handle_get_profile compose_email_with_ai refine_response_with_gpt
  analyze_user_intent analyze_user_intent_try initiate_auth complete_auth
  ask create run_tool_calls on_exception process_and_answer handle_message
  : agent_methods.

Ltac cost_of_method :=
  eapply cost_weaken;
    [repeat autounfold with agent_methods; cost_of_text | vm_compute; lia].

Section CallBounds.

Variable rt : Runtime.
Variable svc : Services.

Lemma process_query_gateway_bound (user_query : pystr) :
  costs_at_most gateway_cost 1 (process_query rt svc user_query).
Proof. cost_of_method. Qed.

Lemma process_query_completion_bound (user_query : pystr) :
  costs_at_most completion_cost 5 (process_query rt svc user_query).
Proof. cost_of_method. Qed.

Lemma process_query_handshake_bound (user_query : pystr) :
  costs_at_most handshake_cost 1 (process_query rt svc user_query).
Proof. cost_of_method. Qed.

Lemma handle_message_gateway_bound (msg : ChatMessage) :
  costs_at_most gateway_cost 1 (handle_message rt svc msg).
Proof. cost_of_method. Qed.

Lemma handle_message_completion_bound (msg : ChatMessage) :
  costs_at_most completion_cost 5 (handle_message rt svc msg).
Proof. cost_of_method. Qed.

Lemma handle_message_handshake_bound (msg : ChatMessage) :
  costs_at_most handshake_cost 2 (handle_message rt svc msg).
Proof. cost_of_method. Qed.

End CallBounds.

(** A chat turn has the gateway and completion budget of a query, and
    makes at most two calls of the handshake: the poll and the loading of
    the tools. *)
Theorem handle_message_call_budget
        (rt : Runtime) (svc : Services) (msg : ChatMessage) (w : World) :
  weight gateway_cost (calls_during (handle_message rt svc msg) w) <= 1
  /\ weight completion_cost (calls_during (handle_message rt svc msg) w) <= 5
  /\ weight handshake_cost (calls_during (handle_message rt svc msg) w) <= 2.
Proof.
  repeat split; apply cost_of_calls_during.
  - apply handle_message_gateway_bound.
  - apply handle_message_completion_bound.
  - apply handle_message_handshake_bound.
Qed.

(** ** What a method leaves alone *)

Section Preservation.

Variable same : GmailAgent -> GmailAgent -> Prop.
Hypothesis same_refl : forall a, same a a.
Hypothesis same_trans : forall a b c, same a b -> same b c -> same a c.

Lemma preserves_ret {A} (a : A) : preserves same (ret a).
Proof. intros w. apply same_refl. Qed.

Lemma preserves_lift {A} (r : result A) : preserves same (lift r).
Proof. intros w. apply same_refl. Qed.

Lemma preserves_get_self : preserves same get_self.
Proof. intros w. apply same_refl. Qed.

Lemma preserves_call {A} (ev : event) (oracle : list event -> result A) :
  preserves same (call ev oracle).
Proof. intros w. apply same_refl. Qed.

Lemma preserves_bind {A B} (c : M A) (k : A -> M B) :
  preserves same c -> (forall a, preserves same (k a)) -> preserves same (bind c k).
Proof.
  intros Hc Hk w. unfold bind. specialize (Hc w).
  destruct (c w) as [[a|e] w1]; cbn [snd] in *; [|assumption].
  eapply same_trans; [exact Hc|apply Hk].
Qed.

Lemma preserves_try_except {A} (body : M A) (handler : exn -> M A) :
  preserves same body -> (forall e, preserves same (handler e)) ->
  preserves same (try_except body handler).
Proof.
  intros Hbody Hhandler w. unfold try_except. specialize (Hbody w).
  destruct (body w) as [[a|e] w1]; cbn [snd] in *; [assumption|].
  eapply same_trans; [exact Hbody|apply Hhandler].
Qed.

Lemma preserves_if {A} (b : bool) (c d : M A) :
  preserves same c -> preserves same d -> preserves same (if b then c else d).
Proof. now destruct b. Qed.

Lemma preserves_option {A B} (o : option B) (c : M A) (f : B -> M A) :
  preserves same c -> (forall b, preserves same (f b)) ->
  preserves same (match o with Some b => f b | None => c end).
Proof. destruct o; auto. Qed.

Lemma preserves_is_some {A B} (o : option B) (c d : M A) :
  preserves same c -> preserves same d ->
  preserves same (match o with Some _ => d | None => c end).
Proof. now destruct o. Qed.

(** [self.field = value]: the session is read and written back changed. *)
Lemma preserves_update {A} (change : GmailAgent -> GmailAgent) (k : GmailAgent -> M A) :
  (forall a, same a (change a)) ->
  (forall a, preserves same (k a)) ->
  preserves same (bind get_self (fun self => bind (set_self (change self)) (fun _ => k self))).
Proof.
  intros Hchange Hk w. unfold bind, get_self, set_self.
  eapply same_trans; [apply (Hchange (agent w))|].
  apply (Hk (agent w) {| agent := change (agent w); history := history w |}).
Qed.

End Preservation.

Lemma same_identity_trans (a b c : GmailAgent) :
  same_identity a b -> same_identity b c -> same_identity a c.
Proof. unfold same_identity. intuition congruence. Qed.

Lemma same_credentials_trans (a b c : GmailAgent) :
  same_credentials a b -> same_credentials b c -> same_credentials a c.
Proof. unfold same_credentials, same_identity. intuition congruence. Qed.

(** What is kept follows the text of a method, one rule per construct;
    [side] proves that the relation is reflexive and transitive and that an
    assignment to the session respects it. *)
Ltac preserves_of_text side :=
  cbv zeta;
  repeat (first [ eapply preserves_update
                | eapply preserves_bind
                | eapply preserves_try_except
                | eapply preserves_ret
                | eapply preserves_lift
                | eapply preserves_get_self
                | eapply preserves_call
                | eapply preserves_if
                | eapply preserves_is_some
                | eapply preserves_option ];
          try solve [side]; intros; cbv zeta).

Ltac credentials_side :=
  first [ exact same_credentials_trans
        | intros; unfold same_credentials, same_identity; cbn; repeat split ].

Ltac identity_side :=
  first [ exact same_identity_trans
        | intros; unfold same_identity; cbn; repeat split ].

Section Kept.

Variable rt : Runtime.
Variable svc : Services.

Lemma process_query_keeps_credentials (user_query : pystr) :
  preserves same_credentials (process_query rt svc user_query).
Proof.
  repeat autounfold with agent_methods. preserves_of_text credentials_side.
Qed.

Lemma handle_message_keeps_identity (msg : ChatMessage) :
  preserves same_identity (handle_message rt svc msg).
Proof.
  repeat autounfold with agent_methods. preserves_of_text identity_side.
Qed.

End Kept.

(** A query leaves the session's identity and its connection alone: it
    neither authenticates the session nor logs it out. *)
Theorem process_query_keeps_authentication
        (rt : Runtime) (svc : Services) (user_query : pystr) (w : World) :
  same_credentials (agent w) (agent (snd (process_query rt svc user_query w)))
  /\ is_authenticated (agent (snd (process_query rt svc user_query w)))
     = is_authenticated (agent w).
Proof.
  pose proof (process_query_keeps_credentials rt svc user_query w) as Hsame.
  split; [exact Hsame|].
  destruct Hsame as (_ & Haccount & Htools).
  unfold is_authenticated. now rewrite Haccount, Htools.
Qed.

(** ** Completing the handshake *)

Section Handshake.

Variable svc : Services.

(** What [complete_auth] does in every case. *)
Lemma complete_auth_run (w : World) :
  complete_auth svc w
  = match connection_request (agent w) with
    | None => (Ok false, w)
    | Some request =>
        match wait_for_connection svc (history w) request 5 with
        | Exc _ => (Ok false, after_call w (poll_call request))
        | Ok account =>
            match tools_get svc (history w ++ [poll_call request])
                    (user_email (agent w)) [lit "GMAIL"] with
            | Exc _ =>
                (Ok false,
                 {| agent := with_connected_account (agent w) account;
                    history := history w ++ [poll_call request; tools_call (agent w)] |})
            | Ok toolset =>
                (Ok true,
                 {| agent := with_tools (with_connected_account (agent w) account) toolset;
                    history := history w ++ [poll_call request; tools_call (agent w)] |})
            end
        end
    end.
Proof.
  unfold complete_auth, bind, get_self. cbn [fst snd].
  destruct w as [self h]. cbn [agent history].
  destruct (connection_request self) as [request|] eqn:Hrequest; [|reflexivity].
  unfold try_except, bind, call, get_self, set_self, ret, after_call, poll_call,
    tools_call. cbn [agent history].
  destruct (wait_for_connection svc h request 5) as [account|e]; [|reflexivity].
  cbn [agent history user_email].
  destruct (tools_get svc _ _ _) as [toolset|e];
    rewrite <- app_assoc; reflexivity.
Qed.

End Handshake.

(** ** Completing the handshake, continued *)

(** [complete_auth] answers [True] exactly when a request is pending, the
    poll returns a connection and the tools load; the session then holds
    both.  It never raises. *)
Theorem complete_auth_succeeds_iff (svc : Services) (w : World) :
  (exists done, fst (complete_auth svc w) = Ok done)
  /\ (fst (complete_auth svc w) = Ok true
      <-> exists request account toolset,
            handshake_completes svc w request account toolset)
  /\ (forall request account toolset,
         handshake_completes svc w request account toolset ->
         agent (snd (complete_auth svc w))
         = with_tools (with_connected_account (agent w) account) toolset).
Proof.
  rewrite complete_auth_run. unfold handshake_completes, poll_call.
  destruct (connection_request (agent w)) as [request|].
  - destruct (wait_for_connection svc (history w) request 5) as [account|e] eqn:Hwait.
    + destruct (tools_get svc _ _ _) as [toolset|e] eqn:Htools.
      * split; [eexists; reflexivity|]. split.
        -- split; [|reflexivity]. intros _. exists request, account, toolset.
           rewrite Hwait, Htools. auto.
        -- intros r a t (Hr & Ha & Ht). injection Hr as <-.
           rewrite Hwait in Ha. injection Ha as <-.
           rewrite Htools in Ht. injection Ht as <-. reflexivity.
      * split; [eexists; reflexivity|]. split.
        -- split; [discriminate|]. intros (r & a & t & Hr & Ha & Ht).
           injection Hr as <-. rewrite Hwait in Ha. injection Ha as <-.
           rewrite Htools in Ht. discriminate.
        -- intros r a t (Hr & Ha & Ht). injection Hr as <-.
           rewrite Hwait in Ha. injection Ha as <-.
           rewrite Htools in Ht. discriminate.
    + split; [eexists; reflexivity|]. split.
      * split; [discriminate|]. intros (r & a & t & Hr & Ha & _).
        injection Hr as <-. rewrite Hwait in Ha. discriminate.
      * intros r a t (Hr & Ha & _). injection Hr as <-.
        rewrite Hwait in Ha. discriminate.
  - split; [eexists; reflexivity|]. split.
    + split; [discriminate|]. intros (r & a & t & Hr & _). discriminate.
    + intros r a t (Hr & _). discriminate.
Qed.

Lemma complete_auth_succeeds_iff_witness :
  handshake_completes Sample.handshaking Sample.waiting Sample.pending_request
    (VDict [ (lit "id", VStr (lit "ca_1")) ]) (VList [ VStr (lit "GMAIL_SEND_EMAIL") ])
  /\ fst (complete_auth Sample.handshaking Sample.waiting) = Ok true
  /\ is_authenticated (agent (snd (complete_auth Sample.handshaking Sample.waiting)))
     = true.
Proof.
  assert (H : handshake_completes Sample.handshaking Sample.waiting
                Sample.pending_request (VDict [ (lit "id", VStr (lit "ca_1")) ])
                (VList [ VStr (lit "GMAIL_SEND_EMAIL") ]))
    by (repeat split).
  destruct (complete_auth_succeeds_iff Sample.handshaking Sample.waiting)
    as (_ & Hiff & Hagent).
  split; [exact H|]. split.
  - apply Hiff. eauto.
  - rewrite (Hagent _ _ _ H). reflexivity.
Defined.

(** When the poll returns a connection and loading the tools raises,
    [complete_auth] answers [False] and yet the connection stays stored in
    the session; when the poll itself raises, the session is untouched and
    the tools are not asked for. *)
Theorem complete_auth_failure_leaves (svc : Services) (w : World)
        (request : ConnectionRequest) :
  connection_request (agent w) = Some request ->
  (forall e, wait_for_connection svc (history w) request 5 = Exc e ->
             complete_auth svc w = (Ok false, after_call w (poll_call request)))
  /\ (forall account e,
         wait_for_connection svc (history w) request 5 = Ok account ->
         tools_get svc (history w ++ [poll_call request])
           (user_email (agent w)) [lit "GMAIL"] = Exc e ->
         fst (complete_auth svc w) = Ok false
         /\ connected_account (agent (snd (complete_auth svc w))) = account
         /\ tools (agent (snd (complete_auth svc w))) = tools (agent w)
         /\ calls_during (complete_auth svc) w = [poll_call request; tools_call (agent w)]).
Proof.
  intros Hrequest. split.
  - intros e Hwait. now rewrite complete_auth_run, Hrequest, Hwait.
  - intros account e Hwait Htools.
    unfold calls_during. rewrite complete_auth_run, Hrequest, Hwait, Htools.
    cbn [fst snd agent history with_connected_account connected_account tools].
    repeat split. apply skipn_history.
Qed.

Lemma complete_auth_failure_leaves_witness :
  fst (complete_auth Sample.half_handshaking Sample.waiting) = Ok false
  /\ connected_account (agent (snd (complete_auth Sample.half_handshaking Sample.waiting)))
     = VDict [ (lit "id", VStr (lit "ca_1")) ]
  /\ is_authenticated (agent (snd (complete_auth Sample.half_handshaking Sample.waiting)))
     = false
  /\ complete_auth Sample.down Sample.waiting
     = (Ok false, after_call Sample.waiting (poll_call Sample.pending_request)).
Proof.
  destruct (@complete_auth_failure_leaves Sample.half_handshaking Sample.waiting
              Sample.pending_request eq_refl) as (_ & Hhalf).
  destruct (Hhalf (VDict [ (lit "id", VStr (lit "ca_1")) ]) Sample.unreachable
              eq_refl eq_refl) as (Hdone & Haccount & Htools & _).
  destruct (@complete_auth_failure_leaves Sample.down Sample.waiting
              Sample.pending_request eq_refl) as (Hdown & _).
  split; [exact Hdone|]. split; [exact Haccount|]. split.
  - unfold is_authenticated. rewrite Htools. reflexivity.
  - exact (Hdown Sample.unreachable eq_refl).
Defined.

(** ** Dictionaries *)

Lemma lookup_store_same (d : dict) (k : pystr) (v : pyval) :
  Py.lookup (Py.store d k v) k = Some v.
Proof.
  induction d as [|[k' v'] d IH]; cbn [Py.store Py.lookup].
  - now rewrite pystr_eqb_refl.
  - destruct (PyStr.eqb k' k) eqn:Hk; cbn [Py.lookup]; now rewrite Hk.
Qed.

Lemma lookup_store_other (d : dict) (k k' : pystr) (v : pyval) :
  k <> k' -> Py.lookup (Py.store d k v) k' = Py.lookup d k'.
Proof.
  intros Hne.
  assert (Hkk' : PyStr.eqb k k' = false).
  { destruct (PyStr.eqb k k') eqn:H; [|reflexivity].
    apply pystr_eqb_eq in H. contradiction. }
  induction d as [|[k0 v0] d IH]; cbn [Py.store Py.lookup].
  - now rewrite Hkk'.
  - destruct (PyStr.eqb k0 k) eqn:Hk; cbn [Py.lookup].
    + apply pystr_eqb_eq in Hk. subst k0. now rewrite Hkk'.
    + now rewrite IH.
Qed.

(** ** What [process_query] returns and raises *)

Section Outcome.

Variable rt : Runtime.
Variable svc : Services.

(** The classifier's JSON is not an object: reading the intent raises, and
    nothing in [process_query] catches it. *)
Lemma process_query_not_object (user_query : pystr) (w : World) (analysis : pyval) :
  fst (analyze_user_intent rt svc (clean_query rt user_query) w) = Ok analysis ->
  (forall d, analysis <> VDict d) ->
  process_query rt svc user_query w
  = (Exc (Py.AttributeError analysis "get"),
     after_call w (classification_call rt user_query)).
Proof.
  intros Hrun Hshape.
  destruct (analyze_user_intent_returns rt svc (clean_query rt user_query) w)
    as [analysis' Hrun'].
  rewrite Hrun' in Hrun. cbn [fst] in Hrun. injection Hrun as ->.
  unfold process_query. cbv zeta.
  erewrite bind_ok by exact Hrun'.
  unfold bind at 1, lift at 1.
  destruct analysis; try reflexivity.
  now destruct (Hshape d).
Qed.

(** Behind the two guards [process_query] is [dispatch_and_refine]. *)
Lemma process_query_dispatched (user_query : pystr) (w : World)
      (analysis intent parameters : pyval) :
  fst (analyze_user_intent rt svc (clean_query rt user_query) w) = Ok analysis ->
  Py.get analysis "intent" (VStr (lit "UNKNOWN")) = Ok intent ->
  Py.get analysis "parameters" (VDict []) = Ok parameters ->
  Py.eq_lit intent "AUTH" = false ->
  is_authenticated (agent w) = true ->
  process_query rt svc user_query w
  = dispatch_and_refine rt svc (clean_query rt user_query) intent parameters
      (after_call w (classification_call rt user_query)).
Proof.
  intros Hrun Hintent Hparameters Hauth Hguard.
  destruct (analyze_user_intent_returns rt svc (clean_query rt user_query) w)
    as [analysis' Hrun'].
  rewrite Hrun' in Hrun. cbn [fst] in Hrun. injection Hrun as ->.
  destruct (get_only_on_dict _ _ _ Hintent) as [d ->].
  destruct (get_on_dict d "confidence" (VFloat 0)) as [confidence Hc].
  unfold process_query. cbv zeta.
  erewrite bind_ok by exact Hrun'.
  unfold bind at 1, lift at 1. rewrite Hintent.
  unfold bind at 1, lift at 1. rewrite Hparameters.
  unfold bind at 1, lift at 1. rewrite Hc.
  rewrite Hauth. unfold bind at 1, get_self at 1.
  unfold after_call at 1. cbn [agent]. rewrite Hguard. reflexivity.
Qed.

Lemma dispatch_and_refine_returns (cleaned_query : pystr) (intent parameters : pyval)
      (w : World) :
  exists result_ w',
    dispatch_and_refine rt svc cleaned_query intent parameters w = (Ok result_, w').
Proof.
  unfold dispatch_and_refine, try_except, ret.
  match goal with |- context [match ?body w with _ => _ end] =>
    destruct (body w) as [[r|e] w'] end; eauto.
Qed.

(** Whatever [dispatch_and_refine] returns can be sent. *)
Lemma dispatch_and_refine_answerable (cleaned_query : pystr)
      (intent parameters result_ : pyval) (w w' : World) :
  dispatch_and_refine rt svc cleaned_query intent parameters w = (Ok result_, w') ->
  answerable rt result_.
Proof.
  unfold dispatch_and_refine, try_except.
  match goal with |- context [match ?body w with _ => _ end] =>
    destruct (body w) as [[r|e] w1] eqn:Hbody end.
  - intros H. injection H as -> _.
    unfold bind, lift, ret in Hbody.
    destruct (dispatch rt svc cleaned_query intent parameters w) as [[r0|e0] w2];
      [|discriminate].
    destruct (Py.get r0 "formatted_result" (VStr action_completed)) as [formatted|e0];
      [|discriminate].
    destruct (refine_response_with_gpt svc formatted w2) as [[refined|e0] w3];
      [|discriminate].
    destruct (Py.setitem r0 "formatted_result" refined) as [stored|e0] eqn:Hstore;
      [|discriminate].
    destruct (Py.slice_to refined 100) as [shown|e0] eqn:Hslice; [|discriminate].
    injection Hbody as -> _.
    destruct r0; try discriminate. cbn [Py.setitem] in Hstore. injection Hstore as <-.
    unfold answerable, response_of. cbn [Py.get].
    rewrite lookup_store_other by discriminate.
    rewrite lookup_store_same.
    destruct (Py.lookup d (lit "success")) as [flag|]; cbn [rbind Py.truthy].
    + destruct (Py.truthy flag); [eauto|].
      destruct (Py.lookup (Py.store d (lit "formatted_result") refined) (lit "error"));
        do 2 eexists; split; reflexivity.
    + destruct (Py.lookup (Py.store d (lit "formatted_result") refined) (lit "error"));
        do 2 eexists; split; reflexivity.
  - cbv zeta. unfold ret. intros H. injection H as <- _.
    unfold answerable. do 2 eexists. split; reflexivity.
Qed.

(** [process_query] returns a dictionary unless the classifier's JSON is
    not an object; then, and only then, it raises. *)
Lemma process_query_outcome (user_query : pystr) (w : World) :
  exists analysis,
    fst (analyze_user_intent rt svc (clean_query rt user_query) w) = Ok analysis
    /\ match analysis with
       | VDict _ =>
           exists result_, fst (process_query rt svc user_query w) = Ok result_
                           /\ answerable rt result_
       | _ => fst (process_query rt svc user_query w)
              = Exc (Py.AttributeError analysis "get")
       end.
Proof.
  destruct (analyze_user_intent_returns rt svc (clean_query rt user_query) w)
    as [analysis Hrun].
  assert (Hfst : fst (analyze_user_intent rt svc (clean_query rt user_query) w)
                 = Ok analysis) by now rewrite Hrun.
  exists analysis. split; [exact Hfst|].
  destruct analysis;
    try (rewrite (process_query_not_object _ _ Hfst); [reflexivity|discriminate]).
  destruct (get_on_dict d "intent" (VStr (lit "UNKNOWN"))) as [intent Hintent].
  destruct (get_on_dict d "parameters" (VDict [])) as [parameters Hparameters].
  assert (Hclass : classified_as rt svc user_query w intent) by (exists (VDict d); auto).
  destruct (Py.eq_lit intent "AUTH") eqn:Hauth.
  - rewrite (process_query_classified Hclass), Hauth. cbv zeta.
    rewrite initiate_auth_run.
    destruct (connected_accounts_initiate svc _ _ _);
      eexists; (split; [reflexivity|]); do 2 eexists; split; reflexivity.
  - destruct (is_authenticated (agent w)) eqn:Hguard.
    + rewrite (process_query_dispatched _ _ Hfst Hintent Hparameters Hauth Hguard).
      destruct (dispatch_and_refine_returns (clean_query rt user_query) intent parameters
                  (after_call w (classification_call rt user_query)))
        as (result_ & w' & Hresult).
      exists result_. rewrite Hresult. split; [reflexivity|].
      exact (dispatch_and_refine_answerable _ _ _ _ Hresult).
    + rewrite (process_query_classified Hclass), Hauth, Hguard. cbv zeta.
      eexists. split; [reflexivity|]. do 2 eexists. split; reflexivity.
Qed.

End Outcome.

(** [process_query] raises exactly when the classifier's JSON is not an
    object: the exception is the [AttributeError] of reading the intent.
    In every other case it returns a result that the adapter can send. *)
Theorem process_query_raises_only_on_non_object
        (rt : Runtime) (svc : Services) (user_query : pystr) (w : World)
        (analysis : pyval) :
  fst (analyze_user_intent rt svc (clean_query rt user_query) w) = Ok analysis ->
  ((exists d, analysis = VDict d) ->
   exists result_, fst (process_query rt svc user_query w) = Ok result_
                   /\ answerable rt result_)
  /\ ((forall d, analysis <> VDict d) ->
      fst (process_query rt svc user_query w) = Exc (Py.AttributeError analysis "get")).
Proof.
  intros Hrun.
  destruct (process_query_outcome rt svc user_query w) as (analysis' & Hrun' & Hout).
  rewrite Hrun in Hrun'. injection Hrun' as <-.
  split.
  - intros [d ->]. exact Hout.
  - intros Hshape. destruct analysis; try exact Hout. now destruct (Hshape d).
Qed.

Lemma process_query_raises_only_on_non_object_witness :
  fst (process_query Case.rt_array (Sample.answering (lit "[]")) (lit "hello")
         Sample.connected)
  = Exc (Py.AttributeError (VList []) "get")
  /\ exists result_,
       fst (process_query Case.rt_array (Sample.answering Sample.profile_json)
              (lit "get my profile") Sample.connected) = Ok result_.
Proof.
  split.
  - apply (proj2 (@process_query_raises_only_on_non_object
                    Case.rt_array (Sample.answering (lit "[]")) (lit "hello")
                    Sample.connected (VList []) eq_refl)).
    discriminate.
  - destruct (proj1 (@process_query_raises_only_on_non_object
                       Case.rt_array (Sample.answering Sample.profile_json)
                       (lit "get my profile") Sample.connected
                       (VDict [ (lit "intent", VStr (lit "GET_PROFILE")) ]) eq_refl))
      as (result_ & Hrun & _); [eauto|].
    exists result_. exact Hrun.
Defined.

(** ** The transport adapter *)

Section Adapter.

Variable rt : Runtime.
Variable svc : Services.

(** The [else] branch always has a reply, and its log line can be built. *)
Lemma process_and_answer_replies (text : pystr) (w : World) :
  exists response shown w',
    process_and_answer rt svc text w = (Ok response, w')
    /\ Py.slice_to response 100 = Ok shown.
Proof.
  unfold process_and_answer, try_except, bind, lift, ret.
  destruct (process_query_outcome rt svc text w) as (analysis & _ & Hout).
  destruct (process_query rt svc text w) as [[result_|e] w1].
  - assert (Hanswer : answerable rt result_).
    { destruct analysis; cbn [fst] in Hout; try discriminate.
      destruct Hout as (r & Hr & Hanswer). now injection Hr as <-. }
    destruct Hanswer as (response & shown & -> & Hslice). eauto.
  - do 3 eexists. split; reflexivity.
Qed.

(** What [handle_message] does, by the state of the session. *)
Lemma handle_message_run (msg : ChatMessage) (w : World) :
  handle_message rt svc msg w
  = let answered :=
      match connection_request (agent w) with
      | Some _ =>
          if negb (is_authenticated (agent w)) then
            match complete_auth svc w with
            | (Ok completed, w') =>
                (Ok (VStr (if completed then auth_completed else auth_pending)), w')
            | (Exc e, w') => (Exc e, w')
            end
          else process_and_answer rt svc (text_of msg) w
      | None => process_and_answer rt svc (text_of msg) w
      end in
    match answered with
    | (Ok response, w') =>
        match Py.slice_to response 100 with
        | Ok _ => (Ok [ Acknowledge (msg_id msg); Reply response ], w')
        | Exc e => (Exc e, w')
        end
    | (Exc e, w') => (Exc e, w')
    end.
Proof.
  unfold handle_message. cbv zeta. fold (text_of msg).
  unfold bind at 1, get_self at 1.
  unfold bind at 1.
  destruct (connection_request (agent w)).
  - destruct (negb (is_authenticated (agent w))).
    + unfold bind at 1, ret at 1.
      destruct (complete_auth svc w) as [[completed|e] w']; [|reflexivity].
      unfold bind, lift, ret. destruct (Py.slice_to _ 100); reflexivity.
    + destruct (process_and_answer rt svc (text_of msg) w) as [[response|e] w'];
        [|reflexivity].
      unfold bind, lift, ret. destruct (Py.slice_to _ 100); reflexivity.
  - destruct (process_and_answer rt svc (text_of msg) w) as [[response|e] w'];
      [|reflexivity].
    unfold bind, lift, ret. destruct (Py.slice_to _ 100); reflexivity.
Qed.

End Adapter.

(** No exception leaves [handle_message]: for every chat turn, session and
    behaviour of the services it returns the acknowledgement of the turn's
    identifier followed by one reply. *)
Theorem handle_message_always_replies
        (rt : Runtime) (svc : Services) (msg : ChatMessage) (w : World) :
  exists response w',
    handle_message rt svc msg w
    = (Ok [ Acknowledge (msg_id msg); Reply response ], w').
Proof.
  rewrite handle_message_run. cbv zeta.
  assert (Hpoll : exists completed w', complete_auth svc w = (Ok completed, w')).
  { rewrite complete_auth_run.
    destruct (connection_request (agent w)); [|eauto].
    destruct (wait_for_connection svc _ _ _); [|eauto].
    destruct (tools_get svc _ _ _); eauto. }
  destruct (process_and_answer_replies rt svc (text_of msg) w)
    as (response & shown & w' & Hanswer & Hslice).
  destruct (connection_request (agent w)).
  - destruct (negb (is_authenticated (agent w))).
    + destruct Hpoll as (completed & w1 & ->). cbn [Py.slice_to]. eauto.
    + rewrite Hanswer, Hslice. eauto.
  - rewrite Hanswer, Hslice. eauto.
Qed.

(** A turn on a session whose handshake is pending is the poll and a
    fixed reply; the calls of the poll are calls of the handshake. *)
Lemma pending_turn_run
      (rt : Runtime) (svc : Services) (msg : ChatMessage) (w : World)
      (request : ConnectionRequest) :
  connection_request (agent w) = Some request ->
  is_authenticated (agent w) = false ->
  exists completed w' new,
    complete_auth svc w = (Ok completed, w')
    /\ history w' = history w ++ new
    /\ weight completion_cost new = 0 /\ weight gateway_cost new = 0
    /\ handle_message rt svc msg w
       = (Ok [ Acknowledge (msg_id msg);
               Reply (VStr (if completed then auth_completed else auth_pending)) ], w').
Proof.
  intros Hrequest Hguard.
  assert (Hrun : exists completed w' new,
             complete_auth svc w = (Ok completed, w')
             /\ history w' = history w ++ new
             /\ weight completion_cost new = 0 /\ weight gateway_cost new = 0).
  { rewrite complete_auth_run, Hrequest.
    destruct (wait_for_connection svc _ _ _).
    - destruct (tools_get svc _ _ _); do 3 eexists; repeat split.
    - do 3 eexists. repeat split. }
  destruct Hrun as (completed & w' & new & Hrun & Hnew & Hcompletion & Hgateway).
  exists completed, w', new. repeat (split; [assumption|]).
  rewrite handle_message_run, Hrequest, Hguard, Hrun. reflexivity.
Qed.

(** While a handshake is pending and the session is not authenticated, a
    chat turn is not processed: whatever its text, the adapter polls the
    handshake once, calls neither the completion service nor the gateway,
    and replies with one of two fixed texts. *)
Theorem pending_handshake_swallows_the_turn
        (rt : Runtime) (svc : Services) (msg : ChatMessage) (w : World)
        (request : ConnectionRequest) :
  connection_request (agent w) = Some request ->
  is_authenticated (agent w) = false ->
  exists completed w',
    complete_auth svc w = (Ok completed, w')
    /\ handle_message rt svc msg w
       = (Ok [ Acknowledge (msg_id msg);
               Reply (VStr (if completed then auth_completed else auth_pending)) ], w')
    /\ weight completion_cost (calls_during (handle_message rt svc msg) w) = 0
    /\ weight gateway_cost (calls_during (handle_message rt svc msg) w) = 0.
Proof.
  intros Hrequest Hguard.
  destruct (@pending_turn_run rt svc msg w request Hrequest Hguard)
    as (completed & w' & new & Hrun & Hnew & Hcompletion & Hgateway & Hturn).
  exists completed, w'. split; [exact Hrun|]. split; [exact Hturn|].
  unfold calls_during. rewrite Hturn. cbn [snd]. rewrite Hnew, skipn_history. auto.
Qed.

Lemma pending_handshake_swallows_the_turn_witness :
  handle_message Sample.rt Sample.handshaking Case.turn Sample.waiting
  = (Ok [ Acknowledge 7; Reply (VStr auth_completed) ],
     snd (complete_auth Sample.handshaking Sample.waiting))
  /\ fst (handle_message Sample.rt Sample.half_handshaking Case.turn Sample.waiting)
     = Ok [ Acknowledge 7; Reply (VStr auth_pending) ].
Proof.
  destruct (@pending_handshake_swallows_the_turn Sample.rt Sample.handshaking
              Case.turn Sample.waiting Sample.pending_request eq_refl eq_refl)
    as (completed & w' & Hpoll & Hturn & _).
  destruct (@pending_handshake_swallows_the_turn Sample.rt Sample.half_handshaking
              Case.turn Sample.waiting Sample.pending_request eq_refl eq_refl)
    as (completed2 & w2 & Hpoll2 & Hturn2 & _).
  split.
  - rewrite Hturn, Hpoll. cbn [snd].
    assert (Hdone : Ok completed = Ok true)
      by (change (Ok completed) with (fst (Ok completed, w')); now rewrite <- Hpoll).
    injection Hdone as ->. reflexivity.
  - rewrite Hturn2. cbn [fst].
    assert (Hdone : Ok completed2 = Ok false)
      by (change (Ok completed2) with (fst (Ok completed2, w2)); now rewrite <- Hpoll2).
    injection Hdone as ->. reflexivity.
Defined.

Section Turns.

Variable rt : Runtime.
Variable svc : Services.

(** The [else] branch leaves the world where [process_query] left it. *)
Lemma process_and_answer_world (text : pystr) (w : World) :
  snd (process_and_answer rt svc text w) = snd (process_query rt svc text w).
Proof.
  unfold process_and_answer, try_except, bind, lift, ret.
  destruct (process_query rt svc text w) as [[result_|e] w1]; [|reflexivity].
  destruct (response_of rt result_); reflexivity.
Qed.

(** A turn that is processed leaves the world where [process_query] left
    it. *)
Lemma processed_turn_world (msg : ChatMessage) (w : World) :
  connection_request (agent w) = None \/ is_authenticated (agent w) = true ->
  snd (handle_message rt svc msg w) = snd (process_query rt svc (text_of msg) w).
Proof.
  intros Hstate. rewrite handle_message_run. cbv zeta.
  rewrite <- process_and_answer_world.
  assert (Hsame : forall answered : result pyval * World,
             snd match answered with
                 | (Ok response, w') =>
                     match Py.slice_to response 100 with
                     | Ok _ => (Ok [ Acknowledge (msg_id msg); Reply response ], w')
                     | Exc e => (Exc e, w')
                     end
                 | (Exc e, w') => (Exc e, w')
                 end = snd answered).
  { intros [[response|e] w']; [|reflexivity].
    destruct (Py.slice_to response 100); reflexivity. }
  destruct Hstate as [Hnone|Hauth].
  - rewrite Hnone. apply Hsame.
  - rewrite Hauth. cbn [negb].
    destruct (connection_request (agent w)); apply Hsame.
Qed.

(** The calls of an unauthenticated query: the classification, and the
    initiation of the handshake when the intent is AUTH. *)
Lemma unauthenticated_query_calls (user_query : pystr) (w : World) :
  is_authenticated (agent w) = false ->
  calls_during (process_query rt svc user_query) w = [classification_call rt user_query]
  \/ calls_during (process_query rt svc user_query) w
     = [classification_call rt user_query; initiate_call (agent w)].
Proof.
  intros Hguard. unfold calls_during.
  destruct (analyze_user_intent_returns rt svc (clean_query rt user_query) w)
    as [analysis Hrun].
  assert (Hfst : fst (analyze_user_intent rt svc (clean_query rt user_query) w)
                 = Ok analysis) by now rewrite Hrun.
  destruct analysis;
    try (left; erewrite process_query_not_object
           by first [exact Hfst | discriminate];
         unfold after_call; cbn [snd history]; apply skipn_history).
  destruct (get_on_dict d "intent" (VStr (lit "UNKNOWN"))) as [intent Hintent].
  assert (Hclass : classified_as rt svc user_query w intent) by (exists (VDict d); auto).
  rewrite (process_query_classified Hclass), Hguard. cbv zeta.
  destruct (Py.eq_lit intent "AUTH").
  - right. rewrite initiate_auth_run. unfold after_call. cbn [agent history].
    destruct (connected_accounts_initiate svc _ _ _); cbn [snd history];
      rewrite <- app_assoc; apply skipn_history.
  - left. unfold after_call. cbn [snd history]. apply skipn_history.
Qed.

End Turns.

(** An unauthenticated session never reaches the gateway, whatever the
    query and whatever the classifier answers: a query makes exactly one
    completion call, the classification, and a chat turn makes no gateway
    call either. *)
Theorem unauthenticated_session_never_reaches_the_gateway
        (rt : Runtime) (svc : Services) (user_query : pystr) (msg : ChatMessage)
        (w : World) :
  is_authenticated (agent w) = false ->
  weight gateway_cost (calls_during (process_query rt svc user_query) w) = 0
  /\ weight completion_cost (calls_during (process_query rt svc user_query) w) = 1
  /\ weight gateway_cost (calls_during (handle_message rt svc msg) w) = 0.
Proof.
  intros Hguard.
  assert (Hquery : forall q,
             weight gateway_cost (calls_during (process_query rt svc q) w) = 0
             /\ weight completion_cost (calls_during (process_query rt svc q) w) = 1).
  { intros q. destruct (@unauthenticated_query_calls rt svc q w Hguard) as [-> | ->];
      split; reflexivity. }
  split; [apply Hquery|]. split; [apply Hquery|].
  destruct (connection_request (agent w)) as [request|] eqn:Hrequest.
  - destruct (@pending_turn_run rt svc msg w request Hrequest Hguard)
      as (completed & w' & new & _ & Hnew & _ & Hgateway & Hturn).
    unfold calls_during. rewrite Hturn. cbn [snd].
    now rewrite Hnew, skipn_history.
  - unfold calls_during.
    rewrite (@processed_turn_world rt svc msg w (or_introl Hrequest)).
    apply (Hquery (text_of msg)).
Qed.

Lemma unauthenticated_session_never_reaches_the_gateway_witness :
  weight gateway_cost
    (calls_during (process_query Sample.rt (Sample.answering Sample.send_json)
                     (lit "send an email")) Sample.fresh) = 0
  /\ weight gateway_cost
       (calls_during (handle_message Sample.rt (Sample.answering Sample.profile_json)
                        Case.turn) Sample.fresh) = 0.
Proof.
  destruct (@unauthenticated_session_never_reaches_the_gateway
              Sample.rt (Sample.answering Sample.send_json) (lit "send an email")
              Case.turn Sample.fresh eq_refl) as (Hquery & _ & _).
  destruct (@unauthenticated_session_never_reaches_the_gateway
              Sample.rt (Sample.answering Sample.profile_json) (lit "send an email")
              Case.turn Sample.fresh eq_refl) as (_ & _ & Hturn).
  split; assumption.
Defined.

(** A chat turn never changes whose mailbox the session is for, and never
    logs an authenticated session out. *)
Theorem handle_message_keeps_the_session
        (rt : Runtime) (svc : Services) (msg : ChatMessage) (w : World) :
  same_identity (agent w) (agent (snd (handle_message rt svc msg w)))
  /\ (is_authenticated (agent w) = true ->
      same_credentials (agent w) (agent (snd (handle_message rt svc msg w)))
      /\ is_authenticated (agent (snd (handle_message rt svc msg w))) = true).
Proof.
  split; [apply handle_message_keeps_identity|].
  intros Hauth.
  rewrite (@processed_turn_world rt svc msg w (or_intror Hauth)).
  pose proof (process_query_keeps_credentials rt svc (text_of msg) w) as Hsame.
  split; [exact Hsame|].
  destruct Hsame as (_ & Haccount & Htools).
  unfold is_authenticated in *. now rewrite Haccount, Htools.
Qed.

Lemma handle_message_keeps_the_session_witness :
  is_authenticated
    (agent (snd (handle_message Sample.rt (Sample.answering Sample.auth_json)
                   Case.turn Sample.connected))) = true.
Proof.
  exact (proj2 (proj2 (handle_message_keeps_the_session
                         Sample.rt (Sample.answering Sample.auth_json)
                         Case.turn Sample.connected) eq_refl)).
Defined.

(** ** The report as a whole *)

Lemma join_headed (lines : list pystr) : headed lines -> PyStr.join nl lines <> [].
Proof.
  destruct lines as [|line [|next rest]]; cbn [headed PyStr.join]; auto.
  intros Hline. destruct line; [congruence|discriminate].
Qed.

Lemma headed_app (a b : list pystr) : headed a -> headed (a ++ b).
Proof. destruct a; cbn [headed app]; [intros []|auto]. Qed.

Lemma join_cons_not_empty (line : pystr) (rest : list pystr) :
  line <> [] -> PyStr.join nl (line :: rest) <> [].
Proof. intros H. now apply join_headed. Qed.

Section Headed.

Variable rt : Runtime.

Lemma format_emails_headed (messages : pyval) (lines : list pystr) :
  _format_emails rt messages = Ok lines -> headed lines.
Proof.
  unfold _format_emails. destruct (negb (Py.truthy messages)).
  - intros H. injection H as <-. discriminate.
  - destruct (Py.len messages); cbn [rbind]; [|discriminate].
    destruct (Py.iter messages); cbn [rbind]; [|discriminate].
    destruct (for_enumerate _ _ _); cbn [rbind]; [|discriminate].
    intros H. injection H as <-. discriminate.
Qed.

Lemma format_drafts_headed (drafts : pyval) (lines : list pystr) :
  _format_drafts rt drafts = Ok lines -> headed lines.
Proof.
  unfold _format_drafts. destruct (negb (Py.truthy drafts)).
  - intros H. injection H as <-. discriminate.
  - destruct (Py.len drafts); cbn [rbind]; [|discriminate].
    destruct (Py.iter drafts); cbn [rbind]; [|discriminate].
    destruct (for_enumerate _ _ _); cbn [rbind]; [|discriminate].
    intros H. injection H as <-. discriminate.
Qed.

Lemma format_labels_headed (labels : pyval) (lines : list pystr) :
  _format_labels rt labels = Ok lines -> headed lines.
Proof.
  unfold _format_labels. destruct (negb (Py.truthy labels)).
  - intros H. injection H as <-. discriminate.
  - destruct (Py.len labels); cbn [rbind]; [|discriminate].
    destruct (Py.iter labels) as [items|]; cbn [rbind]; [|discriminate].
    destruct (select_labels true items) as [system|]; cbn [rbind]; [|discriminate].
    destruct (select_labels false items) as [user|]; cbn [rbind]; [|discriminate].
    destruct (match system with [] => _ | _ => _ end); cbn [rbind]; [|discriminate].
    destruct (match user with [] => _ | _ => _ end); cbn [rbind]; [|discriminate].
    intros H. injection H as <-. discriminate.
Qed.

(** The contacts text and the profile text are never empty. *)
Lemma format_contacts_not_empty (response_data : pyval) :
  exists text, _format_contacts rt response_data = Ok text /\ text <> [].
Proof.
  unfold _format_contacts, rcatch, format_contacts_try.
  destruct (if negb (Py.truthy response_data) then _ else _) as [absent|e];
    cbn [rbind]; [|eexists; split; [reflexivity|discriminate]].
  destruct absent; [eexists; split; [reflexivity|discriminate]|].
  destruct (Py.get response_data "connections" (VList [])) as [connections|];
    cbn [rbind]; [|eexists; split; [reflexivity|discriminate]].
  destruct (Py.len connections); cbn [rbind];
    [|eexists; split; [reflexivity|discriminate]].
  destruct (Py.iter connections); cbn [rbind];
    [|eexists; split; [reflexivity|discriminate]].
  destruct (for_enumerate _ _ _); cbn [rbind];
    [|eexists; split; [reflexivity|discriminate]].
  eexists. split; [reflexivity|]. apply join_cons_not_empty. discriminate.
Qed.

Lemma format_profile_not_empty (profile_data : pyval) :
  exists text, _format_profile rt profile_data = Ok text /\ text <> [].
Proof.
  unfold _format_profile, rcatch, format_profile_try.
  destruct (negb (Py.truthy profile_data));
    [eexists; split; [reflexivity|discriminate]|].
  repeat (match goal with
          | |- context [Py.get profile_data ?k ?v] =>
              destruct (Py.get profile_data k v); cbn [rbind];
              [|eexists; split; [reflexivity|discriminate]]
          end).
  eexists. split; [reflexivity|]. apply join_cons_not_empty. discriminate.
Qed.

Lemma characters_headed (text : pystr) : text <> [] -> headed (characters text).
Proof. destruct text; [congruence|]. intros _. discriminate. Qed.

(** Every item adds at least one line, and its first line is not empty. *)
Lemma format_result_item_headed (item : pyval) (lines : list pystr) :
  _format_result_item rt item = Ok lines -> headed lines.
Proof.
  unfold _format_result_item.
  destruct (Py.get item "successful" (VBool false)) as [flag|]; cbn [rbind];
    [|discriminate].
  destruct (negb (Py.truthy flag)).
  { destruct (Py.get item "error" _); cbn [rbind]; [|discriminate].
    intros H. injection H as <-. discriminate. }
  destruct (Py.get item "data" (VDict [])) as [data|]; cbn [rbind]; [|discriminate].
  destruct (Py.contains "messages" data) as [[|]|]; cbn [rbind]; [| |discriminate].
  { destruct (Py.getitem data "messages"); cbn [rbind]; [|discriminate].
    apply format_emails_headed. }
  destruct (Py.contains "drafts" data) as [[|]|]; cbn [rbind]; [| |discriminate].
  { destruct (Py.getitem data "drafts"); cbn [rbind]; [|discriminate].
    apply format_drafts_headed. }
  destruct (Py.contains "labels" data) as [[|]|]; cbn [rbind]; [| |discriminate].
  { destruct (Py.getitem data "labels"); cbn [rbind]; [|discriminate].
    apply format_labels_headed. }
  destruct (Py.contains "response_data" data) as [[|]|]; cbn [rbind]; [| |discriminate].
  { destruct (Py.getitem data "response_data") as [response_data|]; cbn [rbind];
      [|discriminate].
    destruct (format_contacts_not_empty response_data) as (text & -> & Htext).
    cbn [rbind]. intros H. injection H as <-. now apply characters_headed. }
  destruct (Py.contains "emailAddress" data) as [[|]|]; cbn [rbind]; [| |discriminate].
  { destruct (format_profile_not_empty data) as (text & -> & Htext).
    cbn [rbind]. intros H. injection H as <-. exact Htext. }
  intros H. injection H as <-. discriminate.
Qed.

Lemma for_each_headed (item : pyval) (rest : list pyval) (lines : list pystr) :
  for_each (_format_result_item rt) (item :: rest) = Ok lines -> headed lines.
Proof.
  cbn [for_each].
  destruct (_format_result_item rt item) as [here|] eqn:Hitem; cbn [rbind];
    [|discriminate].
  destruct (for_each _ rest); cbn [rbind]; [|discriminate].
  intros H. injection H as <-.
  apply headed_app. exact (@format_result_item_headed _ _ Hitem).
Qed.

(** The loop gives the lines of the items, in order. *)
Lemma for_each_concat (body : pyval -> result (list pystr)) (items : list pyval)
      (blocks : list (list pystr)) :
  Forall2 (fun item block => body item = Ok block) items blocks ->
  for_each body items = Ok (concat blocks).
Proof.
  induction 1 as [|item block items blocks Hitem _ IH]; cbn [for_each concat].
  - reflexivity.
  - now rewrite Hitem, IH.
Qed.

End Headed.

(** The payloads that reach the loop of [_format_result]. *)
Lemma non_empty_list (payload : pyval) :
  negb (Py.truthy payload) || negb (is_list payload) = false ->
  exists item rest, payload = VList (item :: rest).
Proof.
  destruct payload as [| | | | |items|]; cbn [is_list negb];
    rewrite ?orb_true_r; try discriminate.
  destruct items as [|item rest]; [discriminate|eauto].
Qed.

(** The report is never the empty text: for every payload and query
    [_format_result] returns a text with at least one character. *)
Theorem format_result_never_empty (rt : Runtime) (payload : pyval) (query : pystr) :
  exists report, _format_result rt payload query = Ok report /\ report <> [].
Proof.
  unfold _format_result, rcatch, format_result_try.
  destruct (negb (Py.truthy payload) || negb (is_list payload)) eqn:Hshape;
    [eexists; split; [reflexivity|discriminate]|].
  destruct (non_empty_list _ Hshape) as (item & rest & ->).
  cbn [Py.iter rbind].
  destruct (for_each (_format_result_item rt) (item :: rest)) as [lines|e] eqn:Hloop;
    cbn [rbind]; [|eexists; split; [reflexivity|discriminate]].
  pose proof (@for_each_headed rt _ _ _ Hloop) as Hheaded.
  destruct lines as [|line lines]; [destruct Hheaded|].
  eexists. split; [reflexivity|]. now apply join_headed.
Qed.

(** When every item of the payload formats, the report is the lines of
    the items, in the order of the payload, joined by newlines. *)
Theorem format_result_joins_the_items
        (rt : Runtime) (items : list pyval) (blocks : list (list pystr))
        (query : pystr) :
  items <> [] ->
  Forall2 (fun item block => _format_result_item rt item = Ok block) items blocks ->
  _format_result rt (VList items) query = Ok (PyStr.join nl (concat blocks)).
Proof.
  intros Hitems Hblocks.
  pose proof (@for_each_concat _ _ _ Hblocks) as Hloop.
  destruct items as [|item rest]; [congruence|].
  pose proof (@for_each_headed rt _ _ _ Hloop) as Hheaded.
  unfold _format_result, format_result_try.
  cbn [Py.truthy is_list negb orb Py.iter rbind]. rewrite Hloop. cbn [rbind rcatch].
  destruct (concat blocks); [destruct Hheaded|reflexivity].
Qed.

(** In particular, a payload of failed items gives one error line per
    item. *)
Lemma failed_items_give_error_lines (rt : Runtime) (items : list pyval) :
  Forall unsuccessful items ->
  Forall2 (fun item block => _format_result_item rt item = Ok block)
          items (map (fun item => [error_line rt item]) items).
Proof.
  induction 1 as [|item items (d & flag & -> & Hflag & Hfalsy) _ IH]; cbn [map];
    constructor; [|exact IH].
  unfold _format_result_item, error_line. rewrite Hflag. cbn [rbind].
  rewrite Hfalsy. cbn [negb].
  destruct (get_on_dict d "error" (VStr (lit "Unknown error"))) as [error ->].
  reflexivity.
Qed.

Lemma format_result_joins_the_items_witness :
  _format_result Sample.rt (VList [Payload.failed; Payload.good]) (lit "show emails")
  = Ok (PyStr.join nl
          ([ Glyph.cross ++ lit " Error: quota exceeded" ]
           ++ [ Glyph.email ++ lit " Found 1 email(s):";
                times (lit "=") 60;
                nl ++ Glyph.envelope ++ lit " Email #1";
                Glyph.clipboard ++ lit " Subject: Hello";
                Glyph.bust ++ lit " From: Unknown Sender";
                Glyph.calendar ++ lit " Date: Unknown Date";
                times (lit "-") 40 ])).
Proof.
  apply (@format_result_joins_the_items Sample.rt [Payload.failed; Payload.good]
           [ [ Glyph.cross ++ lit " Error: quota exceeded" ];
             [ Glyph.email ++ lit " Found 1 email(s):";
               times (lit "=") 60;
               nl ++ Glyph.envelope ++ lit " Email #1";
               Glyph.clipboard ++ lit " Subject: Hello";
               Glyph.bust ++ lit " From: Unknown Sender";
               Glyph.calendar ++ lit " Date: Unknown Date";
               times (lit "-") 40 ] ]).
  - discriminate.
  - repeat constructor.
Defined.

(** ** Failures that stay inside an item, and failures that do not *)

Section Inline.

Variable rt : Runtime.

Lemma unsuccessful_item_line (item : pyval) :
  unsuccessful item -> _format_result_item rt item = Ok [ error_line rt item ].
Proof.
  intros (d & flag & -> & Hflag & Hfalsy).
  unfold _format_result_item, error_line. rewrite Hflag. cbn [rbind].
  rewrite Hfalsy. cbn [negb].
  destruct (get_on_dict d "error" (VStr (lit "Unknown error"))) as [error ->].
  reflexivity.
Qed.

Lemma profile_item_line (item data : pyval) :
  profile_item item data ->
  forall text, _format_profile rt data = Ok text ->
  _format_result_item rt item = Ok [ text ].
Proof.
  intros (d & flag & -> & Hflag & Htruthy & Hdata & Hm & Hd & Hl & Hr & He) text Htext.
  unfold _format_result_item. cbn [Py.get]. rewrite Hflag. cbn [rbind].
  rewrite Htruthy. cbn [negb]. rewrite Hdata. cbn [rbind].
  rewrite Hm. cbn [rbind]. rewrite Hd. cbn [rbind]. rewrite Hl. cbn [rbind].
  rewrite Hr. cbn [rbind]. rewrite He. cbn [rbind]. now rewrite Htext.
Qed.

Lemma contacts_item_lines (item response_data : pyval) :
  contacts_item item response_data ->
  forall text, _format_contacts rt response_data = Ok text ->
  _format_result_item rt item = Ok (characters text).
Proof.
  intros (d & flag & data & -> & Hflag & Htruthy & Hdata & Hm & Hd & Hl & Hr) text Htext.
  unfold _format_result_item. cbn [Py.get]. rewrite Hflag. cbn [rbind].
  rewrite Htruthy. cbn [negb]. rewrite Hdata. cbn [rbind Py.contains Py.getitem].
  rewrite Hm. cbn [rbind]. rewrite Hd. cbn [rbind]. rewrite Hl. cbn [rbind].
  rewrite Hr. cbn [rbind]. now rewrite Htext.
Qed.

End Inline.

(** C7, as amended.  [_format_result] returns a text for every payload
    and never raises.  When no exception leaves the formatting of an item,
    the report holds the lines of every item, in payload order; this is so
    for an item that the gateway reports as unsuccessful, which gives the
    line "Error: <error>", for an item whose profile cannot be formatted,
    which gives the line "Error formatting profile: <message>", and for an
    item whose contacts cannot be formatted, which gives the text
    "Error formatting contacts: <message>" one character per line, as
    for every contacts text.  An exception that leaves the formatting of
    an item is caught once, around the whole loop: the report is then the
    single line "Error formatting result: <message>" and the lines of
    the other items are dropped. *)
Theorem formatting_failure_replaces_report (rt : Runtime) :
  (forall payload query, exists report, _format_result rt payload query = Ok report)
  /\ (forall items blocks query,
         items <> [] ->
         Forall2 (fun item block => _format_result_item rt item = Ok block)
                 items blocks ->
         _format_result rt (VList items) query = Ok (PyStr.join nl (concat blocks)))
  /\ (forall item,
         unsuccessful item ->
         _format_result_item rt item = Ok [ error_line rt item ])
  /\ (forall item data e,
         profile_item item data ->
         format_profile_try rt data = Exc e ->
         _format_result_item rt item
         = Ok [ lit "Error formatting profile: " ++ exn_msg e ])
  /\ (forall item response_data e,
         contacts_item item response_data ->
         format_contacts_try rt response_data = Exc e ->
         _format_result_item rt item
         = Ok (characters (lit "Error formatting contacts: " ++ exn_msg e)))
  /\ (forall before item after e query,
         Forall (fun x => exists lines, _format_result_item rt x = Ok lines) before ->
         _format_result_item rt item = Exc e ->
         _format_result rt (VList (before ++ item :: after)) query
         = Ok (lit "Error formatting result: " ++ exn_msg e)).
Proof.
  split; [exact (format_result_returns rt)|].
  split.
  { intros items blocks query Hitems Hblocks.
    pose proof (@for_each_concat _ _ _ Hblocks) as Hloop.
    destruct items as [|item rest]; [congruence|].
    pose proof (@for_each_headed rt _ _ _ Hloop) as Hheaded.
    unfold _format_result, format_result_try.
    cbn [Py.truthy is_list negb orb Py.iter rbind]. rewrite Hloop. cbn [rbind rcatch].
    destruct (concat blocks); [destruct Hheaded|reflexivity]. }
  split; [exact (unsuccessful_item_line rt)|].
  split.
  { intros item data e Hitem Hraise. apply (profile_item_line rt Hitem).
    unfold _format_profile. now rewrite Hraise. }
  split.
  { intros item response_data e Hitem Hraise. apply (contacts_item_lines rt Hitem).
    unfold _format_contacts. now rewrite Hraise. }
  intros before item after e query Hbefore Hitem.
  pose proof (@for_each_raises _ before item after e Hbefore Hitem) as Hloop.
  destruct before as [|first before]; now apply format_result_replaced.
Qed.

(** A failed item, a profile and contacts that cannot be formatted, and a
    good item after them: every item has its lines.  A good item before
    one whose message list holds a string: the report is the one line. *)
Lemma formatting_failure_replaces_report_witness :
  _format_result Sample.rt
    (VList [Payload.failed; Broken.profile; Broken.contacts; Payload.good])
    (lit "show emails")
  = Ok (PyStr.join nl
          ([ Glyph.cross ++ lit " Error: quota exceeded" ]
           ++ [ lit "Error formatting profile: 'list' object has no attribute 'get'" ]
           ++ characters
                (lit "Error formatting contacts: argument of type 'int' is not iterable")
           ++ [ Glyph.email ++ lit " Found 1 email(s):";
                times (lit "=") 60;
                nl ++ Glyph.envelope ++ lit " Email #1";
                Glyph.clipboard ++ lit " Subject: Hello";
                Glyph.bust ++ lit " From: Unknown Sender";
                Glyph.calendar ++ lit " Date: Unknown Date";
                times (lit "-") 40 ]))
  /\ _format_result Sample.rt (VList [Payload.good; Payload.bad]) (lit "show emails")
     = Ok (lit "Error formatting result: 'str' object has no attribute 'get'").
Proof.
  pose proof (formatting_failure_replaces_report Sample.rt)
    as (_ & Hjoined & Hfailed & Hprofile & Hcontacts & Hreplaced).
  assert (Hf : unsuccessful Payload.failed)
    by (do 2 eexists; repeat split).
  assert (Hp : profile_item Broken.profile (VList [ VStr (lit "emailAddress") ]))
    by (do 2 eexists; repeat split).
  assert (Hc : contacts_item Broken.contacts (VInt 5))
    by (do 3 eexists; repeat split).
  split.
  - rewrite (Hjoined [Payload.failed; Broken.profile; Broken.contacts; Payload.good]
               [ [ error_line Sample.rt Payload.failed ];
                 [ lit "Error formatting profile: "
                   ++ exn_msg (Py.AttributeError (VList [ VStr (lit "emailAddress") ]) "get") ];
                 characters
                   (lit "Error formatting contacts: "
                    ++ exn_msg (Py.TypeError (lit "argument of type 'int' is not iterable")));
                 [ Glyph.email ++ lit " Found 1 email(s):";
                   times (lit "=") 60;
                   nl ++ Glyph.envelope ++ lit " Email #1";
                   Glyph.clipboard ++ lit " Subject: Hello";
                   Glyph.bust ++ lit " From: Unknown Sender";
                   Glyph.calendar ++ lit " Date: Unknown Date";
                   times (lit "-") 40 ] ] (lit "show emails")).
    + reflexivity.
    + discriminate.
    + constructor; [exact (Hfailed _ Hf)|].
      constructor; [exact (Hprofile _ _ _ Hp eq_refl)|].
      constructor; [exact (Hcontacts _ _ _ Hc eq_refl)|].
      constructor; [reflexivity|constructor].
  - apply (Hreplaced [Payload.good] Payload.bad []
                     (Py.AttributeError (VStr (lit "oops")) "get")).
    + repeat constructor. eexists. reflexivity.
    + reflexivity.
Defined.

(** C7 as worded fails on the second payload: the lines of the good item
    are not in the report. *)
Lemma one_bad_item_aborts_the_report :
  (exists lines, _format_result_item Sample.rt Payload.good = Ok lines /\ lines <> [])
  /\ (exists e, _format_result_item Sample.rt Payload.bad = Exc e)
  /\ ~ items_degrade_separately Sample.rt [Payload.good; Payload.bad] (lit "show emails").
Proof.
  split; [eexists; split; [reflexivity|discriminate]|].
  split; [eexists; reflexivity|].
  intros (report & Hreport & Hlines).
  vm_compute in Hreport. injection Hreport as <-.
  specialize (Hlines Payload.good _ (or_introl eq_refl) eq_refl
                     (times (lit "=") 60)).
  vm_compute in Hlines.
  assert (Hin : false = true) by (apply Hlines; right; left; reflexivity).
  discriminate Hin.
Qed.

(** ** Contacts inside a report *)

Lemma join_characters_length (text : pystr) :
  length (PyStr.join nl (characters text)) = 2 * length text - 1.
Proof.
  induction text as [|c [|c' text] IH]; [reflexivity|reflexivity|].
  change (characters (c :: c' :: text)) with ([c] :: characters (c' :: text)).
  change (PyStr.join nl ([c] :: characters (c' :: text)))
    with ([c] ++ nl ++ PyStr.join nl (characters (c' :: text))).
  rewrite !length_app, IH. cbn [length nl]. lia.
Qed.

(** [_format_result] adds the contacts text to the report with [extend]:
    the report of a contacts item holds the text one character per line,
    so it is twice as long, while the contacts handler shows the text as it
    is. *)
Theorem contacts_report_is_split_by_character
        (rt : Runtime) (item response_data : pyval) (query : pystr) :
  contacts_item item response_data ->
  exists text,
    _format_contacts rt response_data = Ok text
    /\ _format_result_item rt item = Ok (characters text)
    /\ _format_result rt (VList [item]) query = Ok (PyStr.join nl (characters text))
    /\ length (PyStr.join nl (characters text)) = 2 * length text - 1.
Proof.
  intros (d & flag & data & -> & Hflag & Htruthy & Hdata & Hm & Hd & Hl & Hr).
  destruct (format_contacts_not_empty rt response_data) as (text & Htext & Hne).
  exists text. split; [exact Htext|].
  assert (Hitem : _format_result_item rt (VDict d) = Ok (characters text)).
  { unfold _format_result_item. cbn [Py.get]. rewrite Hflag. cbn [rbind].
    rewrite Htruthy. cbn [negb]. rewrite Hdata. cbn [rbind Py.contains Py.getitem].
    rewrite Hm. cbn [rbind]. rewrite Hd. cbn [rbind]. rewrite Hl. cbn [rbind].
    rewrite Hr. cbn [rbind]. rewrite Htext. reflexivity. }
  split; [exact Hitem|]. split; [|apply join_characters_length].
  unfold _format_result, format_result_try.
  cbn [Py.truthy is_list negb orb Py.iter rbind for_each]. rewrite Hitem.
  cbn [rbind]. rewrite app_nil_r.
  destruct text as [|c text]; [congruence|reflexivity].
Qed.

Lemma contacts_report_is_split_by_character_witness :
  _format_result Sample.rt
    (VList [ VDict [ (lit "successful", VBool true);
                     (lit "data", VDict [ (lit "response_data", VDict []) ]) ] ])
    (lit "list contacts")
  = Ok (PyStr.join nl (characters (Glyph.busts ++ lit " No contacts found."))).
Proof.
  destruct (@contacts_report_is_split_by_character Sample.rt
              (VDict [ (lit "successful", VBool true);
                       (lit "data", VDict [ (lit "response_data", VDict []) ]) ])
              (VDict []) (lit "list contacts"))
    as (text & Htext & _ & Hreport & _).
  - exists [ (lit "successful", VBool true);
             (lit "data", VDict [ (lit "response_data", VDict []) ]) ],
      (VBool true), [ (lit "response_data", VDict []) ].
    repeat split.
  - rewrite Hreport. injection Htext as <-. reflexivity.
Defined.

(** ** Labels *)

Section Labels.

Variable rt : Runtime.

Lemma select_labels_filter (want_system : bool) (labels : list pyval) :
  Forall is_object labels ->
  select_labels want_system labels
  = Ok (filter (fun label => Bool.eqb (is_system_label label) want_system) labels).
Proof.
  induction 1 as [|label labels [d ->] _ IH]; cbn [select_labels filter];
    [reflexivity|].
  unfold is_system_label.
  destruct (get_on_dict d "type" VNone) as [type ->]. cbn [rbind].
  rewrite IH. cbn [rbind]. now destruct (Bool.eqb _ _).
Qed.

Lemma label_lines (labels : list pyval) :
  Forall is_object labels ->
  for_each (label_line rt) labels = Ok (map (label_bullet rt) labels).
Proof.
  induction 1 as [|label labels [d ->] _ IH]; cbn [for_each map]; [reflexivity|].
  unfold label_line at 1, label_bullet at 1.
  destruct (get_on_dict d "name" (VStr (lit "Unknown"))) as [name ->]. cbn [rbind].
  now rewrite IH.
Qed.

Lemma Forall_filter {A} (P : A -> Prop) (f : A -> bool) (l : list A) :
  Forall P l -> Forall P (filter f l).
Proof.
  induction 1; cbn [filter]; [constructor|].
  destruct (f x); auto.
Qed.

End Labels.

(** The labels report lists the system labels first and the user's labels
    after them, each group under its heading and in the order of the
    payload; a label is a system label exactly when its type is "system",
    so every label is listed once. *)
Theorem labels_are_grouped
        (rt : Runtime) (label : pyval) (labels : list pyval) :
  Forall is_object (label :: labels) ->
  let all := label :: labels in
  let system := filter is_system_label all in
  let user := filter (fun l => negb (is_system_label l)) all in
  _format_labels rt (VList all)
  = Ok ([ Glyph.label ++ lit " Found " ++ PyStr.of_nat (length all) ++ lit " label(s):";
          times (lit "=") 40 ]
        ++ label_group rt (nl ++ Glyph.clipboard ++ lit " System Labels:") system
        ++ label_group rt (nl ++ Glyph.bust ++ lit " Your Labels:") user)
  /\ length system + length user = length all.
Proof.
  intros Hobjects all system user. split.
  - unfold _format_labels. cbn [Py.truthy negb Py.len Py.iter rbind].
    rewrite !select_labels_filter by exact Hobjects. cbn [rbind].
    fold all.
    replace (filter (fun l => Bool.eqb (is_system_label l) true) all) with system
      by (apply filter_ext; intros l; now destruct (is_system_label l)).
    replace (filter (fun l => Bool.eqb (is_system_label l) false) all) with user
      by (apply filter_ext; intros l; now destruct (is_system_label l)).
    assert (Hsystem : Forall is_object system) by now apply Forall_filter.
    assert (Huser : Forall is_object user) by now apply Forall_filter.
    rewrite (label_lines rt Hsystem), (label_lines rt Huser).
    unfold label_group.
    destruct system, user; reflexivity.
  - subst system user. generalize all. intros l.
    induction l as [|x l IH]; cbn [filter length]; [reflexivity|].
    destruct (is_system_label x); cbn [negb length]; lia.
Qed.

Lemma labels_are_grouped_witness :
  _format_labels Sample.rt
    (VList [ VDict [ (lit "name", VStr (lit "work")); (lit "type", VStr (lit "user")) ];
             VDict [ (lit "name", VStr (lit "INBOX")); (lit "type", VStr (lit "system")) ];
             VDict [ (lit "name", VStr (lit "fetch.ai")) ] ])
  = Ok [ Glyph.label ++ lit " Found 3 label(s):";
         times (lit "=") 40;
         nl ++ Glyph.clipboard ++ lit " System Labels:";
         lit "  " ++ Glyph.bullet ++ lit " INBOX";
         nl ++ Glyph.bust ++ lit " Your Labels:";
         lit "  " ++ Glyph.bullet ++ lit " work";
         lit "  " ++ Glyph.bullet ++ lit " fetch.ai" ].
Proof.
  rewrite (proj1 (@labels_are_grouped Sample.rt
                    (VDict [ (lit "name", VStr (lit "work"));
                             (lit "type", VStr (lit "user")) ])
                    [ VDict [ (lit "name", VStr (lit "INBOX"));
                              (lit "type", VStr (lit "system")) ];
                      VDict [ (lit "name", VStr (lit "fetch.ai")) ] ]
                    ltac:(repeat constructor; eexists; reflexivity))).
  reflexivity.
Defined.

(** ** The blocks of the message and draft reports *)

(** The loop gives one block per item, in order and numbered from its
    start. *)
Lemma for_enumerate_rounds (body : nat -> pyval -> result (list pystr))
      (round : nat -> pyval -> list pystr -> Prop) (P : pyval -> Prop)
      (i : nat) (items : list pyval) :
  (forall i x, P x -> exists block, body i x = Ok block /\ round i x block) ->
  Forall P items ->
  exists blocks,
    for_enumerate body i items = Ok (concat blocks)
    /\ rounds_from round i items blocks.
Proof.
  intros Hbody Hitems. revert i.
  induction Hitems as [|x items Hx _ IH]; intros i.
  - exists []. split; [reflexivity|exact I].
  - destruct (Hbody i x Hx) as (block & Hblock & Hround).
    destruct (IH (S i)) as (blocks & Hloop & Hrounds).
    exists (block :: blocks). cbn [for_enumerate]. rewrite Hblock, Hloop.
    split; [reflexivity|]. split; assumption.
Qed.

Lemma rounds_from_length (round : nat -> pyval -> list pystr -> Prop) (i : nat)
      (items : list pyval) (blocks : list (list pystr)) :
  rounds_from round i items blocks -> length blocks = length items.
Proof.
  revert i blocks. induction items as [|x items IH]; intros i [|block blocks] H;
    cbn [rounds_from] in H; try contradiction; [reflexivity|].
  cbn [length]. f_equal. exact (IH _ _ (proj2 H)).
Qed.

Lemma rounds_from_nth (round : nat -> pyval -> list pystr -> Prop) (i k : nat)
      (items : list pyval) (blocks : list (list pystr)) (x : pyval) :
  rounds_from round i items blocks ->
  nth_error items k = Some x ->
  exists block, nth_error blocks k = Some block /\ round (i + k) x block.
Proof.
  revert i k blocks. induction items as [|y items IH]; intros i k [|block blocks] H Hk;
    cbn [rounds_from] in H; try contradiction; [destruct k; discriminate|].
  destruct H as [Hround Hrest]. destruct k as [|k]; cbn [nth_error] in *.
  - injection Hk as <-. exists block. rewrite Nat.add_0_r. auto.
  - destruct (IH (S i) k blocks Hrest Hk) as (b & Hb & Hr).
    exists b. split; [exact Hb|]. now replace (i + S k) with (S i + k) by lia.
Qed.

Section Blocks.

Variable rt : Runtime.

(** The line of a text under a budget. *)
Lemma shown_line_of (budget : nat) (glyph caption : pystr) (otherwise : list pystr)
      (text : pystr) :
  exists lines,
    (if Py.truthy (VStr text) then
       let* shown := cut_to budget (VStr text) in
       Ok [ glyph ++ caption ++ fstr rt shown ]
     else Ok otherwise) = Ok lines
    /\ shown_line budget (glyph ++ caption) otherwise text lines.
Proof.
  destruct text as [|c text].
  - exists otherwise. split; reflexivity.
  - destruct (cut_to_law budget (c :: text)) as (shown & Hcut & Hlaw).
    cbn [Py.truthy]. rewrite Hcut. cbn [rbind fstr].
    eexists. split; [reflexivity|]. exists shown.
    split; [now rewrite app_assoc|exact Hlaw].
Qed.

(** On a plain message the preview the loop reads is [preview_text]. *)
Lemma plain_message_preview (d : dict) :
  plain_message (VDict d) ->
  (let* preview_field := Py.get (VDict d) "preview" (VDict []) in
   Py.get preview_field "body" (VStr [])) = Ok (VStr (preview_text d)).
Proof.
  intros (d' & Hd & Hpreview). injection Hd as <-.
  unfold preview_text. cbn [Py.get].
  destruct Hpreview as [Hnone | (pd & Hsome & [Hbody | (text & Hbody)])];
    [ rewrite Hnone | rewrite Hsome | rewrite Hsome ];
    cbn [rbind Py.get Py.lookup]; rewrite ?Hbody; reflexivity.
Qed.

Lemma get_field (d : dict) (k : string) (default : pyval) :
  Py.get (VDict d) k default = Ok (field d k default).
Proof. unfold field. cbn [Py.get]. now destruct (Py.lookup d (lit k)). Qed.

Lemma email_item_block (i : nat) (msg : pyval) :
  plain_message msg ->
  exists block, _format_emails_item rt i msg = Ok block /\ email_block rt i msg block.
Proof.
  intros Hplain. pose proof Hplain as (d & -> & _).
  pose proof (plain_message_preview Hplain) as Hpreview.
  destruct (shown_line_of 200 Glyph.memo (lit " Preview: ") [] (preview_text d))
    as (lines & Hlines & Hshown).
  unfold _format_emails_item. rewrite !get_field. cbn [rbind].
  rewrite get_field in Hpreview. cbn [rbind] in Hpreview. rewrite Hpreview.
  cbn [rbind]. match goal with
  | |- context [rbind ?c _] =>
      let H := fresh in assert (H : c = Ok lines) by exact Hlines; rewrite H
  end. cbn [rbind].
  eexists. split; [reflexivity|]. exists d, lines. repeat split. exact Hshown.
Qed.

Lemma content_item_block (i : nat) (msg : pyval) :
  is_object msg ->
  exists block,
    _format_emails_with_full_content_item rt i msg = Ok block
    /\ content_block rt i msg block.
Proof.
  intros [d ->].
  destruct (extract_email_content_returns rt (VDict d)) as [text Htext].
  destruct (shown_line_of 1000 Glyph.memo (lit " Full Content: ")
              [ Glyph.memo ++ lit " No content available" ] text)
    as (lines & Hlines & Hshown).
  unfold _format_emails_with_full_content_item. rewrite !get_field. cbn [rbind].
  rewrite Htext. cbn [rbind]. match goal with
  | |- context [rbind ?c _] =>
      let H := fresh in assert (H : c = Ok lines) by exact Hlines; rewrite H
  end. cbn [rbind].
  eexists. split; [reflexivity|]. exists d, text, lines. repeat split; assumption.
Qed.

Lemma draft_item_block (i : nat) (draft : pyval) :
  plain_draft draft ->
  exists block, _format_drafts_item rt i draft = Ok block /\ draft_block rt i draft block.
Proof.
  intros (d & m & -> & Hmessage & Hplain).
  pose proof (plain_message_preview Hplain) as Hpreview.
  destruct (shown_line_of 150 Glyph.page (lit " Content: ") [] (preview_text m))
    as (lines & Hlines & Hshown).
  unfold _format_drafts_item. rewrite get_field, Hmessage. cbn [rbind].
  rewrite !get_field. cbn [rbind].
  rewrite get_field in Hpreview. cbn [rbind] in Hpreview. rewrite Hpreview.
  cbn [rbind]. match goal with
  | |- context [rbind ?c _] =>
      let H := fresh in assert (H : c = Ok lines) by exact Hlines; rewrite H
  end. cbn [rbind].
  eexists. split; [reflexivity|]. exists d, m, lines. repeat split; assumption.
Qed.

(** The three reports: the heading, then one block per item. *)
Lemma format_emails_blocks (msg : pyval) (messages : list pyval) :
  Forall plain_message (msg :: messages) ->
  exists blocks,
    _format_emails rt (VList (msg :: messages))
    = Ok ([ Glyph.email ++ lit " Found " ++ PyStr.of_nat (S (length messages))
            ++ lit " email(s):";
            times (lit "=") 60 ] ++ concat blocks)
    /\ rounds_from (email_block rt) 1 (msg :: messages) blocks.
Proof.
  intros Hplain.
  destruct (@for_enumerate_rounds (_format_emails_item rt) (email_block rt)
              plain_message 1 (msg :: messages) email_item_block Hplain)
    as (blocks & Hloop & Hrounds).
  exists blocks. split; [|exact Hrounds].
  rewrite format_emails_rounds, Hloop. reflexivity.
Qed.

Lemma format_full_content_blocks (msg : pyval) (messages : list pyval) :
  Forall is_object (msg :: messages) ->
  exists blocks,
    _format_emails_with_full_content rt (VList (msg :: messages))
    = Ok (PyStr.join nl
            ([ Glyph.email ++ lit " Found " ++ PyStr.of_nat (S (length messages))
               ++ lit " email(s):";
               times (lit "=") 60 ] ++ concat blocks))
    /\ rounds_from (content_block rt) 1 (msg :: messages) blocks.
Proof.
  intros Hobjects.
  destruct (@for_enumerate_rounds (_format_emails_with_full_content_item rt)
              (content_block rt) is_object 1 (msg :: messages)
              content_item_block Hobjects)
    as (blocks & Hloop & Hrounds).
  exists blocks. split; [|exact Hrounds].
  unfold _format_emails_with_full_content.
  cbn [Py.truthy negb Py.len Py.iter rbind]. rewrite Hloop. reflexivity.
Qed.

Lemma format_drafts_blocks (draft : pyval) (drafts : list pyval) :
  Forall plain_draft (draft :: drafts) ->
  exists blocks,
    _format_drafts rt (VList (draft :: drafts))
    = Ok ([ Glyph.memo ++ lit " Found " ++ PyStr.of_nat (S (length drafts))
            ++ lit " draft(s):";
            times (lit "=") 50 ] ++ concat blocks)
    /\ rounds_from (draft_block rt) 1 (draft :: drafts) blocks.
Proof.
  intros Hplain.
  destruct (@for_enumerate_rounds (_format_drafts_item rt) (draft_block rt)
              plain_draft 1 (draft :: drafts) draft_item_block Hplain)
    as (blocks & Hloop & Hrounds).
  exists blocks. split; [|exact Hrounds].
  rewrite format_drafts_rounds, Hloop. reflexivity.
Qed.

End Blocks.

(** C4: in the three reports that show a text under a budget, every item
    of the payload has its block, in payload order, and the block shows
    the item's text by the truncation law: the preview of a message in
    [_format_emails] with budget 200, the extracted content of a message
    in [_format_emails_with_full_content] with budget 1000, the preview
    of a draft in [_format_drafts] with budget 150.  A text longer than
    its budget is shown as its first budget-many characters followed by
    "...", a text within its budget unchanged (an empty text has no
    line, or the line that says that no content is available). *)
Theorem shown_texts_follow_truncation_law (rt : Runtime) :
  (forall msg messages,
      Forall plain_message (msg :: messages) ->
      exists blocks,
        _format_emails rt (VList (msg :: messages))
        = Ok ([ Glyph.email ++ lit " Found " ++ PyStr.of_nat (S (length messages))
                ++ lit " email(s):";
                times (lit "=") 60 ] ++ concat blocks)
        /\ rounds_from (email_block rt) 1 (msg :: messages) blocks)
  /\ (forall msg messages,
         Forall is_object (msg :: messages) ->
         exists blocks,
           _format_emails_with_full_content rt (VList (msg :: messages))
           = Ok (PyStr.join nl
                   ([ Glyph.email ++ lit " Found "
                      ++ PyStr.of_nat (S (length messages)) ++ lit " email(s):";
                      times (lit "=") 60 ] ++ concat blocks))
           /\ rounds_from (content_block rt) 1 (msg :: messages) blocks)
  /\ (forall draft drafts,
         Forall plain_draft (draft :: drafts) ->
         exists blocks,
           _format_drafts rt (VList (draft :: drafts))
           = Ok ([ Glyph.memo ++ lit " Found " ++ PyStr.of_nat (S (length drafts))
                   ++ lit " draft(s):";
                   times (lit "=") 50 ] ++ concat blocks)
           /\ rounds_from (draft_block rt) 1 (draft :: drafts) blocks).
Proof.
  split; [exact (format_emails_blocks rt)|].
  split; [exact (format_full_content_blocks rt)|exact (format_drafts_blocks rt)].
Qed.

(** A preview of 201 characters after a message without preview, a
    content of two characters, and a draft of five. *)
Lemma shown_texts_follow_truncation_law_witness :
  _format_emails Sample.rt (VList [Letter.bare; Letter.long])
  = Ok ([ Glyph.email ++ lit " Found 2 email(s):"; times (lit "=") 60 ]
        ++ (message_head Sample.rt 1 [ (lit "subject", VStr (lit "Hi")) ]
            ++ [ times (lit "-") 40 ])
        ++ (message_head Sample.rt 2
              [ (lit "preview", VDict [ (lit "body", VStr (repeat 120%N 201)) ]) ]
            ++ [ Glyph.memo ++ lit " Preview: " ++ repeat 120%N 200 ++ lit "..." ]
            ++ [ times (lit "-") 40 ]))
  /\ (exists blocks,
         _format_emails_with_full_content Sample.rt (VList [VDict Mail.body_only])
         = Ok (PyStr.join nl
                 ([ Glyph.email ++ lit " Found 1 email(s):"; times (lit "=") 60 ]
                  ++ concat blocks))
         /\ rounds_from (content_block Sample.rt) 1 [VDict Mail.body_only] blocks)
  /\ (exists blocks,
         _format_drafts Sample.rt (VList [Letter.draft])
         = Ok ([ Glyph.memo ++ lit " Found 1 draft(s):"; times (lit "=") 50 ]
               ++ concat blocks)
         /\ rounds_from (draft_block Sample.rt) 1 [Letter.draft] blocks).
Proof.
  destruct (shown_texts_follow_truncation_law Sample.rt)
    as (Hemails & Hcontents & Hdrafts).
  assert (Hbare : plain_message Letter.bare)
    by (eexists; split; [reflexivity|]; left; reflexivity).
  assert (Hlong : plain_message Letter.long).
  { eexists. split; [reflexivity|]. right. eexists. split; [reflexivity|].
    right. eexists. reflexivity. }
  assert (Hdraft : plain_draft Letter.draft).
  { do 2 eexists. split; [reflexivity|]. split; [reflexivity|].
    eexists. split; [reflexivity|]. right. eexists. split; [reflexivity|].
    right. eexists. reflexivity. }
  split; [|split].
  - destruct (Hemails Letter.bare [Letter.long]) as (blocks & Hrun & Hrounds);
      [repeat constructor; assumption|].
    rewrite Hrun. do 2 f_equal.
    destruct blocks as [|first [|second [|third blocks]]];
      cbn [rounds_from] in Hrounds; try tauto.
    destruct Hrounds as ((d1 & lines1 & Hd1 & Hshown1 & ->)
                         & (d2 & lines2 & Hd2 & Hshown2 & ->) & _).
    injection Hd1 as <-. injection Hd2 as <-.
    cbn in Hshown1. subst lines1.
    destruct Hshown2 as (shown & -> & _ & Hcut).
    rewrite Hcut by (vm_compute; lia).
    cbn [concat]. rewrite app_nil_r, <- !app_assoc. reflexivity.
  - apply Hcontents. repeat constructor. eexists. reflexivity.
  - apply Hdrafts. repeat constructor. exact Hdraft.
Defined.

(** For messages whose previews are texts, [_format_emails] never raises:
    under the two heading lines, which give the number of messages, the
    k-th block is that of the k-th message of the payload; it starts with
    the number k + 1 and the subject, the sender and the date of that
    message, and ends with the preview line, when there is a preview, and
    the rule. *)
Theorem emails_are_numbered_from_one
        (rt : Runtime) (msg : pyval) (messages : list pyval) :
  Forall plain_message (msg :: messages) ->
  exists blocks,
    _format_emails rt (VList (msg :: messages))
    = Ok ([ Glyph.email ++ lit " Found " ++ PyStr.of_nat (S (length messages))
            ++ lit " email(s):";
            times (lit "=") 60 ] ++ concat blocks)
    /\ length blocks = S (length messages)
    /\ forall k m,
         nth_error (msg :: messages) k = Some m ->
         exists d rest,
           m = VDict d
           /\ nth_error blocks k = Some (message_head rt (S k) d ++ rest)
           /\ (length rest = 1 \/ length rest = 2).
Proof.
  intros Hplain.
  destruct (format_emails_blocks rt Hplain) as (blocks & Hrun & Hrounds).
  exists blocks. split; [exact Hrun|].
  split; [exact (rounds_from_length _ _ _ _ Hrounds)|].
  intros k m Hk.
  destruct (rounds_from_nth _ _ _ _ _ Hrounds Hk)
    as (block & Hblock & d & lines & -> & Hshown & ->).
  exists d, (lines ++ [ times (lit "-") 40 ]).
  split; [reflexivity|]. split; [exact Hblock|].
  rewrite length_app. cbn [length]. unfold shown_line in Hshown.
  destruct (preview_text d); [subst lines; now left|].
  destruct Hshown as (shown & -> & _). now right.
Qed.

Lemma emails_are_numbered_from_one_witness :
  exists blocks,
    _format_emails Sample.rt (VList [Letter.bare; Letter.long])
    = Ok ([ Glyph.email ++ lit " Found 2 email(s):"; times (lit "=") 60 ] ++ concat blocks)
    /\ length blocks = 2.
Proof.
  destruct (@emails_are_numbered_from_one Sample.rt Letter.bare [Letter.long])
    as (blocks & Hrun & Hlength & _).
  - repeat constructor.
    + eexists. split; [reflexivity|]. left. reflexivity.
    + eexists. split; [reflexivity|]. right. eexists. split; [reflexivity|].
      right. eexists. reflexivity.
  - exists blocks. split; assumption.
Defined.

(** ** Which part of a message is its text *)

Section Parts.

Variable rt : Runtime.

Lemma extract_passes_over (part : pyval) (rest : list pyval) :
  passed_over part ->
  extract_from_parts rt (part :: rest) = extract_from_parts rt rest.
Proof.
  intros (p & mime & -> & Hmime & Hskip).
  cbn [extract_from_parts]. rewrite Hmime. cbn [rbind].
  destruct Hskip as [[Hplain Hhtml] | (body & data & Hbody & Hdata & Hfalsy)].
  - now rewrite Hplain, Hhtml.
  - rewrite Hbody. cbn [rbind]. rewrite Hdata. cbn [rbind]. rewrite Hfalsy.
    destruct (Py.eq_lit mime "text/plain"); [reflexivity|].
    destruct (Py.eq_lit mime "text/html"); reflexivity.
Qed.

Lemma extract_passes_over_all (skipped rest : list pyval) :
  Forall passed_over skipped ->
  extract_from_parts rt (skipped ++ rest) = extract_from_parts rt rest.
Proof.
  induction 1 as [|part skipped Hpart _ IH]; [reflexivity|].
  cbn [app]. now rewrite (extract_passes_over _ Hpart).
Qed.

Lemma extract_plain_part (part data : pyval) (rest : list pyval) (decoded : pystr) :
  part_with part "text/plain" data ->
  decode_body rt data = Ok decoded ->
  extract_from_parts rt (part :: rest) = Ok (Some (_clean_email_text rt decoded)).
Proof.
  intros (p & b & -> & Hmime & Hbody & Hdata & Htruthy) Hdecode.
  cbn [extract_from_parts Py.get]. rewrite Hmime. cbn [rbind].
  change (Py.eq_lit (VStr (lit "text/plain")) "text/plain") with true. cbv iota.
  rewrite Hbody. cbn [rbind Py.get]. rewrite Hdata. cbn [rbind].
  now rewrite Htruthy, Hdecode.
Qed.

Lemma extract_html_part (part data : pyval) (rest : list pyval) (decoded : pystr) :
  part_with part "text/html" data ->
  decode_body rt data = Ok decoded ->
  extract_from_parts rt (part :: rest)
  = Ok (Some (_clean_email_text rt (re_sub rt (lit "<[^<]+?>") [] decoded))).
Proof.
  intros (p & b & -> & Hmime & Hbody & Hdata & Htruthy) Hdecode.
  cbn [extract_from_parts Py.get]. rewrite Hmime. cbn [rbind].
  change (Py.eq_lit (VStr (lit "text/html")) "text/plain") with false. cbv iota.
  change (Py.eq_lit (VStr (lit "text/html")) "text/html") with true. cbv iota.
  rewrite Hbody. cbn [rbind Py.get]. rewrite Hdata. cbn [rbind].
  now rewrite Htruthy, Hdecode.
Qed.

End Parts.

(** The text of a message is that of its first part that is plain text or
    HTML and has data: parts before it that are of another type or have no
    data are passed over, and neither the parts after it nor
    [payload.body] are looked at.  The tags of an HTML part are removed
    before the text is cleaned. *)
Theorem first_text_part_is_the_content
        (rt : Runtime) (d p : dict) (skipped rest : list pyval)
        (part data : pyval) (decoded : pystr) :
  Py.lookup d (lit "payload") = Some (VDict p) ->
  Py.lookup p (lit "parts") = Some (VList (skipped ++ part :: rest)) ->
  Forall passed_over skipped ->
  decode_body rt data = Ok decoded ->
  (part_with part "text/plain" data ->
   _extract_email_content rt (VDict d) = Ok (_clean_email_text rt decoded))
  /\ (part_with part "text/html" data ->
      _extract_email_content rt (VDict d)
      = Ok (_clean_email_text rt (re_sub rt (lit "<[^<]+?>") [] decoded))).
Proof.
  intros Hpayload Hparts Hskipped Hdecode.
  assert (Hrun : forall text,
             extract_from_parts rt (part :: rest) = Ok (Some text) ->
             _extract_email_content rt (VDict d) = Ok text).
  { intros text Hpart.
    unfold _extract_email_content, extract_email_content_try. cbn [Py.get].
    rewrite Hpayload. cbn [rbind Py.get]. rewrite Hparts. cbn [rbind Py.iter].
    rewrite (extract_passes_over_all rt _ Hskipped), Hpart. reflexivity. }
  split; intros Hpart; apply Hrun.
  - exact (extract_plain_part rt rest Hpart Hdecode).
  - exact (extract_html_part rt rest Hpart Hdecode).
Qed.

Lemma first_text_part_is_the_content_witness :
  _extract_email_content Sample.rt (VDict Mail.multipart) = Ok (lit "hi").
Proof.
  assert (Hskipped : Forall passed_over [Mail.image_part]).
  { repeat constructor. do 2 eexists. split; [reflexivity|]. split; [reflexivity|].
    left. split; reflexivity. }
  apply (proj1 (@first_text_part_is_the_content Sample.rt
                  Mail.multipart Mail.multipart_payload
                  [Mail.image_part] [VStr (lit "not a part")]
                  Mail.text_part (VStr Sample.hi_base64) (lit "hi")
                  eq_refl eq_refl Hskipped eq_refl)).
  do 2 eexists. repeat split.
Defined.

(** When the message has no parts, or every part is passed over, the text
    is that of [payload.body]; with no data there either, it is empty. *)
Theorem payload_body_is_the_fallback
        (rt : Runtime) (d p : dict) (skipped : list pyval) :
  Py.lookup d (lit "payload") = Some (VDict p) ->
  Py.lookup p (lit "parts") = None
  \/ (Py.lookup p (lit "parts") = Some (VList skipped) /\ Forall passed_over skipped) ->
  (forall b data decoded,
      Py.lookup p (lit "body") = Some (VDict b) ->
      Py.lookup b (lit "data") = Some data ->
      Py.truthy data = true ->
      decode_body rt data = Ok decoded ->
      _extract_email_content rt (VDict d) = Ok (_clean_email_text rt decoded))
  /\ (Py.lookup p (lit "body") = None ->
      _extract_email_content rt (VDict d) = Ok []).
Proof.
  intros Hpayload Hparts.
  assert (Hloop : forall (k : list pyval -> result pystr),
             (let* found := Py.get (VDict p) "parts" (VList []) in
              let* parts := Py.iter found in
              let* chosen := extract_from_parts rt parts in
              match chosen with Some text => Ok text | None => k parts end)
             = k (match Py.lookup p (lit "parts") with
                  | Some _ => skipped
                  | None => []
                  end)).
  { intros k. cbn [Py.get].
    destruct Hparts as [-> | [-> Hskipped]]; cbn [rbind Py.iter extract_from_parts].
    - reflexivity.
    - assert (Hnone : extract_from_parts rt skipped = Ok None).
      { rewrite <- (app_nil_r skipped) at 1.
        now rewrite (extract_passes_over_all rt [] Hskipped). }
      now rewrite Hnone. }
  split.
  - intros b data decoded Hbody Hdata Htruthy Hdecode.
    unfold _extract_email_content, extract_email_content_try.
    cbn [Py.get]. rewrite Hpayload. cbn [rbind].
    rewrite (Hloop (fun _ =>
               let* body := Py.get (VDict p) "body" (VDict []) in
               let* data := Py.get body "data" VNone in
               if Py.truthy data
               then let* body_data := Py.getitem body "data" in
                    let* decoded := decode_body rt body_data in
                    Ok (_clean_email_text rt decoded)
               else Ok [])).
    cbn [Py.get]. rewrite Hbody. cbn [rbind Py.get Py.getitem]. rewrite Hdata.
    cbn [rbind]. rewrite Htruthy. cbn [rbind]. rewrite Hdecode. reflexivity.
  - intros Hbody.
    unfold _extract_email_content, extract_email_content_try.
    cbn [Py.get]. rewrite Hpayload. cbn [rbind].
    rewrite (Hloop (fun _ =>
               let* body := Py.get (VDict p) "body" (VDict []) in
               let* data := Py.get body "data" VNone in
               if Py.truthy data
               then let* body_data := Py.getitem body "data" in
                    let* decoded := decode_body rt body_data in
                    Ok (_clean_email_text rt decoded)
               else Ok [])).
    cbn [Py.get]. rewrite Hbody. reflexivity.
Qed.

Lemma payload_body_is_the_fallback_witness :
  _extract_email_content Sample.rt (VDict Mail.body_only) = Ok (lit "hi").
Proof.
  assert (Hskipped : Forall passed_over [Mail.empty_part]).
  { repeat constructor. do 2 eexists. split; [reflexivity|]. split; [reflexivity|].
    right. do 2 eexists. repeat split. }
  apply (proj1 (@payload_body_is_the_fallback Sample.rt
                  Mail.body_only Mail.body_only_payload [Mail.empty_part]
                  eq_refl (or_intror (conj eq_refl Hskipped)))
               [ (lit "data", VStr Sample.hi_base64) ] (VStr Sample.hi_base64) (lit "hi"));
    reflexivity.
Defined.

(** ** What the extraction makes of the body data *)

Section Bodies.

Variable rt : Runtime.









End Bodies.




(** A SEND that goes through uses the whole budget: five completion calls
    (classification, composition, instruction, and the refinement twice)
    and one gateway call. *)
Example send_uses_the_whole_budget :
  weight completion_cost
    (calls_during (process_query Script.rt Script.svc (lit "mail john")) Sample.connected)
  = 5
  /\ weight gateway_cost
       (calls_during (process_query Script.rt Script.svc (lit "mail john"))
          Sample.connected) = 1
  /\ (let* result_ := fst (process_query Script.rt Script.svc (lit "mail john")
                             Sample.connected) in
      Py.get result_ "formatted_result" VNone) = Ok (VStr (lit "Done")).
Proof. repeat split; vm_compute; reflexivity. Qed.

(** ** The budget by intent *)

Section BudgetByIntent.

Variable rt : Runtime.
Variable svc : Services.

(** Only the send handler composes: behind the guards every other intent
    makes at most three completion calls. *)
Lemma dispatch_and_refine_bound_without_send
      (cleaned_query : pystr) (intent parameters : pyval) :
  Py.eq_lit intent "SEND" = false ->
  costs_at_most completion_cost 3
    (dispatch_and_refine rt svc cleaned_query intent parameters).
Proof.
  intros Hsend. unfold dispatch_and_refine, dispatch. rewrite Hsend.
  cost_of_method.
Qed.

Lemma process_query_bound_without_send (user_query : pystr) (w : World)
      (intent : pyval) :
  classified_as rt svc user_query w intent ->
  Py.eq_lit intent "SEND" = false ->
  weight completion_cost (calls_during (process_query rt svc user_query) w) <= 4.
Proof.
  intros Hclass Hsend.
  destruct (is_authenticated (agent w)) eqn:Hguard.
  - destruct (Py.eq_lit intent "AUTH") eqn:Hauth.
    + unfold calls_during.
      rewrite (process_query_classified Hclass), Hauth. cbv zeta.
      rewrite initiate_auth_run. unfold after_call; cbn [agent history].
      destruct (connected_accounts_initiate svc _ _ _); cbn [snd history];
        rewrite <- app_assoc, skipn_history; cbn; lia.
    + destruct Hclass as (analysis & Hrun & Hintent).
      destruct (get_only_on_dict _ _ _ Hintent) as [d ->].
      destruct (get_on_dict d "parameters" (VDict [])) as [parameters Hparameters].
      unfold calls_during.
      rewrite (@process_query_dispatched rt svc user_query w _ _ _
                 Hrun Hintent Hparameters Hauth Hguard).
      destruct (@dispatch_and_refine_bound_without_send (clean_query rt user_query)
                  intent parameters Hsend
                  (after_call w (classification_call rt user_query)))
        as (new & Hnew & Hcost).
      rewrite Hnew. unfold after_call; cbn [history].
      rewrite <- app_assoc, skipn_history. cbn [app].
      change (weight completion_cost (classification_call rt user_query :: new))
        with (1 + weight completion_cost new). lia.
  - destruct (@unauthenticated_query_calls rt svc user_query w Hguard) as [-> | ->];
      cbn; lia.
Qed.

End BudgetByIntent.

(** A query has a budget of calls, whatever the services answer: at most
    one gateway call, at most five completion calls and at most one call
    of the handshake; and at most four completion calls when its intent
    is not SEND, the only intent whose handler composes. *)
Theorem process_query_call_budget
        (rt : Runtime) (svc : Services) (user_query : pystr) (w : World) :
  weight gateway_cost (calls_during (process_query rt svc user_query) w) <= 1
  /\ weight completion_cost (calls_during (process_query rt svc user_query) w) <= 5
  /\ weight handshake_cost (calls_during (process_query rt svc user_query) w) <= 1
  /\ (forall intent,
         classified_as rt svc user_query w intent ->
         Py.eq_lit intent "SEND" = false ->
         weight completion_cost (calls_during (process_query rt svc user_query) w) <= 4).
Proof.
  split; [apply cost_of_calls_during, process_query_gateway_bound|].
  split; [apply cost_of_calls_during, process_query_completion_bound|].
  split; [apply cost_of_calls_during, process_query_handshake_bound|].
  intros intent. apply process_query_bound_without_send.
Qed.

(** A query for the profile on a connected session. *)
Lemma process_query_call_budget_witness :
  weight completion_cost
    (calls_during (process_query Sample.rt (Sample.answering Sample.profile_json)
                     (lit "get my profile")) Sample.connected) <= 4.
Proof.
  apply (proj2 (proj2 (proj2 (process_query_call_budget
                                Sample.rt (Sample.answering Sample.profile_json)
                                (lit "get my profile") Sample.connected)))
               (VStr (lit "GET_PROFILE"))).
  - exists (VDict [ (lit "intent", VStr (lit "GET_PROFILE")) ]). split; reflexivity.
  - reflexivity.
Defined.

(** ** Search expressions *)

Section Expressions.

Variable rt : Runtime.
Variable svc : Services.

Lemma get_store_other (d : dict) (k k' : string) (v default : pyval) :
  lit k <> lit k' ->
  Py.get (VDict (Py.store d (lit k) v)) k' default = Py.get (VDict d) k' default.
Proof. intros Hne. cbn [Py.get]. now rewrite lookup_store_other. Qed.

Lemma search_expression_without_spam (d : dict) (v : pyval) :
  search_expression rt (VDict (Py.store d (lit "is_spam") v)) false
  = search_expression rt (VDict d) false.
Proof.
  unfold search_expression.
  rewrite !(@get_store_other d "is_spam") by discriminate. reflexivity.
Qed.

(** An item that is not a text makes [join] raise. *)
Lemma join_items_raises (i : nat) (items : list pyval) (v : pyval) :
  In v items -> (forall s, v <> VStr s) ->
  exists e, Py.join_items i items = Exc e.
Proof.
  intros Hin Hv. revert i.
  induction items as [|x items IH]; intros i; [destruct Hin|].
  destruct Hin as [-> | Hin].
  - destruct v; cbn [Py.join_items]; eauto. now destruct (Hv s).
  - destruct x; cbn [Py.join_items]; eauto.
    destruct (IH Hin (S i)) as [e ->]. cbn [rbind]. eauto.
Qed.

Lemma search_expression_raises (d : dict) (query : pyval) (with_spam : bool) :
  Py.lookup d (lit "query") = Some query ->
  Py.truthy query = true ->
  (forall s, query <> VStr s) ->
  exists e, search_expression rt (VDict d) with_spam = Exc e.
Proof.
  intros Hquery Htruthy Hshape.
  unfold search_expression. cbn [Py.get]. rewrite Hquery.
  destruct (Py.lookup d (lit "sender")) as [sender|],
    (Py.lookup d (lit "subject")) as [subject|]; cbn [rbind];
    (assert (Hspam : exists is_spam,
                (if with_spam
                 then match Py.lookup d (lit "is_spam") with
                      | Some x => Ok x
                      | None => Ok VNone
                      end
                 else Ok VNone) = Ok is_spam)
       by (destruct with_spam; [destruct (Py.lookup d (lit "is_spam"))|]; eauto));
    destruct Hspam as [is_spam ->]; cbn [rbind]; rewrite Htruthy;
    match goal with
    | |- exists e, match ?parts with [] => _ | _ => _ end = Exc e =>
        assert (Hin : In query parts)
          by (repeat (apply in_or_app; first [left; now left | right]));
        destruct (join_items_raises 0 _ Hin Hshape) as [e He];
        exists e; destruct parts; [destruct Hin|];
        unfold Py.join; now rewrite He
    end.
Qed.

End Expressions.

(** ** What the handlers read of their parameters *)

(** The trash and the read handlers never look at [is_spam]: setting it,
    to any value, changes neither the result nor the calls. *)
Theorem trash_and_read_ignore_the_spam_flag
        (rt : Runtime) (svc : Services) (d : dict) (flag : pyval) (w : World) :
  _handle_move_to_trash rt svc (VDict (Py.store d (lit "is_spam") flag)) w
  = _handle_move_to_trash rt svc (VDict d) w
  /\ _handle_read_email rt svc (VDict (Py.store d (lit "is_spam") flag)) w
     = _handle_read_email rt svc (VDict d) w.
Proof.
  unfold _handle_move_to_trash, _handle_read_email.
  now rewrite search_expression_without_spam.
Qed.

(** A [query] parameter that is present, truthy and not a text (a number,
    a list, an object) makes the search, trash and read handlers fail
    while they build the search expression: the result is the failure
    shape, no call is made and the session is as before. *)
Theorem non_text_query_fails_before_any_call
        (rt : Runtime) (svc : Services) (d : dict) (query : pyval) (w : World) :
  Py.lookup d (lit "query") = Some query ->
  Py.truthy query = true ->
  (forall s, query <> VStr s) ->
  Forall (fun handler : pyval -> M pyval =>
            exists message, handler (VDict d) w = (Ok (failure message), w))
         [ _handle_search_emails rt svc; _handle_move_to_trash rt svc;
           _handle_read_email rt svc ].
Proof.
  intros Hquery Htruthy Hshape.
  repeat constructor;
    [ destruct (search_expression_raises rt d true Hquery Htruthy Hshape) as [e He]
    | destruct (search_expression_raises rt d false Hquery Htruthy Hshape) as [e He]
    | destruct (search_expression_raises rt d false Hquery Htruthy Hshape) as [e He] ];
    exists (exn_msg e);
    unfold _handle_search_emails, _handle_move_to_trash, _handle_read_email;
    unfold try_except, bind, lift; rewrite He; reflexivity.
Qed.

(** A search for the number 2024. *)
Lemma non_text_query_fails_before_any_call_witness :
  Forall (fun handler : pyval -> M pyval =>
            exists message,
              handler (VDict [ (lit "query", VInt 2024) ]) Sample.connected
              = (Ok (failure message), Sample.connected))
         [ _handle_search_emails Sample.rt Sample.down;
           _handle_move_to_trash Sample.rt Sample.down;
           _handle_read_email Sample.rt Sample.down ].
Proof.
  apply (@non_text_query_fails_before_any_call Sample.rt Sample.down
           [ (lit "query", VInt 2024) ] (VInt 2024) Sample.connected);
    [reflexivity | reflexivity | discriminate].
Defined.

(** With a truthy [is_spam], the delete handler never uses [email_id]:
    the criteria are built from "is:spam" and the query alone. *)
Theorem delete_spam_ignores_the_email_id
        (rt : Runtime) (svc : Services) (d : dict) (flag email_id : pyval)
        (w : World) :
  Py.lookup d (lit "is_spam") = Some flag ->
  Py.truthy flag = true ->
  _handle_delete_emails rt svc (VDict (Py.store d (lit "email_id") email_id)) w
  = _handle_delete_emails rt svc (VDict d) w.
Proof.
  intros Hflag Htruthy.
  unfold _handle_delete_emails.
  rewrite (@get_store_other d "email_id" "query") by discriminate.
  rewrite (@get_store_other d "email_id" "is_spam") by discriminate.
  unfold try_except, bind, lift. cbn [Py.get].
  rewrite lookup_store_same, Hflag, Htruthy.
  destruct (Py.lookup d (lit "email_id")) as [old|];
    destruct (Py.lookup d (lit "query")) as [query|];
    try (destruct (Py.truthy query) eqn:Hquery; [destruct query; try reflexivity|]);
    reflexivity.
Qed.

(** "Delete my spam", with and without an identifier. *)
Lemma delete_spam_ignores_the_email_id_witness :
  _handle_delete_emails Sample.rt Sample.silent
    (VDict (Py.store [ (lit "is_spam", VBool true) ] (lit "email_id")
                     (VStr (lit "18c2f")))) Sample.connected
  = _handle_delete_emails Sample.rt Sample.silent
      (VDict [ (lit "is_spam", VBool true) ]) Sample.connected.
Proof.
  apply (@delete_spam_ignores_the_email_id Sample.rt Sample.silent
           [ (lit "is_spam", VBool true) ] (VBool true) (VStr (lit "18c2f"))
           Sample.connected); reflexivity.
Defined.

(** ** Composing and sending *)

(** When the completion call of the composer raises, answers without a
    choice, or answers with a text that is not JSON, the composer returns
    the email made of the given subject (or "Message") and the given
    content (or a fixed greeting); the failed call is the only one. *)
Theorem compose_email_with_ai_falls_back
        (rt : Runtime) (svc : Services) (recipient subject content context : pyval)
        (w : World) :
  composition_fails rt svc (compose_request rt recipient subject content context) w ->
  compose_email_with_ai rt svc recipient subject content context w
  = (Ok (fallback_email subject content),
     after_call w (EvCompletion (compose_request rt recipient subject content context)))
  /\ (exists s b,
         Py.getitem (fallback_email subject content) "subject" = Ok s
         /\ Py.getitem (fallback_email subject content) "body" = Ok b
         /\ (s = subject \/ s = VStr (lit "Message"))
         /\ (b = content \/ b = VStr default_body)).
Proof.
  intros Hfails. split.
  - unfold compose_email_with_ai, create, try_except, bind, lift, call.
    destruct Hfails as [e He | response e Hresponse He
                       | response body e Hresponse Hbody He];
      [ rewrite He | rewrite Hresponse; cbn [fst snd]; rewrite He
      | rewrite Hresponse; cbn [fst snd]; rewrite Hbody; cbn [fst snd]; rewrite He ];
      reflexivity.
  - unfold fallback_email, Py.or_. do 2 eexists.
    split; [reflexivity|]. split; [reflexivity|].
    split; [destruct (Py.truthy subject) | destruct (Py.truthy content)]; auto.
Qed.

(** The completion service is down: the email to send is the user's own
    subject and content. *)
Lemma compose_email_with_ai_falls_back_witness :
  fst (compose_email_with_ai Sample.rt Sample.down (VStr (lit "john@example.com"))
         (VStr (lit "Lunch")) (VStr []) (VStr []) Sample.connected)
  = Ok (VDict [ (lit "subject", VStr (lit "Lunch"));
                (lit "body", VStr default_body) ]).
Proof.
  assert (Hfails : composition_fails Sample.rt Sample.down
                     (compose_request Sample.rt (VStr (lit "john@example.com"))
                        (VStr (lit "Lunch")) (VStr []) (VStr []))
                     Sample.connected)
    by (apply compose_service_error with (e := Sample.unreachable); reflexivity).
  destruct (compose_email_with_ai_falls_back Hfails) as [-> _]. reflexivity.
Defined.

(** The send handler trusts the object the composer parses.  When the
    composed JSON is an object that lacks [subject] or [body], the handler
    fails with the missing key's name as its error, after the composing
    call alone: the gateway is not called and nothing is sent. *)
Theorem send_fails_on_an_incomplete_composition
        (rt : Runtime) (svc : Services) (d composed : dict) (w : World) :
  Py.truthy (parameter d "recipient") = true ->
  composes rt svc (send_compose_request rt d) w (VDict composed) ->
  Py.lookup composed (lit "subject") = None
  \/ Py.lookup composed (lit "body") = None ->
  exists key,
    (key = "subject"%string \/ key = "body"%string)
    /\ _handle_send_email rt svc (VDict d) w
       = (Ok (failure (lit "'" ++ lit key ++ lit "'")),
          after_call w (EvCompletion (send_compose_request rt d)))
    /\ weight gateway_cost (calls_during (_handle_send_email rt svc (VDict d)) w) = 0.
Proof.
  intros Hrecipient (response & body & Hresponse & Hbody & Hjson) Hmissing.
  assert (Hrun : exists key,
             (key = "subject"%string \/ key = "body"%string)
             /\ _handle_send_email rt svc (VDict d) w
                = (Ok (failure (lit "'" ++ lit key ++ lit "'")),
                   after_call w (EvCompletion (send_compose_request rt d)))).
  { unfold send_compose_request, parameter in *.
    unfold _handle_send_email, compose_email_with_ai, create.
    unfold try_except, bind, lift, call. cbn [Py.get].
    destruct (Py.lookup d (lit "recipient")) as [recipient|];
      [|discriminate Hrecipient].
    cbn [fst snd]. rewrite Hrecipient. cbn [negb].
    destruct (Py.lookup d (lit "subject")), (Py.lookup d (lit "content")),
      (Py.lookup d (lit "context")); cbn [fst snd];
      rewrite Hresponse; cbn [fst snd]; rewrite Hbody; cbn [fst snd];
      rewrite Hjson; cbn [fst snd Py.getitem];
      (destruct (Py.lookup composed (lit "subject")) as [subject|];
       [ destruct Hmissing as [Hmissing|Hmissing]; [discriminate Hmissing|];
         rewrite Hmissing; exists "body"%string; split; [now right | reflexivity]
       | exists "subject"%string; split; [now left | reflexivity] ]). }
  destruct Hrun as (key & Hkey & Hrun).
  exists key. split; [exact Hkey|]. split; [exact Hrun|].
  unfold calls_during. rewrite Hrun. unfold after_call; cbn [snd history].
  rewrite skipn_history. reflexivity.
Qed.

(** The composer's model answers with an object that has neither key. *)
Lemma send_fails_on_an_incomplete_composition_witness :
  exists key,
    fst (_handle_send_email Sample.rt (Sample.answering Sample.send_json)
           (VDict [ (lit "recipient", VStr (lit "john@example.com")) ])
           Sample.connected)
    = Ok (failure (lit "'" ++ lit key ++ lit "'")).
Proof.
  assert (Hcomposes : composes Sample.rt (Sample.answering Sample.send_json)
            (send_compose_request Sample.rt
               [ (lit "recipient", VStr (lit "john@example.com")) ])
            Sample.connected (VDict [ (lit "intent", VStr (lit "SEND")) ])).
  { do 2 eexists. repeat split. }
  destruct (@send_fails_on_an_incomplete_composition Sample.rt
              (Sample.answering Sample.send_json)
              [ (lit "recipient", VStr (lit "john@example.com")) ]
              [ (lit "intent", VStr (lit "SEND")) ] Sample.connected
              eq_refl Hcomposes (or_introl eq_refl))
    as (key & _ & Hrun & _).
  exists key. now rewrite Hrun.
Defined.

(** ** The shape of the handlers' results *)

Section Returns.

Context {A : Type} (post : A -> Prop).

Lemma returns_ret (a : A) : post a -> returns_only post (ret a).
Proof. intros Ha w a' H. cbn in H. now injection H as <-. Qed.

Lemma returns_bind {B} (c : M B) (k : B -> M A) :
  (forall b, returns_only post (k b)) -> returns_only post (bind c k).
Proof.
  intros Hk w a. unfold bind.
  destruct (c w) as [[b|e] w1]; cbn [fst]; [apply Hk|discriminate].
Qed.

Lemma returns_try_except (body : M A) (handler : exn -> M A) :
  returns_only post body -> (forall e, returns_only post (handler e)) ->
  returns_only post (try_except body handler).
Proof.
  intros Hbody Hhandler w a. unfold try_except. specialize (Hbody w).
  destruct (body w) as [[a'|e] w1]; cbn [fst] in *; [apply Hbody|apply Hhandler].
Qed.

Lemma returns_if (b : bool) (c d : M A) :
  returns_only post c -> returns_only post d ->
  returns_only post (if b then c else d).
Proof. now destruct b. Qed.

Lemma returns_weaken (post' : A -> Prop) (method : M A) :
  returns_only post' method -> (forall a, post' a -> post a) ->
  returns_only post method.
Proof. intros Hm Himp w a H. eapply Himp, Hm, H. Qed.

End Returns.

(** The result of a method follows its text: only the last step of each
    branch matters. *)
Ltac returns_step side :=
  lazymatch goal with
  | |- returns_only _ (try_except _ _) => eapply returns_try_except; [|intro]
  | |- returns_only _ (bind _ _) => eapply returns_bind; intro
  | |- returns_only _ (ret _) => eapply returns_ret; solve [side]
  | |- returns_only _ (if _ then _ else _) => eapply returns_if
  end.

Ltac returns_of_text side := cbv zeta; repeat (returns_step side; cbv zeta).

Ltac flagged_side :=
  first [ solve [left; eexists; reflexivity]
        | solve [right; do 3 eexists; repeat split] ].

Ltac flagged_or_error_side :=
  first [ solve [left; flagged_side]
        | solve [right; eexists; reflexivity] ].

Section Shapes.

Variable rt : Runtime.
Variable svc : Services.

Lemma search_returns_flagged (parameters : pyval) :
  returns_only flagged (_handle_search_emails rt svc parameters).
Proof. unfold _handle_search_emails, on_exception. returns_of_text flagged_side. Qed.

Lemma delete_returns_flagged (parameters : pyval) :
  returns_only flagged (_handle_delete_emails rt svc parameters).
Proof. unfold _handle_delete_emails, on_exception. returns_of_text flagged_side. Qed.

Lemma trash_returns_flagged (parameters : pyval) :
  returns_only flagged (_handle_move_to_trash rt svc parameters).
Proof. unfold _handle_move_to_trash, on_exception. returns_of_text flagged_side. Qed.

Lemma contacts_returns_flagged (parameters : pyval) :
  returns_only flagged (_handle_get_contacts rt svc parameters).
Proof. unfold _handle_get_contacts, on_exception. returns_of_text flagged_side. Qed.

Lemma mark_returns_flagged (state tool intent : string) (parameters : pyval) :
  returns_only flagged (mark_handler rt svc state tool intent parameters).
Proof. unfold mark_handler, on_exception. returns_of_text flagged_side. Qed.

Lemma read_returns_flagged (parameters : pyval) :
  returns_only flagged (_handle_read_email rt svc parameters).
Proof. unfold _handle_read_email, on_exception. returns_of_text flagged_side. Qed.

Lemma profile_returns_flagged (parameters : pyval) :
  returns_only flagged (_handle_get_profile rt svc parameters).
Proof. unfold _handle_get_profile, on_exception. returns_of_text flagged_side. Qed.

Lemma send_returns_flagged_or_error (parameters : pyval) :
  returns_only (fun result_ => flagged result_ \/ error_only result_)
               (_handle_send_email rt svc parameters).
Proof.
  unfold _handle_send_email, on_exception. returns_of_text flagged_or_error_side.
Qed.

Lemma create_label_returns_flagged_or_error (parameters : pyval) :
  returns_only (fun result_ => flagged result_ \/ error_only result_)
               (_handle_create_label rt svc parameters).
Proof.
  unfold _handle_create_label, on_exception. returns_of_text flagged_or_error_side.
Qed.

(** A handler that never raises and returns only values of a shape
    returns a value of that shape. *)
Lemma returned_shape (post : pyval -> Prop) (handler : M pyval) (w : World) :
  (exists result_ w', handler w = (Ok result_, w')) ->
  returns_only post handler ->
  exists result_ w', handler w = (Ok result_, w') /\ post result_.
Proof.
  intros (result_ & w' & Hrun) Hpost. exists result_, w'. split; [exact Hrun|].
  apply (Hpost w). now rewrite Hrun.
Qed.

End Shapes.

(** Whatever the parameters, the session and the services do, every
    handler returns a result, and the result says how the operation went:
    it is [{success: False, error: message}], or an object whose [success]
    is [True] and that holds [intent] and [formatted_result].  The only
    other result is the object with [error] alone of the send and the
    create-label handlers. *)
Theorem handler_results_are_flagged
        (rt : Runtime) (svc : Services) (parameters : pyval) (w : World) :
  Forall (fun handler : pyval -> M pyval =>
            exists result_ w', handler parameters w = (Ok result_, w')
                               /\ flagged result_)
         [ _handle_search_emails rt svc; _handle_delete_emails rt svc;
           _handle_move_to_trash rt svc; _handle_get_contacts rt svc;
           _handle_mark_as_read rt svc; _handle_mark_as_unread rt svc;
           _handle_read_email rt svc; _handle_get_profile rt svc ]
  /\ Forall (fun handler : pyval -> M pyval =>
               exists result_ w', handler parameters w = (Ok result_, w')
                                  /\ (flagged result_ \/ error_only result_))
            [ _handle_send_email rt svc; _handle_create_label rt svc ].
Proof.
  pose proof (handlers_never_raise rt svc parameters w) as Hreturn.
  apply Forall_cons_iff in Hreturn; destruct Hreturn as [Hsend Hreturn].
  apply Forall_cons_iff in Hreturn; destruct Hreturn as [Hsearch Hreturn].
  apply Forall_cons_iff in Hreturn; destruct Hreturn as [Hdelete Hreturn].
  apply Forall_cons_iff in Hreturn; destruct Hreturn as [Htrash Hreturn].
  apply Forall_cons_iff in Hreturn; destruct Hreturn as [Hcontacts Hreturn].
  apply Forall_cons_iff in Hreturn; destruct Hreturn as [Hmark_read Hreturn].
  apply Forall_cons_iff in Hreturn; destruct Hreturn as [Hmark_unread Hreturn].
  apply Forall_cons_iff in Hreturn; destruct Hreturn as [Hread Hreturn].
  apply Forall_cons_iff in Hreturn; destruct Hreturn as [Hlabel Hreturn].
  apply Forall_cons_iff in Hreturn; destruct Hreturn as [Hprofile _].
  split; repeat apply Forall_cons; try apply Forall_nil.
  - eapply returned_shape; [exact Hsearch|apply search_returns_flagged].
  - eapply returned_shape; [exact Hdelete|apply delete_returns_flagged].
  - eapply returned_shape; [exact Htrash|apply trash_returns_flagged].
  - eapply returned_shape; [exact Hcontacts|apply contacts_returns_flagged].
  - eapply returned_shape; [exact Hmark_read|apply mark_returns_flagged].
  - eapply returned_shape; [exact Hmark_unread|apply mark_returns_flagged].
  - eapply returned_shape; [exact Hread|apply read_returns_flagged].
  - eapply returned_shape; [exact Hprofile|apply profile_returns_flagged].
  - eapply returned_shape; [exact Hsend|apply send_returns_flagged_or_error].
  - eapply returned_shape; [exact Hlabel|apply create_label_returns_flagged_or_error].
Qed.

(** ** The parameters the marking handlers read *)

(** With a truthy [query], the marking handlers and the delete handler
    never use [email_id]: the criteria are [query or email_id]. *)
Theorem handlers_prefer_the_query
        (rt : Runtime) (svc : Services) (d : dict) (query email_id : pyval)
        (w : World) :
  Py.lookup d (lit "query") = Some query ->
  Py.truthy query = true ->
  Forall (fun handler : pyval -> M pyval =>
            handler (VDict (Py.store d (lit "email_id") email_id)) w
            = handler (VDict d) w)
         [ _handle_mark_as_read rt svc; _handle_mark_as_unread rt svc;
           _handle_delete_emails rt svc ].
Proof.
  intros Hquery Htruthy.
  repeat constructor;
    unfold _handle_mark_as_read, _handle_mark_as_unread, mark_handler,
      _handle_delete_emails;
    rewrite ?(@get_store_other d "email_id" "query") by discriminate;
    rewrite ?(@get_store_other d "email_id" "is_spam") by discriminate;
    unfold try_except, bind, lift; cbn [Py.get];
    rewrite lookup_store_same, Hquery;
    cbn [fst snd Py.or_]; unfold Py.or_; rewrite ?Htruthy.
  - destruct (Py.lookup d (lit "email_id")); reflexivity.
  - destruct (Py.lookup d (lit "email_id")); reflexivity.
  - destruct (Py.lookup d (lit "email_id")) as [old|];
      destruct (Py.lookup d (lit "is_spam")) as [flag|]; cbn [fst snd];
      try (destruct (Py.truthy flag); [destruct query; try reflexivity|]);
      cbn [Py.truthy fst snd]; rewrite ?Htruthy; reflexivity.
Qed.

(** "Mark the newsletter as read", with and without an identifier. *)
Lemma handlers_prefer_the_query_witness :
  _handle_mark_as_read Sample.rt Sample.silent
    (VDict (Py.store [ (lit "query", VStr (lit "newsletter")) ] (lit "email_id")
                     (VStr (lit "18c2f")))) Sample.connected
  = _handle_mark_as_read Sample.rt Sample.silent
      (VDict [ (lit "query", VStr (lit "newsletter")) ]) Sample.connected.
Proof.
  pose proof (@handlers_prefer_the_query Sample.rt Sample.silent
                [ (lit "query", VStr (lit "newsletter")) ]
                (VStr (lit "newsletter")) (VStr (lit "18c2f")) Sample.connected
                eq_refl eq_refl) as Hall.
  apply Forall_cons_iff in Hall. exact (proj1 Hall).
Defined.

(** ** A conversation *)

Section Conversation.

Variable rt : Runtime.
Variable svc : Services.

Lemma after_turns_cons (msg : ChatMessage) (msgs : list ChatMessage) (w : World) :
  after_turns rt svc (msg :: msgs) w
  = after_turns rt svc msgs (snd (handle_message rt svc msg w)).
Proof. reflexivity. Qed.

Lemma turns_keep_identity (msgs : list ChatMessage) (w : World) :
  same_identity (agent w) (agent (after_turns rt svc msgs w)).
Proof.
  revert w. induction msgs as [|msg msgs IH]; intros w.
  - repeat split.
  - rewrite after_turns_cons.
    eapply same_identity_trans; [apply handle_message_keeps_identity|apply IH].
Qed.

Lemma turn_keeps_credentials (msg : ChatMessage) (w : World) :
  is_authenticated (agent w) = true ->
  same_credentials (agent w) (agent (snd (handle_message rt svc msg w))).
Proof.
  intros Hauth. rewrite (@processed_turn_world rt svc msg w (or_intror Hauth)).
  apply process_query_keeps_credentials.
Qed.

Lemma credentials_keep_authentication (a b : GmailAgent) :
  same_credentials a b -> is_authenticated b = is_authenticated a.
Proof.
  intros (_ & Haccount & Htools). unfold is_authenticated.
  now rewrite Haccount, Htools.
Qed.

Lemma turns_keep_credentials (msgs : list ChatMessage) (w : World) :
  is_authenticated (agent w) = true ->
  same_credentials (agent w) (agent (after_turns rt svc msgs w)).
Proof.
  revert w. induction msgs as [|msg msgs IH]; intros w Hauth.
  - repeat split.
  - rewrite after_turns_cons.
    pose proof (turn_keeps_credentials msg w Hauth) as Hstep.
    eapply same_credentials_trans; [exact Hstep|]. apply IH.
    now rewrite (credentials_keep_authentication Hstep).
Qed.

Lemma turns_cost (cost : event -> nat) (n : nat) (msgs : list ChatMessage) (w : World) :
  (forall msg, costs_at_most cost n (handle_message rt svc msg)) ->
  exists new,
    history (after_turns rt svc msgs w) = history w ++ new
    /\ weight cost new <= n * length msgs.
Proof.
  intros Hturn. revert w. induction msgs as [|msg msgs IH]; intros w.
  - exists []. split; [now rewrite app_nil_r|cbn; lia].
  - rewrite after_turns_cons.
    destruct (Hturn msg w) as (first & Hfirst & Hn).
    destruct (IH (snd (handle_message rt svc msg w))) as (new & Hnew & Hrest).
    exists (first ++ new). split.
    + now rewrite Hnew, Hfirst, app_assoc.
    + rewrite weight_app. cbn [length]. lia.
Qed.

End Conversation.

(** Over a whole conversation, whatever the turns and the services: the
    session stays for the same mailbox; a session that is authenticated
    stays authenticated, with the same connection and tools; and [n]
    turns make at most [n] gateway calls and [5 n] completion calls. *)
Theorem conversation_keeps_the_session
        (rt : Runtime) (svc : Services) (msgs : list ChatMessage) (w : World) :
  same_identity (agent w) (agent (after_turns rt svc msgs w))
  /\ (is_authenticated (agent w) = true ->
      same_credentials (agent w) (agent (after_turns rt svc msgs w))
      /\ is_authenticated (agent (after_turns rt svc msgs w)) = true)
  /\ weight gateway_cost (calls_between w (after_turns rt svc msgs w)) <= length msgs
  /\ weight completion_cost (calls_between w (after_turns rt svc msgs w))
     <= 5 * length msgs.
Proof.
  split; [apply turns_keep_identity|]. split.
  - intros Hauth. pose proof (turns_keep_credentials rt svc msgs w Hauth) as Hsame.
    split; [exact Hsame|].
    now rewrite (credentials_keep_authentication Hsame).
  - unfold calls_between. split.
    + destruct (@turns_cost rt svc gateway_cost 1 msgs w
                  (handle_message_gateway_bound rt svc)) as (new & -> & Hn).
      rewrite skipn_history. lia.
    + destruct (@turns_cost rt svc completion_cost 5 msgs w
                  (handle_message_completion_bound rt svc)) as (new & -> & Hn).
      rewrite skipn_history. lia.
Qed.

(** Two turns on a connected session. *)
Lemma conversation_keeps_the_session_witness :
  is_authenticated
    (agent (after_turns Sample.rt (Sample.answering Sample.auth_json)
              [Case.turn; Case.turn] Sample.connected)) = true.
Proof.
  exact (proj2 (proj1 (proj2 (conversation_keeps_the_session
                                Sample.rt (Sample.answering Sample.auth_json)
                                [Case.turn; Case.turn] Sample.connected))
                      eq_refl)).
Defined.
